(** * Venmito data merger: a shallow embedding of [src/data/merger.py]

    The module merges two person registries, resolves e-mail and phone
    references of promotions and transactions to user ids, and derives
    per-user, per-item and per-store summaries.  The Python code works on
    pandas data frames; the embedding below models a frame as its column
    labels together with its rows, every row a finite map from column
    label to cell.

    Modelling conventions, used throughout:
    - a missing value ([None], [NaN]) is the single cell [NA];
    - a finite number (int64 or float64) is an exact rational [Num];
      the two float infinities are [Inf]; [NaN] is [NA].  Sums,
      differences and quotients are computed exactly: they are those
      of the code where int64 does not wrap around and float64 does
      not round, which the theorems on computed amounts require of
      their columns ([exact_column]: integers whose absolute values
      add up to at most [2^52]);
    - the row index of a frame is the default one (unique labels), so
      label-based access [df.at[index, col]] is positional;
    - a Python list held in a cell is a list of strings;
    - the column labels of a frame are distinct, a column of numbers
      has a numeric dtype, and the operations are those of pandas 2. *)

From Stdlib Require Import QArith Qcanon Qabs.
From stdpp Require Import base decidable option numbers strings list gmap sorting pretty.

Set Warnings "-clear-no-such-hyp".

Local Open Scope string_scope.
Local Open Scope list_scope.

(** ** Cells *)

Inductive cell : Type :=
| NA
| Num (x : Qc)
| Inf (neg : bool)
| Str (s : string)
| Lst (l : list string).

Global Instance cell_eq_dec : EqDecision cell.
Proof. solve_decision. Defined.

Global Instance cell_inhabited : Inhabited cell := populate NA.

(** [pd.notna] *)
Definition notna (c : cell) : bool :=
  match c with NA => false | _ => true end.

(** [pd.isna] *)
Definition isna (c : cell) : bool := negb (notna c).

(** [isinstance(x, list)] *)
Definition is_list (c : cell) : bool :=
  match c with Lst _ => true | _ => false end.

(** An integer as a cell. *)
Definition Int (z : Z) : cell := Num (Q2Qc (inject_Z z)).

(** *** Arithmetic on cells

    Exact arithmetic on the extended rationals, with the special values
    of IEEE: an undefined result is [NA] (NaN), a non-zero number
    divided by zero is an infinity.  The code computes in int64 and in
    float64; its results are the exact ones as long as every operand
    and result is an integer of absolute value at most [2^53].  Beyond
    that int64 wraps around and float64 rounds, which these
    definitions do not follow. *)

Definition cell_neg (a : cell) : cell :=
  match a with
  | Num x => Num (- x)%Qc
  | Inf s => Inf (negb s)
  | _ => NA
  end.

Definition cell_add (a b : cell) : cell :=
  match a, b with
  | Num x, Num y => Num (x + y)%Qc
  | Inf s, Num _ => Inf s
  | Num _, Inf s => Inf s
  | Inf s, Inf s' => if decide (s = s') then Inf s else NA
  | _, _ => NA
  end.

Definition cell_sub (a b : cell) : cell :=
  match a, b with
  | Num x, Num y => Num (x - y)%Qc
  | _, _ => cell_add a (cell_neg b)
  end.

Definition Qc_neg (x : Qc) : bool := bool_decide (x < 0)%Qc.

Definition cell_div (a b : cell) : cell :=
  match a, b with
  | Num x, Num y =>
      if decide (y = 0%Qc)
      then (if decide (x = 0%Qc) then NA else Inf (Qc_neg x))
      else Num (x / y)%Qc
  | Num _, Inf _ => Num 0%Qc
  | Inf s, Num y => Inf (xorb s (Qc_neg y))
  | _, _ => NA
  end.

(** Rounding of an exact rational to the nearest integer, ties to
    even. *)
Definition round_half_even (q : Q) : Z :=
  let n := Qnum q in
  let d := Zpos (Qden q) in
  let f := (n / d)%Z in
  match (2 * (n mod d) ?= d)%Z with
  | Lt => f
  | Gt => (f + 1)%Z
  | Eq => if Z.even f then f else (f + 1)%Z
  end.

(** [Series.round(2)], on the exact value of the cell.  A double that
    is not a multiple of a hundredth can round the other way (0.575 is
    stored slightly below 0.575); the theorems use [round2] on whole
    numbers only, which it leaves as they are. *)
Definition round2 (c : cell) : cell :=
  match c with
  | Num x => Num (Q2Qc (round_half_even (x * 100)%Q # 100))
  | _ => c
  end.

(** [Series.sum()] of a column: missing values are skipped.  The sum is
    exact; it is the sum of the code on a column of exact amounts (see
    [exact_amounts] below). *)
Definition col_sum (l : list cell) : cell :=
  foldl cell_add (Num 0%Qc) (filter (λ c, notna c = true) l).

(** [Series.nunique()]: the number of distinct non-missing values. *)
Definition nunique (l : list cell) : cell :=
  Int (Z.of_nat (length (remove_dups (filter (λ c, notna c = true) l)))).

(** [Series.fillna(0)] on one cell. *)
Definition fillna0 (c : cell) : cell :=
  match c with NA => Num 0%Qc | _ => c end.

(** [Series.astype(int)] on one cell: truncation towards zero.  It is
    only applied after [fillna(0)] to counts, which are finite. *)
Definition astype_int (c : cell) : cell :=
  match c with
  | Num x => Int (Z.quot (Qnum x) (Zpos (Qden x)))
  | _ => c
  end.

(** ** Data frames *)

Record DataFrame : Type := mkDF {
  columns : list string;
  rows : list (gmap string cell)
}.

Global Instance DataFrame_eq_dec : EqDecision DataFrame.
Proof. solve_decision. Defined.

(** [pd.DataFrame()] *)
Definition empty_df : DataFrame := mkDF [] [].

(** [row[col]] *)
Definition get (r : gmap string cell) (c : string) : cell :=
  default NA (r !! c).

(** [df[col]] as the list of its cells *)
Definition column (df : DataFrame) (c : string) : list cell :=
  (λ r, get r c) <$> rows df.

(** [col in df.columns] *)
Definition has_column (df : DataFrame) (c : string) : bool :=
  bool_decide (c ∈ columns df).

(** [df[col] = None] for a column that is absent *)
Definition add_none_column (c : string) (df : DataFrame) : DataFrame :=
  mkDF (columns df ++ [c]) ((λ r, <[c := NA]> r) <$> rows df).

(** [df[col] = df[col].apply(f)] *)
Definition apply_column (f : cell → cell) (c : string) (df : DataFrame)
  : DataFrame :=
  mkDF (columns df) ((λ r, <[c := f (get r c)]> r) <$> rows df).

(** [df.drop(columns=[col], errors='ignore')] *)
Definition drop_column (c : string) (df : DataFrame) : DataFrame :=
  mkDF (filter (λ c', c' ≠ c) (columns df)) (delete c <$> rows df).

(** A row restricted and completed to the given labels. *)
Definition reindex (cols : list string) (r : gmap string cell)
  : gmap string cell :=
  foldr (λ c m, <[c := get r c]> m) ∅ cols.

(** [pd.concat([a, b], ignore_index=True)]: the union of the column
    labels in order of appearance, the rows of [a] followed by the rows
    of [b], absent cells missing. *)
Definition pd_concat (a b : DataFrame) : DataFrame :=
  let cols := columns a ++ filter (λ c, c ∉ columns a) (columns b) in
  mkDF cols (reindex cols <$> (rows a ++ rows b)).

(** [df.drop_duplicates(subset=[key], keep='first')]; missing keys are
    equal to one another. *)
Fixpoint keep_first (key : string) (seen : list cell)
    (rs : list (gmap string cell)) : list (gmap string cell) :=
  match rs with
  | [] => []
  | r :: rs' =>
      if decide (get r key ∈ seen) then keep_first key seen rs'
      else r :: keep_first key (get r key :: seen) rs'
  end.

Definition drop_duplicates (key : string) (df : DataFrame) : DataFrame :=
  mkDF (columns df) (keep_first key [] (rows df)).

(** ** [DataMerger]: the error list shared by all mergers *)

(** [_add_error] *)
Definition _add_error (message : string) (merge_errors : list string)
  : list string :=
  merge_errors ++ [message].

(** [get_errors] *)
Definition get_errors (merge_errors : list string) : list string :=
  merge_errors.

(** The schema of a person table. *)
Definition common_columns : list string :=
  ["user_id"; "first_name"; "last_name"; "email"; "phone";
   "city"; "country"; "devices"].

(** ** [MainDataMerger] *)

(** [', '.join(map(str, x)) if isinstance(x, list) else x] *)
Definition join_list (c : cell) : cell :=
  match c with
  | Lst l => Str (String.concat ", " l)
  | _ => c
  end.

(** Lines 671-676: every column that holds a list is rewritten. *)
Definition convert_list_columns (df : DataFrame) : DataFrame :=
  foldl (λ d col,
           if existsb is_list (column d col)
           then apply_column join_list col d
           else d)
        df (columns df).

(** Lines 693-698: columns of the schema that are absent are added,
    filled with [None]. *)
Definition fill_missing_columns (df : DataFrame) : DataFrame :=
  foldl (λ d col, add_none_column col d) df
        (filter (λ col, col ∉ columns df) common_columns).

(** [MainDataMerger.merge].  The constructor also stores promotions,
    transfers, transactions and an output directory; [merge] reads none
    of them.  No operation of the body raises on the cells of the
    model, so the handler of the [try] is not reached. *)
Definition MainDataMerger_merge
    (people_json_df people_yml_df promotions_df transfers_df : DataFrame)
    (transactions_df : option DataFrame)
  : gmap string DataFrame :=
  let json := fill_missing_columns (convert_list_columns people_json_df) in
  let yml := fill_missing_columns (convert_list_columns people_yml_df) in
  let merged_df := pd_concat json yml in
  let merged_df :=
    if has_column merged_df "user_id"
    then drop_duplicates "user_id" merged_df
    else merged_df in
  {[ "people" := merged_df ]}.

(** ** Exceptions and the error list

    A method body runs against the [merge_errors] list of its merger
    and either returns a value or raises.  [exn_str] is [str(e)]. *)

Inductive exn : Type :=
| KeyError (msg : string)
| TypeError (msg : string).

Definition exn_str (e : exn) : string :=
  match e with KeyError msg => msg | TypeError msg => msg end.

Inductive outcome (A : Type) : Type :=
| Ok (a : A)
| Raise (e : exn).
Arguments Ok {A} a.
Arguments Raise {A} e.

Definition M (A : Type) : Type := list string → outcome A * list string.

Global Instance M_ret : MRet M := λ A a errs, (Ok a, errs).

Global Instance M_bind : MBind M := λ A B k m errs,
  match m errs with
  | (Ok a, errs') => k a errs'
  | (Raise e, errs') => (Raise e, errs')
  end.

Definition raise {A : Type} (e : exn) : M A := λ errs, (Raise e, errs).

(** [self._add_error(message)] inside a body *)
Definition add_error (message : string) : M unit :=
  λ errs, (Ok tt, _add_error message errs).

(** ** [UserReferencesMerger] *)

(** [df.set_index(key)['user_id'].to_dict()] as the list of its items
    in row order; a later item with the same key overrides an earlier
    one.  Selecting [user_id] raises when the people table lacks it. *)
Definition lookup_map (people_df : DataFrame) (key : string)
  : M (list (cell * cell)) :=
  if has_column people_df "user_id"
  then mret ((λ r, (get r key, get r "user_id")) <$> rows people_df)
  else raise (KeyError "'user_id'").

(** [d[k]] when [k in d] *)
Definition dict_get (k : cell) (d : list (cell * cell)) : option cell :=
  foldl (λ acc kv, if decide (kv.1 = k) then Some kv.2 else acc) None d.

(** One iteration of the lookup loops:
    [if pd.notna(row[raw]) and row[raw] in d: df.at[index, 'user_id'] = d[row[raw]]] *)
Definition fill_user_id (d : list (cell * cell)) (raw : string)
    (r : gmap string cell) : gmap string cell :=
  if notna (get r raw)
  then match dict_get (get r raw) d with
       | Some v => <["user_id" := v]> r
       | None => r
       end
  else r.

(** The phone loop of the promotions runs over [promotions_df[mask]],
    the rows whose [user_id] is still missing. *)
Definition fill_user_id_masked (d : list (cell * cell)) (raw : string)
    (r : gmap string cell) : gmap string cell :=
  if isna (get r "user_id") then fill_user_id d raw r else r.

Definition map_rows (f : gmap string cell → gmap string cell)
    (df : DataFrame) : DataFrame :=
  mkDF (columns df) (f <$> rows df).

(** ['user_id' in df.columns and not df['user_id'].isna().all()] *)
Definition already_resolved (df : DataFrame) : bool :=
  has_column df "user_id" && negb (forallb isna (column df "user_id")).

(** [df['user_id'].isna().sum()] *)
Definition missing_user_id (df : DataFrame) : nat :=
  length (filter (λ c, isna c = true) (column df "user_id")).

(** Lines 217-220 and 258-261. *)
Definition report_missing (kind : string) (df : DataFrame) : M unit :=
  if decide (0 < missing_user_id df)
  then add_error ("Could not find user_id for "
                  +:+ pretty (missing_user_id df) +:+ " " +:+ kind)
  else mret tt.

(** [UserReferencesMerger._add_user_references_to_promotions] *)
Definition _add_user_references_to_promotions
    (people_df promotions_df : DataFrame) : M DataFrame :=
  if already_resolved promotions_df then mret promotions_df
  else
    let promotions_df :=
      if has_column promotions_df "user_id" then promotions_df
      else add_none_column "user_id" promotions_df in
    promotions_df ←
      (if has_column promotions_df "client_email"
          && has_column people_df "email"
       then
         email_map ← lookup_map people_df "email";
         mret (drop_column "client_email"
                 (map_rows (fill_user_id email_map "client_email")
                           promotions_df))
       else mret promotions_df);
    promotions_df ←
      (if has_column promotions_df "telephone"
          && has_column people_df "phone"
       then
         phone_map ← lookup_map people_df "phone";
         mret (drop_column "telephone"
                 (map_rows (fill_user_id_masked phone_map "telephone")
                           promotions_df))
       else mret promotions_df);
    _ ← report_missing "promotions" promotions_df;
    mret promotions_df.

(** [UserReferencesMerger._add_user_references_to_transactions] *)
Definition _add_user_references_to_transactions
    (people_df : DataFrame) (transactions_df : option DataFrame)
  : M DataFrame :=
  match transactions_df with
  | None => mret empty_df
  | Some transactions_df =>
      if already_resolved transactions_df then mret transactions_df
      else
        let transactions_df :=
          if has_column transactions_df "user_id" then transactions_df
          else add_none_column "user_id" transactions_df in
        transactions_df ←
          (if has_column transactions_df "phone"
              && has_column people_df "phone"
           then
             phone_map ← lookup_map people_df "phone";
             mret (drop_column "phone"
                     (map_rows (fill_user_id phone_map "phone")
                               transactions_df))
           else mret transactions_df);
        _ ← report_missing "transactions" transactions_df;
        mret transactions_df
  end.

(** The body of the [try] of [UserReferencesMerger.merge].  A value of
    the returned mapping is a frame or Python's [None]. *)
Definition UserReferencesMerger_merge_body
    (people_df promotions_df : DataFrame) (transactions_df : option DataFrame)
  : M (gmap string (option DataFrame)) :=
  promotions ← _add_user_references_to_promotions people_df promotions_df;
  let result : gmap string (option DataFrame) :=
    {[ "promotions" := Some promotions ]} in
  match transactions_df with
  | Some _ =>
      transactions ←
        _add_user_references_to_transactions people_df transactions_df;
      mret (<["transactions" := Some transactions]> result)
  | None => mret result
  end.

(** [UserReferencesMerger.merge]: the mapping returned and the error
    list afterwards. *)
Definition UserReferencesMerger_merge
    (people_df promotions_df : DataFrame) (transactions_df : option DataFrame)
    (merge_errors : list string)
  : gmap string (option DataFrame) * list string :=
  match UserReferencesMerger_merge_body people_df promotions_df
          transactions_df merge_errors with
  | (Ok result, errs) => (result, errs)
  | (Raise e, errs) =>
      let error_msg :=
        "Unexpected error in user reference merging: " +:+ exn_str e in
      ({[ "promotions" := Some promotions_df;
          "transactions" := transactions_df ]},
       _add_error error_msg errs)
  end.

(** ** [PeopleMerger]

    [PeopleMerger] keeps the two frames it was given, not copies, and
    assigns to their columns: the frames live in a store and the merger
    holds references into it. *)

Abbreviation store := (list DataFrame).

Definition frame_at (σ : store) (ref : nat) : DataFrame :=
  default empty_df (σ !! ref).

Record PeopleMerger : Type := mkPeopleMerger {
  pm_people_json_df : nat;
  pm_people_yml_df : nat;
  pm_merge_errors : list string
}.

(** Lines 128-132 on one of the two frames: [df[col] = None] for every
    schema column that is absent, on the caller's frame itself. *)
Definition fill_missing_in_place (ref : nat) (σ : store) : store :=
  <[ref := fill_missing_columns (frame_at σ ref)]> σ.

Definition same_key (on : list string) (l r : gmap string cell) : bool :=
  forallb (λ c, bool_decide (get l c = get r c)) on.

Definition has_list_key (on : list string) (df : DataFrame) : bool :=
  existsb (λ r, existsb (λ c, is_list (get r c)) on) (rows df).

(** [pd.merge(left, right, on=on, how='outer', suffixes=(ls, rs))].
    Both frames have all the [on] columns.  A row of the result is a
    pair of rows that agree on every [on] column, or an unmatched row
    of either side completed with missing cells.  A list in a key
    column cannot be hashed.  pandas orders the result by the keys;
    here the rows come in the order left, then right-only. *)
Definition pd_merge_outer (on : list string) (ls rs : string)
    (left right : DataFrame) : outcome DataFrame :=
  if has_list_key on left || has_list_key on right
  then Raise (TypeError "unhashable type: 'list'")
  else
    let lextra := filter (λ c, c ∉ on) (columns left) in
    let rextra := filter (λ c, c ∉ on) (columns right) in
    let lname c := if decide (c ∈ rextra) then c +:+ ls else c in
    let rname c := if decide (c ∈ lextra) then c +:+ rs else c in
    let joined (keys l r : gmap string cell) : gmap string cell :=
      foldr (λ c m, <[c := get keys c]> m)
        (foldr (λ c m, <[lname c := get l c]> m)
           (foldr (λ c m, <[rname c := get r c]> m) ∅ rextra) lextra) on in
    let matched :=
      flat_map (λ l,
          match filter (λ r, same_key on l r = true) (rows right) with
          | [] => [joined l l ∅]
          | ms => (λ r, joined l l r) <$> ms
          end) (rows left) in
    let right_only :=
      (λ r, joined r ∅ r) <$>
        filter (λ r, forallb (λ l, negb (same_key on l r)) (rows left) = true)
               (rows right) in
    Ok (mkDF (((λ c, if decide (c ∈ on) then c else lname c) <$> columns left)
              ++ (rname <$> rextra))
             (matched ++ right_only)).

(** [set(df['user_id']) if 'user_id' in df.columns else set()], lines
    113-114: a list cannot be hashed. *)
Definition user_id_set (df : DataFrame) : outcome (list cell) :=
  if has_column df "user_id"
  then if existsb is_list (column df "user_id")
       then Raise (TypeError "unhashable type: 'list'")
       else Ok (remove_dups (column df "user_id"))
  else Ok [].

(** The body of the [try] of [PeopleMerger.merge]: the frame joined or
    the exception raised, and the store at that point.  The two id sets
    are only counted for the log. *)
Definition PeopleMerger_merge_body (self : PeopleMerger) (σ : store)
  : outcome DataFrame * store :=
  match user_id_set (frame_at σ (pm_people_json_df self)) with
  | Raise e => (Raise e, σ)
  | Ok json_ids =>
      match user_id_set (frame_at σ (pm_people_yml_df self)) with
      | Raise e => (Raise e, σ)
      | Ok yml_ids =>
          let σ := fill_missing_in_place (pm_people_json_df self) σ in
          let σ := fill_missing_in_place (pm_people_yml_df self) σ in
          (pd_merge_outer common_columns "_json" "_yml"
             (frame_at σ (pm_people_json_df self))
             (frame_at σ (pm_people_yml_df self)), σ)
      end
  end.

(** [PeopleMerger.merge]: the mapping returned, the error list and the
    store afterwards. *)
Definition PeopleMerger_merge (self : PeopleMerger) (σ : store)
  : gmap string DataFrame * list string * store :=
  match PeopleMerger_merge_body self σ with
  | (Ok merged_df, σ) => ({[ "people" := merged_df ]}, pm_merge_errors self, σ)
  | (Raise e, σ) =>
      let error_msg :=
        "Unexpected error in people data merging: " +:+ exn_str e in
      ({[ "people" := empty_df ]},
       _add_error error_msg (pm_merge_errors self), σ)
  end.

(** ** [MainDataMerger] and the frames of its caller

    [MainDataMerger.merge] copies the two person frames (lines 667 and
    668) and assigns to the columns of the copies (lines 676 and 698),
    where [PeopleMerger.merge] assigns to the frames it was given.
    The copy is a new frame of the store. *)





(** ** Grouping and joining *)

(** The order of numbers, with the two infinities. *)
Definition num_ltb (a b : cell) : bool :=
  match a, b with
  | Num x, Num y => bool_decide (x < y)%Qc
  | Inf true, (Num _ | Inf false) => true
  | Num _, Inf false => true
  | _, _ => false
  end.

(** The order in which group keys are sorted: numbers by value,
    strings lexicographically, numbers before strings. *)
Definition cell_leb (a b : cell) : bool :=
  match a, b with
  | (Num _ | Inf _), (Num _ | Inf _) => negb (num_ltb b a)
  | (Num _ | Inf _), _ => true
  | Str s, Str t => String.leb s t
  | Str _, (Lst _ | NA) => true
  | Lst _, (Lst _ | NA) => true
  | NA, NA => true
  | _, _ => false
  end.

Definition cell_le (a b : cell) : Prop := cell_leb a b = true.

Global Instance cell_le_dec : RelDecision cell_le.
Proof. intros a b. unfold cell_le. apply _. Defined.

(** The keys of [df.groupby(key)]: distinct, missing keys dropped,
    sorted. *)
Definition group_keys (key : string) (df : DataFrame) : list cell :=
  merge_sort cell_le
    (remove_dups (filter (λ c, notna c = true) (column df key))).

(** The rows of one group. *)
Definition group (key : string) (k : cell) (df : DataFrame)
  : list (gmap string cell) :=
  filter (λ r, get r key = k) (rows df).

Definition cells (c : string) (rs : list (gmap string cell)) : list cell :=
  (λ r, get r c) <$> rs.

(** [df.groupby(key)[c].sum()] and the like: a series is the list of
    its (label, value) items. *)
Definition grouped (key : string) (f : list (gmap string cell) → cell)
    (df : DataFrame) : list (cell * cell) :=
  (λ k, (k, f (group key k df))) <$> group_keys key df.

(** [s.get(label)]: the value at a label, if any. *)
Fixpoint series_get (label : cell) (s : list (cell * cell)) : option cell :=
  match s with
  | [] => None
  | kv :: s' => if decide (kv.1 = label) then Some kv.2 else series_get label s'
  end.

(** [s.get(label, 0)] *)
Definition series_get0 (label : cell) (s : list (cell * cell)) : cell :=
  default (Num 0%Qc) (series_get label s).

(** [df['user_id'].map(s)] on one cell: missing when the label is not
    in the series. *)
Definition series_map (label : cell) (s : list (cell * cell)) : cell :=
  default NA (series_get label s).

(** [Series.mode()]: the most frequent non-missing values, sorted. *)
Definition mode (l : list cell) : list cell :=
  let vals := filter (λ c, notna c = true) l in
  let keys := merge_sort cell_le (remove_dups vals) in
  let count k := length (filter (λ v, v = k) vals) in
  filter (λ k, count k = max_list (count <$> keys)) keys.

(** [Series.idxmax()]: the label of the first greatest value, missing
    values skipped. *)
Fixpoint idxmax_from (best : cell * cell) (s : list (cell * cell)) : cell :=
  match s with
  | [] => best.1
  | kv :: s' =>
      if num_ltb best.2 kv.2 then idxmax_from kv s' else idxmax_from best s'
  end.

Definition idxmax (s : list (cell * cell)) : cell :=
  match filter (λ kv, notna kv.2 = true) s with
  | [] => NA
  | kv :: s' => idxmax_from kv s'
  end.

(** [people_df[['user_id']]] *)
Definition select_user_id (people_df : DataFrame) : outcome DataFrame :=
  if has_column people_df "user_id"
  then Ok (mkDF ["user_id"] (reindex ["user_id"] <$> rows people_df))
  else Raise (KeyError "['user_id'] not in index").

(** [pd.merge(left, right, on='user_id', how='left')] for a left frame
    that has the single column [user_id]: every left row, in order,
    paired with each right row of the same [user_id], or completed with
    missing cells when there is none. *)
Definition pd_merge_left (left right : DataFrame) : DataFrame :=
  let extra := filter (λ c, c ≠ "user_id") (columns right) in
  let joined (l r : gmap string cell) : gmap string cell :=
    foldr (λ c m, <[c := get r c]> m) l extra in
  mkDF (columns left ++ extra)
    (flat_map (λ l,
         match filter (λ r, get r "user_id" = get l "user_id") (rows right)
         with
         | [] => [joined l ∅]
         | ms => joined l <$> ms
         end) (rows left)).

(** [repr] of a list of strings, as an f-string prints it. *)
Definition repr_list (l : list string) : string :=
  "[" +:+ String.concat ", " ((λ c, "'" +:+ c +:+ "'") <$> l) +:+ "]".

(** [[col for col in required if col not in df.columns]] *)
Definition missing_required (required : list string) (df : DataFrame)
  : list string :=
  filter (λ col, col ∉ columns df) required.

(** ** [UserTransactionsMerger] *)

(** [_get_favorite_store] and [_get_favorite_item] *)
Definition _get_favorite (values : list cell) : cell :=
  match values with
  | [] => NA
  | _ => match mode values with [] => NA | m :: _ => m end
  end.

(** Lines 361-369: one row per group of [user_id]. *)
Definition user_transactions_aggregated (transactions_df : DataFrame)
  : DataFrame :=
  mkDF ["user_id"; "total_spent"; "transaction_count";
        "favorite_store"; "favorite_item"]
    ((λ k, let g := group "user_id" k transactions_df in
           ({[ "user_id" := k;
               "total_spent" := col_sum (cells "price" g);
               "transaction_count" := nunique (cells "transaction_id" g);
               "favorite_store" := _get_favorite (cells "store" g);
               "favorite_item" := _get_favorite (cells "item" g) ]}
            : gmap string cell))
       <$> group_keys "user_id" transactions_df).

(** [UserTransactionsMerger.merge] *)
Definition UserTransactionsMerger_merge
    (transactions_df people_df : DataFrame) (merge_errors : list string)
  : gmap string DataFrame * list string :=
  let required_columns :=
    ["user_id"; "transaction_id"; "price"; "item"; "store"] in
  match missing_required required_columns transactions_df with
  | (_ :: _) as missing =>
      ({[ "user_transactions" := empty_df ]},
       _add_error
         ("Missing required columns for user transactions summary: "
          +:+ repr_list missing) merge_errors)
  | [] =>
      let aggregated_df := user_transactions_aggregated transactions_df in
      match select_user_id people_df with
      | Ok ids =>
          let result_df := pd_merge_left ids aggregated_df in
          let result_df := apply_column fillna0 "total_spent" result_df in
          let result_df :=
            apply_column (λ c, astype_int (fillna0 c)) "transaction_count"
                         result_df in
          ({[ "user_transactions" := result_df ]}, merge_errors)
      | Raise e =>
          let error_msg :=
            "Unexpected error in user transactions merging: "
            +:+ exn_str e in
          ({[ "user_transactions" := empty_df ]},
           _add_error error_msg merge_errors)
      end
  end.

(** ** [UserTransfersMerger] *)

(** Lines 421-448: the per-user tallies over every id that occurs as a
    sender or as a recipient.  [set(...)] fixes no order of the ids;
    the join that follows looks rows up by id. *)
Definition user_transfers_result (transfers_df : DataFrame) : DataFrame :=
  let sent_total :=
    grouped "sender_id" (λ g, col_sum (cells "amount" g)) transfers_df in
  let sent_count :=
    grouped "sender_id" (λ g, nunique (cells "transfer_id" g)) transfers_df in
  let received_total :=
    grouped "recipient_id" (λ g, col_sum (cells "amount" g)) transfers_df in
  let received_count :=
    grouped "recipient_id" (λ g, nunique (cells "transfer_id" g))
            transfers_df in
  let all_user_ids :=
    remove_dups (column transfers_df "sender_id"
                 ++ column transfers_df "recipient_id") in
  let net_transferred :=
    (λ user_id,
       let sent := series_get0 user_id sent_total in
       let received := series_get0 user_id received_total in
       (user_id, cell_sub received sent)) <$> all_user_ids in
  mkDF ["user_id"; "total_sent"; "total_received"; "net_transferred";
        "sent_count"; "received_count"; "transfer_count"]
    ((λ user_id,
        let sc := astype_int (fillna0 (series_map user_id sent_count)) in
        let rc := astype_int (fillna0 (series_map user_id received_count)) in
        ({[ "user_id" := user_id;
            "total_sent" := fillna0 (series_map user_id sent_total);
            "total_received" := fillna0 (series_map user_id received_total);
            "net_transferred" :=
              fillna0 (series_map user_id net_transferred);
            "sent_count" := sc;
            "received_count" := rc;
            "transfer_count" := cell_add sc rc ]} : gmap string cell))
       <$> all_user_ids).

(** [UserTransfersMerger.merge] *)
Definition UserTransfersMerger_merge
    (transfers_df people_df : DataFrame) (merge_errors : list string)
  : gmap string DataFrame * list string :=
  let required_columns :=
    ["transfer_id"; "sender_id"; "recipient_id"; "amount"] in
  match missing_required required_columns transfers_df with
  | (_ :: _) as missing =>
      ({[ "user_transfers" := empty_df ]},
       _add_error
         ("Missing required columns for user transfers summary: "
          +:+ repr_list missing) merge_errors)
  | [] =>
      let result_df := user_transfers_result transfers_df in
      match select_user_id people_df with
      | Ok ids =>
          let result_df := pd_merge_left ids result_df in
          let result_df :=
            foldl (λ d col, apply_column fillna0 col d) result_df
                  ["total_sent"; "total_received"; "net_transferred"] in
          let result_df :=
            foldl (λ d col, apply_column (λ c, astype_int (fillna0 c)) col d)
                  result_df
                  ["sent_count"; "received_count"; "transfer_count"] in
          ({[ "user_transfers" := result_df ]}, merge_errors)
      | Raise e =>
          let error_msg :=
            "Unexpected error in user transfers merging: " +:+ exn_str e in
          ({[ "user_transfers" := empty_df ]},
           _add_error error_msg merge_errors)
      end
  end.

(** ** [ItemSummaryMerger] *)

(** [ItemSummaryMerger.merge].  The division of the two aggregated
    columns is the float division of pandas; on typed transactions
    (prices and quantities that are numbers, keys that are no lists) no
    operation of the body raises. *)
Definition ItemSummaryMerger_merge
    (transactions_df : DataFrame) (merge_errors : list string)
  : gmap string DataFrame * list string :=
  let required_columns := ["item"; "price"; "quantity"; "transaction_id"] in
  match missing_required required_columns transactions_df with
  | (_ :: _) as missing =>
      ({[ "item_summary" := empty_df ]},
       _add_error
         ("Missing required columns for item summary: "
          +:+ repr_list missing) merge_errors)
  | [] =>
      let aggregated_df :=
        mkDF ["item"; "total_revenue"; "items_sold"; "transaction_count";
              "average_price"]
          ((λ k, let g := group "item" k transactions_df in
                 let total_revenue := col_sum (cells "price" g) in
                 let items_sold := col_sum (cells "quantity" g) in
                 ({[ "item" := k;
                     "total_revenue" := total_revenue;
                     "items_sold" := items_sold;
                     "transaction_count" :=
                       nunique (cells "transaction_id" g);
                     "average_price" :=
                       round2 (cell_div total_revenue items_sold) ]}
                  : gmap string cell))
             <$> group_keys "item" transactions_df) in
      ({[ "item_summary" := aggregated_df ]}, merge_errors)
  end.

(** ** [StoreSummaryMerger] *)

(** [x == y] on one cell of a column: never true of a missing value. *)
Definition cell_eqb (x y : cell) : bool :=
  notna x && notna y && bool_decide (x = y).

(** [self.transactions_df[self.transactions_df['store'] == store]] *)
Definition store_data (transactions_df : DataFrame) (store : cell)
  : DataFrame :=
  mkDF (columns transactions_df)
       (filter (λ r, cell_eqb (get r "store") store = true)
               (rows transactions_df)).

(** [_get_most_sold_item] *)
Definition _get_most_sold_item (transactions_df : DataFrame) (store : cell)
  : cell :=
  let store_data := store_data transactions_df store in
  match rows store_data with
  | [] => NA
  | _ => idxmax (grouped "item" (λ g, col_sum (cells "quantity" g))
                         store_data)
  end.

(** [_get_most_profitable_item] *)
Definition _get_most_profitable_item (transactions_df : DataFrame)
    (store : cell) : cell :=
  let store_data := store_data transactions_df store in
  match rows store_data with
  | [] => NA
  | _ => idxmax (grouped "item" (λ g, col_sum (cells "price" g)) store_data)
  end.

(** [StoreSummaryMerger.merge] *)
Definition StoreSummaryMerger_merge
    (transactions_df : DataFrame) (merge_errors : list string)
  : gmap string DataFrame * list string :=
  let required_columns :=
    ["store"; "item"; "price"; "quantity"; "transaction_id"] in
  match missing_required required_columns transactions_df with
  | (_ :: _) as missing =>
      ({[ "store_summary" := empty_df ]},
       _add_error
         ("Missing required columns for store summary: "
          +:+ repr_list missing) merge_errors)
  | [] =>
      let aggregated_df :=
        mkDF ["store"; "total_revenue"; "items_sold"; "total_transactions";
              "average_transaction_value"; "most_sold_item";
              "most_profitable_item"]
          ((λ k, let g := group "store" k transactions_df in
                 let total_revenue := col_sum (cells "price" g) in
                 let total_transactions :=
                   nunique (cells "transaction_id" g) in
                 ({[ "store" := k;
                     "total_revenue" := total_revenue;
                     "items_sold" := col_sum (cells "quantity" g);
                     "total_transactions" := total_transactions;
                     "average_transaction_value" :=
                       round2 (cell_div total_revenue total_transactions);
                     "most_sold_item" :=
                       _get_most_sold_item transactions_df k;
                     "most_profitable_item" :=
                       _get_most_profitable_item transactions_df k ]}
                  : gmap string cell))
             <$> group_keys "store" transactions_df) in
      ({[ "store_summary" := aggregated_df ]}, merge_errors)
  end.

(** * Properties *)

(** Deciding a closed statement by evaluation. *)
Ltac by_compute :=
  cbv zeta; apply (bool_decide_unpack _); vm_compute; exact I.

(** ** Typed tables

    pandas raises when it sums a column that mixes numbers and strings,
    when it hashes a list, and when it joins a column of numbers with a
    column of strings.  The predicates below delimit the tables on
    which the aggregations and the joins of the summaries go through;
    the theorems that assert a result take them as hypotheses. *)

Definition is_num (c : cell) : bool :=
  match c with Num _ => true | _ => false end.

Definition is_str (c : cell) : bool :=
  match c with Str _ => true | _ => false end.

(** Not a list: a value that can be hashed. *)
Definition scalar (c : cell) : bool := negb (is_list c).

(** No cell of the columns [cs] is a list.  The membership tests
    [row[raw] in d] of lines 196, 210 and 251 and the [to_dict] of
    lines 193, 205 and 248 hash these cells. *)
Definition scalar_columns (df : DataFrame) (cs : list string) : bool :=
  forallb (λ c, forallb scalar (column df c)) cs.

(** A finite number or a missing value. *)
Definition finite (c : cell) : bool :=
  match c with NA | Num _ => true | _ => false end.

(** Transactions whose prices and quantities are finite numbers and
    whose keys are no lists. *)
Definition typed_transactions (df : DataFrame) : bool :=
  forallb finite (column df "price")
  && forallb finite (column df "quantity")
  && forallb scalar (column df "user_id")
  && forallb scalar (column df "transaction_id")
  && forallb scalar (column df "item")
  && forallb scalar (column df "store").

(** Transfers whose amounts are finite numbers and whose keys are no
    lists. *)
Definition typed_transfers (df : DataFrame) : bool :=
  forallb finite (column df "amount")
  && forallb scalar (column df "transfer_id")
  && forallb scalar (column df "sender_id")
  && forallb scalar (column df "recipient_id").

(** *** Numbers that the machine adds exactly

    The sums, differences and quotients of the model are those of the
    rationals.  The code adds in int64, which wraps around, and in
    float64, which rounds.  Both agree with the rationals on integers
    whose absolute values add up to at most [2^52]: every sum of some
    of them, and every difference of two such sums, is then an integer
    of absolute value at most [2^53], which int64 and float64 hold
    exactly. *)

(** The integer in a cell, 0 when it holds none. *)
Definition int_of (c : cell) : Z :=
  match c with Num x => Qnum x | _ => 0%Z end.

Definition is_int (c : cell) : bool :=
  match c with Num x => bool_decide (Qden x = 1%positive) | _ => false end.

Definition weight (l : list cell) : Z :=
  foldr (λ c acc, (Z.abs (int_of c) + acc)%Z) 0%Z l.

Definition exact_bound : Z := 2 ^ 52.

Definition exact_amounts (l : list cell) : bool :=
  forallb (λ c, isna c || is_int c) l
  && bool_decide (weight l ≤ exact_bound)%Z.

(** A column of exact amounts that holds a number, so that its dtype
    is numeric. *)
Definition exact_column (l : list cell) : bool :=
  exact_amounts l && existsb is_num l.

(** An integer of absolute value at most [2^52]. *)
Definition exact_cell (c : cell) : bool :=
  is_int c && bool_decide (Z.abs (int_of c) ≤ exact_bound)%Z.

(** Ids that are all numbers or all strings, missing ones apart: a
    series is then read by label, never by position. *)
Definition one_kind (ids : list cell) : bool :=
  forallb (λ c, is_num c || isna c) ids
  || forallb (λ c, is_str c || isna c) ids.

(** The user ids of a people table that has a row, and the ids to join
    with them, one of which at least is not missing, are all numbers or
    all strings. *)
Definition ids_of_one_kind (people_df : DataFrame) (ids : list cell) : bool :=
  match rows people_df with [] => false | _ => true end
  && existsb notna ids
  && ((forallb is_num (column people_df "user_id")
       && forallb (λ c, is_num c || isna c) ids)
      || (forallb is_str (column people_df "user_id")
          && forallb (λ c, is_str c || isna c) ids)).

(** Transactions that the item and the store summary aggregate without
    raising: typed, with a number among the prices and among the
    quantities (a column without any number has no numeric dtype, and
    rounding its quotient raises), and with items and stores of one
    kind, one at least of each not missing. *)
Definition summable_transactions (df : DataFrame) : bool :=
  typed_transactions df
  && existsb is_num (column df "price")
  && existsb is_num (column df "quantity")
  && one_kind (column df "item") && existsb notna (column df "item")
  && one_kind (column df "store") && existsb notna (column df "store").

(** ** Cells of rows under the frame operations *)

Lemma get_insert (r : gmap string cell) (c c' : string) (v : cell) :
  get (<[c := v]> r) c' = if decide (c = c') then v else get r c'.
Proof.
  unfold get. rewrite lookup_insert. by case_decide.
Qed.

Lemma get_delete (r : gmap string cell) (c c' : string) :
  get (delete c r) c' = if decide (c = c') then NA else get r c'.
Proof.
  unfold get. rewrite lookup_delete. by case_decide.
Qed.

Lemma get_empty (c : string) : get ∅ c = NA.
Proof. unfold get. by rewrite lookup_empty. Qed.

Lemma get_reindex (cols : list string) (r : gmap string cell) (c : string) :
  get (reindex cols r) c = if decide (c ∈ cols) then get r c else NA.
Proof.
  induction cols as [|c0 cols IH]; simpl.
  - by rewrite get_empty.
  - rewrite get_insert, IH.
    destruct (decide (c0 = c)) as [->|Hne].
    + rewrite decide_True; [done | by left].
    + destruct (decide (c ∈ cols)) as [Hin|Hnin].
      * rewrite decide_True; [done | by right].
      * rewrite decide_False; [done |].
        intros [?|?]%elem_of_cons; congruence.
Qed.

Lemma join_list_idemp (c : cell) : join_list (join_list c) = join_list c.
Proof. by destruct c. Qed.

Lemma join_list_not_list (c : cell) : is_list c = false → join_list c = c.
Proof. by destruct c. Qed.

(** ** The preparation steps of [MainDataMerger.merge] *)

(** Two row lists are related cell by cell. *)
Definition rows_rel (f : string → cell → cell)
    (rs rs' : list (gmap string cell)) : Prop :=
  Forall2 (λ r r', ∀ c, get r' c = f c (get r c)) rs rs'.

Lemma rows_rel_fmap (f : string → cell → cell)
    (g : gmap string cell → gmap string cell) (rs : list (gmap string cell)) :
  (∀ r c, get (g r) c = f c (get r c)) → rows_rel f rs (g <$> rs).
Proof.
  intros Hg. unfold rows_rel. induction rs; simpl; constructor; auto.
Qed.

Lemma rows_rel_trans (f g h : string → cell → cell)
    (rs1 rs2 rs3 : list (gmap string cell)) :
  (∀ c x, g c (f c x) = h c x) →
  rows_rel f rs1 rs2 → rows_rel g rs2 rs3 → rows_rel h rs1 rs3.
Proof.
  intros Hc H12. revert rs3. induction H12 as [|r1 r2 l1 l2 Hr _ IH];
    intros rs3 H23; inversion H23; subst; constructor.
  - intros c. rewrite <- Hc, <- Hr. auto.
  - by apply IH.
Qed.

Lemma rows_rel_ext (f g : string → cell → cell)
    (rs rs' : list (gmap string cell)) :
  (∀ c x, f c x = g c x) → rows_rel f rs rs' → rows_rel g rs rs'.
Proof.
  intros Hfg H. eapply Forall2_impl; [exact H|].
  simpl. intros r r' Hr c. by rewrite Hr.
Qed.

Lemma rows_rel_refl (rs : list (gmap string cell)) :
  rows_rel (λ _ x, x) rs rs.
Proof. unfold rows_rel. induction rs; constructor; auto. Qed.

Lemma rows_rel_length f rs rs' : rows_rel f rs rs' → length rs = length rs'.
Proof. apply Forall2_length. Qed.

Lemma rows_rel_lookup f rs rs' i r :
  rows_rel f rs rs' → rs !! i = Some r →
  ∃ r', rs' !! i = Some r' ∧ ∀ c, get r' c = f c (get r c).
Proof.
  intros H Hi. destruct (Forall2_lookup_l _ _ _ _ _ H Hi) as (r' & ? & ?).
  eauto.
Qed.

Lemma rows_rel_column f rs rs' c :
  rows_rel f rs rs' →
  (λ r, get r c) <$> rs' = (λ r, f c (get r c)) <$> rs.
Proof.
  induction 1 as [|r r' l l' Hr _ IH]; [done|].
  rewrite !fmap_cons. f_equal; [apply Hr | apply IH].
Qed.

(** The list conversion rewrites exactly the cells of the frame's
    columns, each by [join_list]. *)
Definition joined_on (cs : list string) (c : string) (x : cell) : cell :=
  if decide (c ∈ cs) then join_list x else x.

Lemma convert_step_rel (d : DataFrame) (col : string) :
  let d' := if existsb is_list (column d col)
            then apply_column join_list col d else d in
  columns d' = columns d ∧ rows_rel (joined_on [col]) (rows d) (rows d').
Proof.
  simpl. destruct (existsb is_list (column d col)) eqn:E.
  - split; [done|]. simpl. apply rows_rel_fmap. intros r c.
    rewrite get_insert. unfold joined_on.
    destruct (decide (col = c)) as [->|Hne].
    + rewrite decide_True; [done | by left].
    + rewrite decide_False; [done |]. by intros ->%list_elem_of_singleton.
  - split; [done|].
    assert (Hall : Forall (λ r, is_list (get r col) = false) (rows d)).
    { apply Forall_forall. intros r Hr.
      destruct (is_list (get r col)) eqn:El; [|done].
      assert (existsb is_list (column d col) = true); [|congruence].
      apply existsb_exists. exists (get r col). split; [|done].
      apply list_elem_of_In. unfold column.
      apply list_elem_of_fmap. eauto. }
    unfold rows_rel. induction Hall as [|r l Hr _ IH]; constructor; [|done].
    intros c. unfold joined_on. case_decide as Hc; [|done].
    apply list_elem_of_singleton in Hc as ->. by rewrite join_list_not_list.
Qed.

Lemma convert_fold_rel (cs : list string) (d : DataFrame) :
  let d' := foldl (λ d col,
                     if existsb is_list (column d col)
                     then apply_column join_list col d else d) d cs in
  columns d' = columns d ∧ rows_rel (joined_on cs) (rows d) (rows d').
Proof.
  revert d. induction cs as [|col cs IH]; intros d; simpl.
  - split; [done|]. eapply rows_rel_ext; [|apply rows_rel_refl].
    intros c x. unfold joined_on.
    by simpl.
  - destruct (convert_step_rel d col) as [Hc Hr]. simpl in Hc, Hr.
    specialize (IH (if existsb is_list (column d col)
                    then apply_column join_list col d else d)).
    simpl in IH. destruct IH as [Hc' Hr'].
    split; [congruence|].
    eapply rows_rel_trans; [|exact Hr|exact Hr'].
    intros c x. unfold joined_on.
    destruct (decide (c ∈ [col])) as [Hin|Hnin].
    + apply list_elem_of_singleton in Hin as ->.
      rewrite (decide_True (P := col ∈ col :: cs)); [|by left].
      case_decide; by rewrite ?join_list_idemp.
    + destruct (decide (c ∈ cs)) as [Hin'|Hnin'].
      * rewrite decide_True; [done | by right].
      * rewrite decide_False; [done|].
        intros [->|?]%elem_of_cons; [|done]. apply Hnin. by left.
Qed.

Lemma convert_list_columns_spec (df : DataFrame) :
  columns (convert_list_columns df) = columns df ∧
  rows_rel (joined_on (columns df)) (rows df)
           (rows (convert_list_columns df)).
Proof. apply convert_fold_rel. Qed.

(** Filling the absent schema columns blanks exactly those cells. *)
Definition blanked_on (cs : list string) (c : string) (x : cell) : cell :=
  if decide (c ∈ cs) then NA else x.

Lemma fill_fold_rel (cs : list string) (d : DataFrame) :
  let d' := foldl (λ d col, add_none_column col d) d cs in
  columns d' = columns d ++ cs ∧ rows_rel (blanked_on cs) (rows d) (rows d').
Proof.
  revert d. induction cs as [|col cs IH]; intros d; simpl.
  - split; [by rewrite app_nil_r|].
    eapply rows_rel_ext; [|apply rows_rel_refl].
    intros c x. unfold blanked_on.
    by simpl.
  - specialize (IH (add_none_column col d)). simpl in IH.
    destruct IH as [Hc Hr]. split.
    { rewrite Hc. simpl. by rewrite <- app_assoc. }
    eapply rows_rel_trans; [| |exact Hr].
    2:{ simpl. apply (rows_rel_fmap (blanked_on [col])). intros r c.
        rewrite get_insert. unfold blanked_on.
        destruct (decide (col = c)) as [->|Hne].
        - rewrite decide_True; [done | by left].
        - rewrite decide_False; [done|]. by intros ->%list_elem_of_singleton. }
    intros c x. unfold blanked_on.
    destruct (decide (c ∈ [col])) as [Hin|Hnin].
    + apply list_elem_of_singleton in Hin as ->.
      rewrite (decide_True (P := col ∈ col :: cs)); [|by left].
      by case_decide.
    + destruct (decide (c ∈ cs)) as [Hin'|Hnin'].
      * rewrite decide_True; [done | by right].
      * rewrite decide_False; [done|].
        intros [->|?]%elem_of_cons; [|done]. apply Hnin. by left.
Qed.

Definition missing_columns (df : DataFrame) : list string :=
  filter (λ col, col ∉ columns df) common_columns.

Lemma fill_missing_columns_spec (df : DataFrame) :
  columns (fill_missing_columns df) = columns df ++ missing_columns df ∧
  rows_rel (blanked_on (missing_columns df)) (rows df)
           (rows (fill_missing_columns df)).
Proof. apply fill_fold_rel. Qed.

(** ** [drop_duplicates] keeps the first row of every key *)

Section keep_first.
Variable key : string.

Let ids (rs : list (gmap string cell)) : list cell :=
  (λ r, get r key) <$> rs.


Lemma keep_first_ids (seen : list cell) (rs : list (gmap string cell))
    (x : cell) :
  x ∈ ids (keep_first key seen rs) ↔ x ∈ ids rs ∧ x ∉ seen.
Proof.
  unfold ids. revert seen.
  induction rs as [|r rs IH]; intros seen; simpl.
  - split; [by intros ?%elem_of_nil|].
    by intros [?%elem_of_nil _].
  - destruct (decide (get r key ∈ seen)) as [Hin|Hnin].
    + rewrite IH, elem_of_cons. split; [tauto|].
      intros [[->|?] ?]; [done|auto].
    + simpl. rewrite !elem_of_cons, IH, elem_of_cons.
      split.
      * intros [->|[? ?]]; [tauto|]. split; [tauto|]. intros ?; tauto.
      * intros [[->|?] ?]; [by left|].
        destruct (decide (x = get r key)); [by left|right; tauto].
Qed.

Lemma keep_first_NoDup (seen : list cell) (rs : list (gmap string cell)) :
  NoDup (ids (keep_first key seen rs)).
Proof.
  unfold ids. revert seen.
  induction rs as [|r rs IH]; intros seen; simpl; [constructor|].
  destruct (decide (get r key ∈ seen)); [apply IH|].
  simpl. constructor; [|apply IH].
  intros [_ Hn]%keep_first_ids. apply Hn. by left.
Qed.

End keep_first.

(** ** Identity reconciliation by [MainDataMerger.merge] *)

(** Every row carries cells only under the frame's column labels. *)
Definition well_formed (df : DataFrame) : Prop :=
  Forall (λ r : gmap string cell, dom r ⊆ list_to_set (C := gset string) (columns df))
         (rows df).

Lemma well_formed_absent (df : DataFrame) (r : gmap string cell) (c : string) :
  dom r ⊆ list_to_set (C := gset string) (columns df) →
  c ∉ columns df → r !! c = None.
Proof.
  intros Hd Hc. apply not_elem_of_dom. intros Hin. apply Hc.
  apply Hd in Hin. by apply elem_of_list_to_set in Hin.
Qed.

(** The user ids of a person table, a list-valued id read as its
    comma-joined string. *)
Definition user_ids (df : DataFrame) : list cell :=
  join_list <$> column df "user_id".

(** Lines 668-698 on one source. *)
Definition prepare (df : DataFrame) : DataFrame :=
  fill_missing_columns (convert_list_columns df).

Definition prepared (df : DataFrame) (c : string) (x : cell) : cell :=
  blanked_on (missing_columns df) c (joined_on (columns df) c x).

Lemma prepare_spec (df : DataFrame) :
  columns (prepare df) = columns df ++ missing_columns df ∧
  rows_rel (prepared df) (rows df) (rows (prepare df)).
Proof.
  unfold prepare.
  destruct (convert_list_columns_spec df) as [Hc Hr].
  destruct (fill_missing_columns_spec (convert_list_columns df)) as [Hc' Hr'].
  unfold missing_columns in *. rewrite Hc in Hc', Hr'. split; [done|].
  eapply rows_rel_trans; [|exact Hr|exact Hr']. done.
Qed.

Lemma missing_columns_spec (df : DataFrame) (c : string) :
  c ∈ missing_columns df ↔ c ∈ common_columns ∧ c ∉ columns df.
Proof. unfold missing_columns. rewrite list_elem_of_filter. tauto. Qed.

Lemma prepare_has_user_id (df : DataFrame) :
  "user_id" ∈ columns (prepare df).
Proof.
  destruct (prepare_spec df) as [-> _]. apply elem_of_app.
  destruct (decide ("user_id" ∈ columns df)); [by left|right].
  apply missing_columns_spec. split; [|done]. by left.
Qed.

Lemma prepared_column (df : DataFrame) (c : string) (x : cell) :
  c ∈ columns df → prepared df c x = join_list x.
Proof.
  intros Hc. unfold prepared, blanked_on, joined_on.
  rewrite decide_False;
    [by rewrite decide_True | by intros [_ ?]%missing_columns_spec].
Qed.

Lemma prepared_user_id (df : DataFrame) (r : gmap string cell) :
  dom r ⊆ list_to_set (C := gset string) (columns df) →
  prepared df "user_id" (get r "user_id") = join_list (get r "user_id").
Proof.
  intros Hd. pose proof (well_formed_absent df r) as Hwf.
  specialize (λ c, Hwf c Hd). destruct (decide ("user_id" ∈ columns df)) as [Hin|Hnin].
  - by apply prepared_column.
  - unfold prepared, blanked_on. rewrite decide_True.
    + unfold get. by rewrite (Hwf _ Hnin).
    + apply missing_columns_spec. split; [by left | done].
Qed.

Lemma prepare_user_ids (df : DataFrame) :
  well_formed df → column (prepare df) "user_id" = user_ids df.
Proof.
  intros Hwf. destruct (prepare_spec df) as [_ Hr].
  unfold column, user_ids. rewrite (rows_rel_column _ _ _ _ Hr).
  unfold column. rewrite <- list_fmap_compose.
  apply Forall_fmap_ext. eapply Forall_impl; [exact Hwf|].
  intros r Hr'. simpl. by apply prepared_user_id.
Qed.

(** The merged table of [MainDataMerger.merge], row by row. *)
Lemma MainDataMerger_merge_people
    (json yml promotions transfers : DataFrame) (tx : option DataFrame) :
  let cols := columns (prepare json)
              ++ filter (λ c, c ∉ columns (prepare json))
                        (columns (prepare yml)) in
  MainDataMerger_merge json yml promotions transfers tx !! "people" =
  Some (mkDF cols
          (keep_first "user_id" []
             (reindex cols <$> (rows (prepare json) ++ rows (prepare yml))))).
Proof.
  simpl. unfold MainDataMerger_merge. rewrite lookup_singleton_eq.
  fold (prepare json) (prepare yml). unfold has_column, pd_concat.
  simpl. rewrite bool_decide_eq_true_2; [done|].
  apply elem_of_app. left. apply prepare_has_user_id.
Qed.

Lemma reindex_user_ids (cols : list string) (rs : list (gmap string cell)) :
  "user_id" ∈ cols →
  (λ r, get r "user_id") <$> (reindex cols <$> rs) =
  (λ r, get r "user_id") <$> rs.
Proof.
  intros Hc. rewrite <- list_fmap_compose. apply list_fmap_ext.
  intros i r _. simpl. by rewrite get_reindex, decide_True.
Qed.

(** *** Example tables *)

Definition person (uid : Z) (city : string) : gmap string cell :=
  {[ "user_id" := Int uid; "city" := Str city ]}.

Definition people_json_ex : DataFrame :=
  mkDF ["user_id"; "city"] [person 1 "A"].

Definition people_yml_ex : DataFrame :=
  mkDF ["user_id"; "city"] [person 1 "B"; person 2 "C"].

(** A primary source that lists user 1 twice. *)
Definition people_json_dup : DataFrame :=
  mkDF ["user_id"; "city"] [person 1 "A"; person 1 "A2"].

Definition promotions_ex : DataFrame :=
  mkDF ["id"; "client_email"; "telephone"; "promotion"; "responded"] [].

Definition transfers_ex : DataFrame :=
  mkDF ["transfer_id"; "sender_id"; "recipient_id"; "amount"] [].

Definition transactions_ex : DataFrame :=
  mkDF ["transaction_id"; "phone"; "item"; "store"; "price"; "quantity"] [].

(** C1 (evaluation of the code): whatever the five inputs are, the
    mapping returned by [MainDataMerger.merge] has the single key
    [people]; none of [promotions], [transactions], [user_transactions],
    [user_transfers], [item_summary], [store_summary] is in it. *)
Theorem MainDataMerger_merge_only_people
    (json yml promotions transfers : DataFrame) (tx : option DataFrame) :
  dom (MainDataMerger_merge json yml promotions transfers tx) = {[ "people" ]}
  ∧ Forall (λ name,
        MainDataMerger_merge json yml promotions transfers tx !! name = None)
      ["promotions"; "transactions"; "user_transactions"; "user_transfers";
       "item_summary"; "store_summary"].
Proof.
  unfold MainDataMerger_merge. split.
  - by rewrite dom_singleton_L.
  - repeat constructor; by rewrite lookup_singleton_ne.
Qed.




(** ** Reference resolution by [UserReferencesMerger] *)

Lemma dict_get_snoc (k : cell) (d : list (cell * cell)) (kv : cell * cell) :
  dict_get k (d ++ [kv]) = if decide (kv.1 = k) then Some kv.2 else dict_get k d.
Proof. unfold dict_get. by rewrite foldl_app. Qed.

(** A key that occurs in the items of a dictionary, always with the same
    value, maps to that value. *)
Lemma dict_get_unique (k v : cell) (d : list (cell * cell)) :
  (∃ v', (k, v') ∈ d) → (∀ v', (k, v') ∈ d → v' = v) →
  dict_get k d = Some v.
Proof.
  induction d as [|[k' v'] d IH] using rev_ind; intros [v0 Hin] Hall.
  - by apply elem_of_nil in Hin.
  - rewrite dict_get_snoc. simpl. destruct (decide (k' = k)) as [->|Hne].
    + f_equal. apply Hall. apply elem_of_app. right. by left.
    + apply IH.
      * apply elem_of_app in Hin as [Hin|Hin]; [eauto|].
        apply list_elem_of_singleton in Hin. congruence.
      * intros v1 Hv1. apply Hall. apply elem_of_app. by left.
Qed.

Lemma get_fill_user_id_other d raw r c :
  c ≠ "user_id" → get (fill_user_id d raw r) c = get r c.
Proof.
  intros Hc. unfold fill_user_id.
  destruct (notna (get r raw)); [|done].
  destruct (dict_get (get r raw) d); [|done].
  rewrite get_insert. by rewrite decide_False.
Qed.

Lemma has_column_true df c : has_column df c = true ↔ c ∈ columns df.
Proof. unfold has_column. apply bool_decide_eq_true. Qed.

Lemma has_column_false df c : has_column df c = false ↔ c ∉ columns df.
Proof. unfold has_column. apply bool_decide_eq_false. Qed.

Lemma drop_column_absent c df : c ∉ columns (drop_column c df).
Proof. simpl. intros [H _]%list_elem_of_filter. done. Qed.

Lemma drop_column_other c c' df :
  c' ∈ columns (drop_column c df) ↔ c' ∈ columns df ∧ c' ≠ c.
Proof. simpl. rewrite list_elem_of_filter. tauto. Qed.

Lemma drop_column_rows c df :
  Forall (λ r : gmap string cell, r !! c = None) (rows (drop_column c df)).
Proof.
  simpl. apply Forall_fmap, Forall_forall. intros r _. simpl.
  apply lookup_delete_eq.
Qed.

Lemma lookup_map_ok people_df key errs :
  "user_id" ∈ columns people_df →
  lookup_map people_df key errs =
  (Ok ((λ r, (get r key, get r "user_id")) <$> rows people_df), errs).
Proof.
  intros H. unfold lookup_map. by rewrite (proj2 (has_column_true _ _) H).
Qed.

Lemma lookup_map_raises people_df key errs :
  "user_id" ∉ columns people_df →
  lookup_map people_df key errs = (Raise (KeyError "'user_id'"), errs).
Proof.
  intros H. unfold lookup_map. by rewrite (proj2 (has_column_false _ _) H).
Qed.

(** The frame on which the lookups run: [user_id] is created when it is
    absent. *)
Definition with_user_id (df : DataFrame) : DataFrame :=
  if has_column df "user_id" then df else add_none_column "user_id" df.

Lemma with_user_id_columns df c :
  c ∈ columns df → c ∈ columns (with_user_id df).
Proof.
  intros H. unfold with_user_id. destruct (has_column df "user_id"); [done|].
  simpl. apply elem_of_app. by left.
Qed.

Lemma with_user_id_rows df :
  rows_rel (λ c x, x) (rows df) (rows (with_user_id df)) ∨
  rows_rel (blanked_on ["user_id"]) (rows df) (rows (with_user_id df)).
Proof.
  unfold with_user_id. destruct (has_column df "user_id").
  - left. apply rows_rel_refl.
  - right. simpl. apply rows_rel_fmap. intros r c. rewrite get_insert.
    unfold blanked_on. destruct (decide ("user_id" = c)) as [<-|Hne].
    + rewrite decide_True; [done|by left].
    + rewrite decide_False; [done|]. by intros ->%list_elem_of_singleton.
Qed.

Lemma with_user_id_other df i r c :
  rows df !! i = Some r → c ≠ "user_id" →
  ∃ r', rows (with_user_id df) !! i = Some r' ∧ get r' c = get r c.
Proof.
  intros Hi Hc. destruct (with_user_id_rows df) as [H|H];
    destruct (rows_rel_lookup _ _ _ _ _ H Hi) as (r' & Hr' & Hg);
    exists r'; (split; [done|]); rewrite Hg; [done|].
  unfold blanked_on. rewrite decide_False; [done|].
  by intros ->%list_elem_of_singleton.
Qed.

(** The items of the lookup dictionary built from one identity column. *)
Definition identity_items (people_df : DataFrame) (key : string)
  : list (cell * cell) :=
  (λ r, (get r key, get r "user_id")) <$> rows people_df.

(** The promotions after the e-mail step and after the phone step. *)
Definition promotions_after_email (people_df promotions_df : DataFrame)
  : DataFrame :=
  let d := with_user_id promotions_df in
  if has_column d "client_email"
  then drop_column "client_email"
         (map_rows (fill_user_id (identity_items people_df "email")
                                 "client_email") d)
  else d.

Definition promotions_after_phone (people_df promotions_df : DataFrame)
  : DataFrame :=
  let d := promotions_after_email people_df promotions_df in
  if has_column d "telephone"
  then drop_column "telephone"
         (map_rows (fill_user_id_masked (identity_items people_df "phone")
                                        "telephone") d)
  else d.

Definition transactions_after_phone (people_df transactions_df : DataFrame)
  : DataFrame :=
  let d := with_user_id transactions_df in
  if has_column d "phone"
  then drop_column "phone"
         (map_rows (fill_user_id (identity_items people_df "phone") "phone") d)
  else d.

Lemma report_missing_ok kind df errs :
  ∃ errs', report_missing kind df errs = (Ok tt, errs').
Proof.
  unfold report_missing. case_decide; eexists; reflexivity.
Qed.

Lemma M_bind_ok {A B : Type} (m : M A) (k : A → M B) errs a errs' :
  m errs = (Ok a, errs') → (m ≫= k) errs = k a errs'.
Proof. intros H. unfold mbind, M_bind. by rewrite H. Qed.

Lemma M_bind_raise {A B : Type} (m : M A) (k : A → M B) errs e errs' :
  m errs = (Raise e, errs') → (m ≫= k) errs = (Raise e, errs').
Proof. intros H. unfold mbind, M_bind. by rewrite H. Qed.

Lemma add_promotions_unresolved people_df promotions_df errs :
  already_resolved promotions_df = false →
  "user_id" ∈ columns people_df → "email" ∈ columns people_df →
  "phone" ∈ columns people_df →
  ∃ errs',
    _add_user_references_to_promotions people_df promotions_df errs =
    (Ok (promotions_after_phone people_df promotions_df), errs').
Proof.
  intros Hres Hu He Hp. unfold _add_user_references_to_promotions.
  rewrite Hres. fold (with_user_id promotions_df).
  apply has_column_true in He, Hp. rewrite He, Hp, !andb_true_r.
  erewrite M_bind_ok; cycle 1.
  { instantiate (1 := errs).
    instantiate (1 := promotions_after_email people_df promotions_df).
    unfold promotions_after_email. cbv zeta.
    destruct (has_column (with_user_id promotions_df) "client_email");
      cbn [andb]; [|done].
    erewrite M_bind_ok; [|by apply lookup_map_ok]. done. }
  set (d1 := promotions_after_email people_df promotions_df).
  erewrite M_bind_ok; cycle 1.
  { instantiate (1 := errs).
    instantiate (1 := promotions_after_phone people_df promotions_df).
    unfold promotions_after_phone. fold d1. cbv zeta.
    destruct (has_column d1 "telephone"); cbn [andb]; [|done].
    erewrite M_bind_ok; [|by apply lookup_map_ok]. done. }
  destruct (report_missing_ok "promotions"
              (promotions_after_phone people_df promotions_df) errs)
    as [errs' Hrep].
  erewrite M_bind_ok; [|exact Hrep]. by exists errs'.
Qed.

Lemma add_transactions_unresolved people_df transactions_df errs :
  already_resolved transactions_df = false →
  "user_id" ∈ columns people_df → "phone" ∈ columns people_df →
  ∃ errs',
    _add_user_references_to_transactions people_df (Some transactions_df) errs
    = (Ok (transactions_after_phone people_df transactions_df), errs').
Proof.
  intros Hres Hu Hp. unfold _add_user_references_to_transactions.
  rewrite Hres. fold (with_user_id transactions_df).
  apply has_column_true in Hp. rewrite Hp, !andb_true_r.
  erewrite M_bind_ok; cycle 1.
  { instantiate (1 := errs).
    instantiate (1 := transactions_after_phone people_df transactions_df).
    unfold transactions_after_phone. cbv zeta.
    destruct (has_column (with_user_id transactions_df) "phone");
      cbn [andb]; [|done].
    erewrite M_bind_ok; [|by apply lookup_map_ok]. done. }
  destruct (report_missing_ok "transactions"
              (transactions_after_phone people_df transactions_df) errs)
    as [errs' Hrep].
  erewrite M_bind_ok; [|exact Hrep]. by exists errs'.
Qed.

Lemma well_formed_with_user_id df : well_formed df → well_formed (with_user_id df).
Proof.
  intros H. unfold with_user_id. destruct (has_column df "user_id"); [done|].
  unfold well_formed in *. simpl. apply Forall_fmap.
  eapply Forall_impl; [exact H|]. intros r Hr. simpl.
  rewrite dom_insert, list_to_set_app. set_solver.
Qed.

Lemma well_formed_drop_column c df :
  well_formed df → well_formed (drop_column c df).
Proof.
  intros H. unfold well_formed in *. simpl. apply Forall_fmap.
  eapply Forall_impl; [exact H|]. intros r Hr. simpl.
  intros x Hx. rewrite dom_delete in Hx.
  apply elem_of_difference in Hx as [Hx Hne].
  apply elem_of_list_to_set, list_elem_of_filter. split.
  - set_solver.
  - apply Hr in Hx. by apply elem_of_list_to_set in Hx.
Qed.

Lemma well_formed_map_rows f df :
  (∀ r, dom (f r) ⊆ dom r ∪ list_to_set (C := gset string) (columns df)) →
  well_formed df → well_formed (map_rows f df).
Proof.
  intros Hf H. unfold well_formed in *. simpl. apply Forall_fmap.
  eapply Forall_impl; [exact H|]. intros r Hr. simpl.
  specialize (Hf r). set_solver.
Qed.

Lemma dom_fill_user_id d raw (r : gmap string cell) :
  dom (fill_user_id d raw r) ⊆ dom r ∪ {[ "user_id" ]}.
Proof.
  unfold fill_user_id. destruct (notna (get r raw)); [|set_solver].
  destruct (dict_get (get r raw) d); [|set_solver].
  rewrite dom_insert. set_solver.
Qed.

Lemma dom_fill_user_id_masked d raw (r : gmap string cell) :
  dom (fill_user_id_masked d raw r) ⊆ dom r ∪ {[ "user_id" ]}.
Proof.
  unfold fill_user_id_masked. destruct (isna (get r "user_id")); [|set_solver].
  apply dom_fill_user_id.
Qed.

Lemma with_user_id_has_user_id df : "user_id" ∈ columns (with_user_id df).
Proof.
  unfold with_user_id. destruct (has_column df "user_id") eqn:E.
  - by apply has_column_true.
  - simpl. apply elem_of_app. right. by left.
Qed.

Lemma promotions_after_email_user_id people_df promotions_df :
  "user_id" ∈ columns (promotions_after_email people_df promotions_df).
Proof.
  unfold promotions_after_email. cbv zeta.
  destruct (has_column (with_user_id promotions_df) "client_email").
  - apply drop_column_other. split; [|done]. apply with_user_id_has_user_id.
  - apply with_user_id_has_user_id.
Qed.

Lemma well_formed_promotions_after_email people_df promotions_df :
  well_formed promotions_df →
  well_formed (promotions_after_email people_df promotions_df).
Proof.
  intros H%well_formed_with_user_id. unfold promotions_after_email. cbv zeta.
  destruct (has_column (with_user_id promotions_df) "client_email"); [|done].
  apply well_formed_drop_column, well_formed_map_rows; [|done].
  intros r. pose proof (dom_fill_user_id
    (identity_items people_df "email") "client_email" r).
  pose proof (with_user_id_has_user_id promotions_df). set_solver.
Qed.

Lemma well_formed_promotions_after_phone people_df promotions_df :
  well_formed promotions_df →
  well_formed (promotions_after_phone people_df promotions_df).
Proof.
  intros H%(well_formed_promotions_after_email people_df).
  unfold promotions_after_phone. cbv zeta.
  destruct (has_column (promotions_after_email people_df promotions_df)
              "telephone"); [|done].
  apply well_formed_drop_column, well_formed_map_rows; [|done].
  intros r. pose proof (dom_fill_user_id_masked
    (identity_items people_df "phone") "telephone" r).
  pose proof (promotions_after_email_user_id people_df promotions_df).
  set_solver.
Qed.

Lemma well_formed_transactions_after_phone people_df transactions_df :
  well_formed transactions_df →
  well_formed (transactions_after_phone people_df transactions_df).
Proof.
  intros H%well_formed_with_user_id. unfold transactions_after_phone.
  cbv zeta.
  destruct (has_column (with_user_id transactions_df) "phone"); [|done].
  apply well_formed_drop_column, well_formed_map_rows; [|done].
  intros r. pose proof (dom_fill_user_id
    (identity_items people_df "phone") "phone" r).
  pose proof (with_user_id_has_user_id transactions_df). set_solver.
Qed.

Lemma promotions_after_email_columns people_df promotions_df :
  "client_email" ∉ columns (promotions_after_email people_df promotions_df).
Proof.
  unfold promotions_after_email. cbv zeta.
  destruct (has_column (with_user_id promotions_df) "client_email") eqn:E.
  - apply drop_column_absent.
  - by apply has_column_false.
Qed.

Lemma promotions_after_phone_columns people_df promotions_df :
  ("client_email" ∉ columns (promotions_after_phone people_df promotions_df))
  ∧ ("telephone" ∉ columns (promotions_after_phone people_df promotions_df)).
Proof.
  pose proof (promotions_after_email_columns people_df promotions_df) as He.
  unfold promotions_after_phone. cbv zeta.
  destruct (has_column (promotions_after_email people_df promotions_df)
              "telephone") eqn:E.
  - split; [|apply drop_column_absent].
    intros [? _]%drop_column_other. done.
  - split; [done|]. by apply has_column_false.
Qed.

Lemma transactions_after_phone_columns people_df transactions_df :
  "phone" ∉ columns (transactions_after_phone people_df transactions_df).
Proof.
  unfold transactions_after_phone. cbv zeta.
  destruct (has_column (with_user_id transactions_df) "phone") eqn:E.
  - apply drop_column_absent.
  - by apply has_column_false.
Qed.

Lemma well_formed_no_cell df c :
  well_formed df → c ∉ columns df →
  Forall (λ r : gmap string cell, r !! c = None) (rows df).
Proof.
  intros H Hc. eapply Forall_impl; [exact H|]. intros r Hr. simpl.
  exact (well_formed_absent df r c Hr Hc).
Qed.

(** An e-mail match is kept: the row's [user_id] after both steps is
    the id found by e-mail. *)
Lemma promotions_email_match_kept people_df promotions_df i r v :
  rows promotions_df !! i = Some r →
  "client_email" ∈ columns promotions_df →
  notna (get r "client_email") = true →
  dict_get (get r "client_email") (identity_items people_df "email") = Some v →
  notna v = true →
  ∃ r', rows (promotions_after_phone people_df promotions_df) !! i = Some r'
        ∧ get r' "user_id" = v.
Proof.
  intros Hi Hc Hn Hd Hv.
  destruct (with_user_id_other promotions_df i r "client_email" Hi)
    as (r0 & Hr0 & Hg0); [done|].
  assert (H1 : ∃ r1,
    rows (promotions_after_email people_df promotions_df) !! i = Some r1
    ∧ get r1 "user_id" = v).
  { unfold promotions_after_email. cbv zeta.
    rewrite (proj2 (has_column_true _ _)
               (with_user_id_columns _ _ Hc)).
    simpl. rewrite !list_lookup_fmap, Hr0. simpl. eexists. split; [done|].
    rewrite get_delete, decide_False by done.
    unfold fill_user_id. rewrite Hg0, Hn, Hd. by rewrite get_insert. }
  destruct H1 as (r1 & Hr1 & Hg1).
  unfold promotions_after_phone. cbv zeta.
  destruct (has_column (promotions_after_email people_df promotions_df)
              "telephone"); [|eauto].
  simpl. rewrite !list_lookup_fmap, Hr1. simpl. eexists. split; [done|].
  rewrite get_delete, decide_False by done.
  unfold fill_user_id_masked, isna. by rewrite Hg1, Hv.
Qed.

(** *** Example tables for reference resolution *)

Definition identity (uid : Z) (email phone : string) : gmap string cell :=
  {[ "user_id" := Int uid; "email" := Str email; "phone" := Str phone ]}.

(** User 5 has e-mail a@x, user 9 has phone 222. *)
Definition people_ex : DataFrame :=
  mkDF ["user_id"; "email"; "phone"]
       [identity 5 "a@x" "111"; identity 9 "b@x" "222"].

(** One promotion whose e-mail is user 5's and whose phone is user 9's. *)
Definition promotions_both : DataFrame :=
  mkDF ["client_email"; "telephone"; "promotion"]
       [{[ "client_email" := Str "a@x"; "telephone" := Str "222";
           "promotion" := Str "pen" ]}].

(** A promotion that already carries its user id next to the e-mail. *)
Definition promotions_resolved : DataFrame :=
  mkDF ["user_id"; "client_email"; "promotion"]
       [{[ "user_id" := Int 5; "client_email" := Str "a@x";
           "promotion" := Str "pen" ]}].

Definition transactions_phone : DataFrame :=
  mkDF ["transaction_id"; "phone"; "item"; "store"; "price"; "quantity"]
       [{[ "transaction_id" := Int 100; "phone" := Str "222";
           "item" := Str "pen"; "store" := Str "S1";
           "price" := Int 10; "quantity" := Int 2 ]}].

(** C3 (counterexample): a promotions table whose [user_id] is already
    populated is returned as it is, its [client_email] column and cell
    included. *)
Lemma resolved_promotions_keep_client_email :
  ∃ out errs r,
    _add_user_references_to_promotions people_ex promotions_resolved []
      = (Ok out, errs)
    ∧ "client_email" ∈ columns out
    ∧ r ∈ rows out
    ∧ r !! "client_email" = Some (Str "a@x").
Proof.
  eexists _, _, _. split; [reflexivity|]. split; [|split].
  - apply (bool_decide_unpack _). by vm_compute.
  - by left.
  - by vm_compute.
Qed.

(** C3 (amended): when the dependent table has no populated [user_id],
    the identity table has the columns [user_id], [email] and [phone],
    and no contact or identity cell is a list (a list cannot be looked
    up in a dictionary), both resolutions return: the resolved
    promotions have neither a [client_email] nor a [telephone] column
    or cell and the resolved transactions have no [phone] column or
    cell; and a promotion whose e-mail the dictionary of line 193 maps
    to the non-missing user id [v] comes out with [user_id = v],
    whatever its telephone matches. *)
Theorem references_resolved_raw_dropped_email_kept
    (people_df promotions_df transactions_df : DataFrame)
    (errs : list string) :
  already_resolved promotions_df = false →
  already_resolved transactions_df = false →
  well_formed promotions_df → well_formed transactions_df →
  "user_id" ∈ columns people_df →
  "email" ∈ columns people_df →
  "phone" ∈ columns people_df →
  scalar_columns people_df ["user_id"; "email"; "phone"] = true →
  scalar_columns promotions_df ["client_email"; "telephone"] = true →
  scalar_columns transactions_df ["phone"] = true →
  ∃ promotions transactions errs1 errs2,
    _add_user_references_to_promotions people_df promotions_df errs
      = (Ok promotions, errs1)
    ∧ _add_user_references_to_transactions people_df (Some transactions_df)
        errs = (Ok transactions, errs2)
    ∧ ("client_email" ∉ columns promotions)
    ∧ ("telephone" ∉ columns promotions)
    ∧ ("phone" ∉ columns transactions)
    ∧ Forall (λ r : gmap string cell,
                r !! "client_email" = None ∧ r !! "telephone" = None)
             (rows promotions)
    ∧ Forall (λ r : gmap string cell, r !! "phone" = None)
             (rows transactions)
    ∧ ∀ i r v,
        rows promotions_df !! i = Some r →
        "client_email" ∈ columns promotions_df →
        notna (get r "client_email") = true →
        dict_get (get r "client_email") (identity_items people_df "email")
        = Some v →
        notna v = true →
        ∃ r', rows promotions !! i = Some r' ∧ get r' "user_id" = v.
Proof.
  intros Hrp Hrt Hwp Hwt Hu He Hp _ _ _.
  destruct (add_promotions_unresolved people_df promotions_df errs
              Hrp Hu He Hp) as [errs1 H1].
  destruct (add_transactions_unresolved people_df transactions_df errs
              Hrt Hu Hp) as [errs2 H2].
  destruct (promotions_after_phone_columns people_df promotions_df)
    as [Hce Htel].
  pose proof (transactions_after_phone_columns people_df transactions_df)
    as Hph.
  pose proof (well_formed_promotions_after_phone people_df _ Hwp) as Hwp'.
  pose proof (well_formed_transactions_after_phone people_df _ Hwt) as Hwt'.
  exists (promotions_after_phone people_df promotions_df),
         (transactions_after_phone people_df transactions_df), errs1, errs2.
  repeat (split; [done|]). split; [|split].
  - pose proof (well_formed_no_cell _ _ Hwp' Hce) as Ha.
    pose proof (well_formed_no_cell _ _ Hwp' Htel) as Hb.
    rewrite Forall_forall in Ha, Hb. apply Forall_forall. intros r Hr.
    split; auto.
  - by apply well_formed_no_cell.
  - intros i r v Hi Hc Hn Hd Hv.
    by apply promotions_email_match_kept with (r := r).
Qed.

Lemma references_resolved_raw_dropped_email_kept_witness :
  ∃ promotions transactions errs1 errs2,
    _add_user_references_to_promotions people_ex promotions_both []
      = (Ok promotions, errs1)
    ∧ _add_user_references_to_transactions people_ex (Some transactions_phone)
        [] = (Ok transactions, errs2)
    ∧ ("client_email" ∉ columns promotions)
    ∧ ("telephone" ∉ columns promotions)
    ∧ ("phone" ∉ columns transactions)
    ∧ Forall (λ r : gmap string cell,
                r !! "client_email" = None ∧ r !! "telephone" = None)
             (rows promotions)
    ∧ Forall (λ r : gmap string cell, r !! "phone" = None)
             (rows transactions)
    ∧ ∀ i r v,
        rows promotions_both !! i = Some r →
        "client_email" ∈ columns promotions_both →
        notna (get r "client_email") = true →
        dict_get (get r "client_email") (identity_items people_ex "email")
        = Some v →
        notna v = true →
        ∃ r', rows promotions !! i = Some r' ∧ get r' "user_id" = v.
Proof.
  apply (references_resolved_raw_dropped_email_kept
           people_ex promotions_both transactions_phone []).
  - reflexivity.
  - reflexivity.
  - apply (bool_decide_unpack _). vm_compute. exact I.
  - apply (bool_decide_unpack _). vm_compute. exact I.
  - apply (bool_decide_unpack _). vm_compute. exact I.
  - apply (bool_decide_unpack _). vm_compute. exact I.
  - apply (bool_decide_unpack _). vm_compute. exact I.
  - reflexivity.
  - reflexivity.
  - reflexivity.
Defined.

(** The promotion of [promotions_both] resolves to user 5, found by
    e-mail, although its telephone is that of user 9. *)
Example email_match_beats_phone_match :
  let res := _add_user_references_to_promotions people_ex promotions_both [] in
  (match res.1 with
   | Ok out => column out "user_id"
   | Raise _ => []
   end) = [Int 5]
  ∧ res.2 = [].
Proof. by_compute. Qed.

(** ** The handler of [UserReferencesMerger.merge] *)

(** A body only ever appends to the error list. *)
Definition appends {A : Type} (m : M A) : Prop :=
  ∀ errs, ∃ more, (m errs).2 = errs ++ more.

Lemma appends_mret {A : Type} (a : A) : appends (mret a).
Proof. intros errs. exists []. by rewrite app_nil_r. Qed.

Lemma appends_raise {A : Type} (e : exn) : appends (raise (A := A) e).
Proof. intros errs. exists []. by rewrite app_nil_r. Qed.

Lemma appends_add_error (message : string) : appends (add_error message).
Proof. intros errs. by exists [message]. Qed.

Lemma appends_bind {A B : Type} (m : M A) (k : A → M B) :
  appends m → (∀ a, appends (k a)) → appends (m ≫= k).
Proof.
  intros Hm Hk errs. unfold mbind, M_bind.
  destruct (Hm errs) as [more1 H1]. destruct (m errs) as [[a|e] errs1].
  - simpl in H1. subst errs1. destruct (Hk a (errs ++ more1)) as [more2 H2].
    exists (more1 ++ more2). by rewrite H2, app_assoc.
  - simpl in *. eauto.
Qed.

Lemma appends_lookup_map people_df key : appends (lookup_map people_df key).
Proof.
  unfold lookup_map. destruct (has_column people_df "user_id");
    [apply appends_mret | apply appends_raise].
Qed.

Lemma appends_report_missing kind df : appends (report_missing kind df).
Proof.
  unfold report_missing. case_decide;
    [apply appends_add_error | apply appends_mret].
Qed.

Lemma appends_add_promotions people_df promotions_df :
  appends (_add_user_references_to_promotions people_df promotions_df).
Proof.
  unfold _add_user_references_to_promotions.
  destruct (already_resolved promotions_df); [apply appends_mret|].
  apply appends_bind.
  { match goal with |- appends (if ?b then _ else _) => destruct b end;
      [|apply appends_mret].
    apply appends_bind; [apply appends_lookup_map|].
    intros a. apply appends_mret. }
  intros d1. apply appends_bind.
  { match goal with |- appends (if ?b then _ else _) => destruct b end;
      [|apply appends_mret].
    apply appends_bind; [apply appends_lookup_map|].
    intros a. apply appends_mret. }
  intros d2. apply appends_bind; [apply appends_report_missing|].
  intros _. apply appends_mret.
Qed.

Lemma appends_add_transactions people_df transactions_df :
  appends (_add_user_references_to_transactions people_df transactions_df).
Proof.
  unfold _add_user_references_to_transactions.
  destruct transactions_df as [t|]; [|apply appends_mret].
  destruct (already_resolved t); [apply appends_mret|].
  apply appends_bind.
  { match goal with |- appends (if ?b then _ else _) => destruct b end;
      [|apply appends_mret].
    apply appends_bind; [apply appends_lookup_map|].
    intros a. apply appends_mret. }
  intros d1. apply appends_bind; [apply appends_report_missing|].
  intros _. apply appends_mret.
Qed.

Lemma appends_merge_body people_df promotions_df transactions_df :
  appends (UserReferencesMerger_merge_body people_df promotions_df
             transactions_df).
Proof.
  unfold UserReferencesMerger_merge_body.
  apply appends_bind; [apply appends_add_promotions|].
  intros p. destruct transactions_df; [|apply appends_mret].
  apply appends_bind; [apply appends_add_transactions|].
  intros t. apply appends_mret.
Qed.

(** An identity table without [user_id]. *)
Definition people_no_id : DataFrame :=
  mkDF ["email"; "phone"]
       [{[ "email" := Str "a@x"; "phone" := Str "222" ]}].

(** Promotions without any contact column. *)
Definition promotions_plain : DataFrame :=
  mkDF ["promotion"] [{[ "promotion" := Str "pen" ]}].

(** C10: when the body of [UserReferencesMerger.merge] raises [e], the
    call still returns: the mapping holds the promotions and the
    transactions the merger was given, and the error list, as
    [get_errors] returns it, is the list the body left (the initial
    list, extended) followed by the message built from [e]. *)
Theorem UserReferencesMerger_merge_catches
    (people_df promotions_df : DataFrame) (transactions_df : option DataFrame)
    (errs errs' : list string) (e : exn) :
  UserReferencesMerger_merge_body people_df promotions_df transactions_df errs
    = (Raise e, errs') →
  (UserReferencesMerger_merge people_df promotions_df transactions_df errs).1
    = {[ "promotions" := Some promotions_df;
         "transactions" := transactions_df ]}
  ∧ get_errors
      (UserReferencesMerger_merge people_df promotions_df transactions_df
         errs).2
    = errs' ++ ["Unexpected error in user reference merging: "
                +:+ exn_str e]
  ∧ ∃ more, errs' = errs ++ more.
Proof.
  intros H. unfold UserReferencesMerger_merge. rewrite H. simpl.
  split; [done|]. split; [done|].
  destruct (appends_merge_body people_df promotions_df transactions_df errs)
    as [more Hm].
  rewrite H in Hm. eauto.
Qed.

Lemma UserReferencesMerger_merge_catches_witness :
  (UserReferencesMerger_merge people_no_id promotions_plain
     (Some transactions_phone) ["earlier"]).1
    = {[ "promotions" := Some promotions_plain;
         "transactions" := Some transactions_phone ]}
  ∧ get_errors
      (UserReferencesMerger_merge people_no_id promotions_plain
         (Some transactions_phone) ["earlier"]).2
    = ["earlier"; "Could not find user_id for 1 promotions"]
      ++ ["Unexpected error in user reference merging: "
          +:+ exn_str (KeyError "'user_id'")]
  ∧ ∃ more,
      ["earlier"; "Could not find user_id for 1 promotions"]
      = ["earlier"] ++ more.
Proof.
  apply (UserReferencesMerger_merge_catches people_no_id promotions_plain
           (Some transactions_phone) ["earlier"]).
  vm_compute. reflexivity.
Defined.

(** ** [PeopleMerger.merge] writes to the frames it was given *)

Lemma fill_missing_columns_grows (df : DataFrame) :
  missing_columns df ≠ [] → fill_missing_columns df ≠ df.
Proof.
  intros Hm Heq. destruct (fill_missing_columns_spec df) as [Hc _].
  rewrite Heq in Hc. apply (f_equal length) in Hc.
  rewrite length_app in Hc. destruct (missing_columns df); [done|].
  simpl in Hc. lia.
Qed.

Lemma frame_at_insert_eq (σ : store) (i : nat) (d : DataFrame) :
  i < length σ → frame_at (<[i := d]> σ) i = d.
Proof. intros H. unfold frame_at. by rewrite list_lookup_insert_eq. Qed.

Lemma frame_at_insert_ne (σ : store) (i j : nat) (d : DataFrame) :
  i ≠ j → frame_at (<[i := d]> σ) j = frame_at σ j.
Proof. intros H. unfold frame_at. by rewrite list_lookup_insert_ne. Qed.


(** [PeopleMerger.merge] joins on all eight schema columns: the rows of
    user 1 that differ in [city] are both in its result. *)
Example PeopleMerger_merge_keeps_both_rows :
  let out := default empty_df
               ((PeopleMerger_merge (mkPeopleMerger 0 1 [])
                   [people_json_ex; people_yml_ex]).1.1 !! "people") in
  ((λ r, (get r "user_id", get r "city")) <$> rows out)
  = [(Int 1, Str "A"); (Int 1, Str "B"); (Int 2, Str "C")].
Proof. by_compute. Qed.

(** ** Grouping and the left join *)

Lemma group_keys_elem key df k :
  k ∈ group_keys key df ↔ k ∈ column df key ∧ notna k = true.
Proof.
  unfold group_keys. rewrite merge_sort_Permutation.
  rewrite elem_of_remove_dups, list_elem_of_filter. tauto.
Qed.

Lemma group_keys_NoDup key df : NoDup (group_keys key df).
Proof.
  unfold group_keys. rewrite merge_sort_Permutation.
  apply NoDup_remove_dups.
Qed.


(** Among rows built from distinct keys at most one has a given key. *)
Lemma filter_by_key (mk : cell → gmap string cell) (key : string)
    (keys : list cell) (u : cell) :
  (∀ k, get (mk k) key = k) → NoDup keys →
  filter (λ r, get r key = u) (mk <$> keys)
  = if decide (u ∈ keys) then [mk u] else [].
Proof.
  intros Hmk. induction 1 as [|k keys Hk Hnd IH]; [done|].
  rewrite fmap_cons, filter_cons, Hmk, IH.
  destruct (decide (k = u)) as [->|Hne].
  - rewrite decide_False by done. rewrite decide_True by (by left). done.
  - destruct (decide (u ∈ keys)) as [Hin|Hnin].
    + rewrite decide_True by (by right). done.
    + rewrite decide_False; [done|].
      intros [->|?]%elem_of_cons; done.
Qed.

Lemma get_foldr_insert (l r : gmap string cell) (extra : list string)
    (c : string) :
  get (foldr (λ c m, <[c := get r c]> m) l extra) c
  = if decide (c ∈ extra) then get r c else get l c.
Proof.
  induction extra as [|c0 extra IH]; simpl; [done|].
  rewrite get_insert, IH. destruct (decide (c0 = c)) as [->|Hne].
  - rewrite decide_True; [done | by left].
  - destruct (decide (c ∈ extra)) as [Hin|Hnin].
    + rewrite decide_True; [done | by right].
    + rewrite decide_False; [done|].
      intros [?|?]%elem_of_cons; congruence.
Qed.

(** The row of the right frame that a left row is joined with. *)
Definition matching (mk : cell → gmap string cell) (keys : list cell)
    (u : cell) : gmap string cell :=
  if decide (u ∈ keys) then mk u else ∅.

(** Against a right frame with one row per key, the left join has one
    row per left row. *)
Lemma pd_merge_left_rows (left : DataFrame) (cols : list string)
    (mk : cell → gmap string cell) (keys : list cell) :
  (∀ k, get (mk k) "user_id" = k) → NoDup keys →
  rows (pd_merge_left left (mkDF cols (mk <$> keys)))
  = (λ l, foldr (λ c m, <[c := get (matching mk keys (get l "user_id")) c]> m)
            l (filter (λ c, c ≠ "user_id") cols)) <$> rows left.
Proof.
  intros Hmk Hnd. unfold pd_merge_left. simpl.
  induction (rows left) as [|l ls IH]; [done|].
  simpl. rewrite IH. rewrite (filter_by_key mk) by done.
  unfold matching. by destruct (decide (get l "user_id" ∈ keys)).
Qed.

Lemma select_user_id_ok people_df :
  "user_id" ∈ columns people_df →
  select_user_id people_df
  = Ok (mkDF ["user_id"] (reindex ["user_id"] <$> rows people_df)).
Proof.
  intros H. unfold select_user_id.
  by rewrite (proj2 (has_column_true _ _) H).
Qed.

Lemma get_reindex_user_id (p : gmap string cell) (c : string) :
  get (reindex ["user_id"] p) c
  = if decide (c = "user_id") then get p "user_id" else NA.
Proof.
  rewrite get_reindex. destruct (decide (c = "user_id")) as [->|Hne].
  - rewrite decide_True; [done | by left].
  - rewrite decide_False; [done|]. by intros ?%list_elem_of_singleton.
Qed.

(** Reading a cell of a row written as a literal. *)
Ltac get_literal :=
  unfold get;
  repeat (rewrite lookup_insert_ne by done);
  rewrite ?lookup_insert_eq, ?lookup_singleton_eq; simpl.

Lemma Qred_inject_Z (z : Z) : Qred (inject_Z z) = inject_Z z.
Proof.
  unfold inject_Z, Qred. pose proof (Z.ggcd_correct_divisors z 1) as H.
  pose proof (Z.ggcd_gcd z 1) as Hg. rewrite Z.gcd_1_r in Hg.
  destruct (Z.ggcd z 1) as [g [a b]]. simpl in *. subst g.
  destruct H as [Ha Hb]. rewrite Z.mul_1_l in Ha, Hb. subst. done.
Qed.

Lemma astype_int_Int (z : Z) : astype_int (Int z) = Int z.
Proof.
  unfold Int, astype_int. simpl. rewrite Qred_inject_Z. simpl.
  by rewrite Z.quot_1_r.
Qed.

Lemma nunique_Int (l : list cell) :
  nunique l
  = Int (Z.of_nat (length (remove_dups (filter (λ c, notna c = true) l)))).
Proof. done. Qed.

Lemma count_after_merge (l : list cell) :
  astype_int (fillna0 (nunique l)) = nunique l.
Proof. unfold nunique. simpl. apply astype_int_Int. Qed.

(** ** The per-user transaction summary, row by row *)

(** What the summary row of a person with user id [u] holds. *)
Definition user_transactions_row (transactions_df : DataFrame) (u : cell)
    (r : gmap string cell) : Prop :=
  get r "user_id" = u ∧
  if decide (u ∈ group_keys "user_id" transactions_df) then
    let g := group "user_id" u transactions_df in
    get r "total_spent" = fillna0 (col_sum (cells "price" g))
    ∧ get r "transaction_count" = nunique (cells "transaction_id" g)
    ∧ get r "favorite_store" = _get_favorite (cells "store" g)
    ∧ get r "favorite_item" = _get_favorite (cells "item" g)
  else
    get r "total_spent" = Num 0%Qc
    ∧ get r "transaction_count" = Int 0
    ∧ get r "favorite_store" = NA
    ∧ get r "favorite_item" = NA.

Lemma Forall2_fmap_same {A B : Type} (P : A → B → Prop) (h : A → B)
    (l : list A) :
  (∀ x, x ∈ l → P x (h x)) → Forall2 P l (h <$> l).
Proof.
  intros H. apply Forall2_fmap_r, Forall_Forall2_diag, Forall_forall.
  exact H.
Qed.

(** [apply_column] rewrites the cells of one column. *)
Definition on_column (col : string) (f : cell → cell) (c : string) (x : cell)
  : cell :=
  if decide (c = col) then f x else x.

Lemma apply_column_rel (f : cell → cell) (col : string) (d : DataFrame) :
  rows_rel (on_column col f) (rows d) (rows (apply_column f col d)).
Proof.
  simpl. apply rows_rel_fmap. intros r c. rewrite get_insert.
  unfold on_column. destruct (decide (col = c)) as [->|Hne].
  - by rewrite decide_True.
  - by rewrite decide_False by congruence.
Qed.

Lemma rows_rel_compose (f g : string → cell → cell)
    (rs1 rs2 rs3 : list (gmap string cell)) :
  rows_rel f rs1 rs2 → rows_rel g rs2 rs3 →
  rows_rel (λ c x, g c (f c x)) rs1 rs3.
Proof. apply rows_rel_trans. done. Qed.

Lemma rows_rel_fmap_l (h : string → cell → cell)
    (g : gmap string cell → gmap string cell)
    (P : gmap string cell → gmap string cell → Prop)
    (l l' : list (gmap string cell)) :
  rows_rel h (g <$> l) l' →
  (∀ p r, (∀ c, get r c = h c (get (g p) c)) → P p r) →
  Forall2 P l l'.
Proof.
  intros Hrel HP. apply Forall2_fmap_l in Hrel.
  eapply Forall2_impl; [exact Hrel|]. simpl. intros p r Hr. by apply HP.
Qed.

(** The relation between the rows of a frame and its rows after a
    chain of [apply_column]. *)
Ltac rel_of_apply_columns d :=
  lazymatch d with
  | apply_column ?f ?c ?d' =>
      let H := rel_of_apply_columns d' in
      constr:(rows_rel_compose _ _ _ _ _ H (apply_column_rel f c d'))
  | _ => constr:(rows_rel_refl (rows d))
  end.

(** The cells of a row of the left join with [people_df[['user_id']]]. *)
Lemma get_joined_row (mk : cell → gmap string cell) (keys : list cell)
    (extra : list string) (p : gmap string cell) (c : string) :
  get (foldr (λ c m, <[c := get (matching mk keys
                                   (get (reindex ["user_id"] p) "user_id")) c]> m)
         (reindex ["user_id"] p) extra) c
  = if decide (c ∈ extra)
    then get (matching mk keys (get p "user_id")) c
    else if decide (c = "user_id") then get p "user_id" else NA.
Proof.
  rewrite get_foldr_insert, !get_reindex_user_id.
  by rewrite (decide_True (P := "user_id" = "user_id")).
Qed.

Lemma UserTransactionsMerger_merge_rows
    (transactions_df people_df : DataFrame) (errs : list string) :
  missing_required ["user_id"; "transaction_id"; "price"; "item"; "store"]
                   transactions_df = [] →
  "user_id" ∈ columns people_df →
  ∃ out,
    UserTransactionsMerger_merge transactions_df people_df errs
      = ({[ "user_transactions" := out ]}, errs)
    ∧ columns out = ["user_id"; "total_spent"; "transaction_count";
                     "favorite_store"; "favorite_item"]
    ∧ Forall2 (λ p r, user_transactions_row transactions_df
                        (get p "user_id") r)
              (rows people_df) (rows out).
Proof.
  intros Hreq Hu. unfold UserTransactionsMerger_merge.
  rewrite Hreq, (select_user_id_ok _ Hu). eexists. split; [reflexivity|].
  split; [reflexivity|].
  match goal with
  | |- Forall2 _ _ (rows ?d) =>
      let H := rel_of_apply_columns d in pose proof H as Hrel
  end.
  unfold user_transactions_aggregated in Hrel.
  rewrite pd_merge_left_rows in Hrel;
    [|intros k; by get_literal|apply group_keys_NoDup].
  cbn [rows] in Hrel. rewrite <- list_fmap_compose in Hrel.
  change (filter (λ c, c ≠ "user_id")
            ["user_id"; "total_spent"; "transaction_count";
             "favorite_store"; "favorite_item"])
    with ["total_spent"; "transaction_count"; "favorite_store";
          "favorite_item"] in Hrel.
  eapply rows_rel_fmap_l; [exact Hrel|]. clear Hrel.
  intros p r Hget. unfold compose in Hget.
  unfold user_transactions_row.
  set (keys := group_keys "user_id" transactions_df) in *.
  set (mk := λ k : cell, _) in Hget.
  assert (Hcell : ∀ c, get r c = _)
    by (intros c; rewrite Hget, get_joined_row; reflexivity).
  clear Hget. unfold matching in Hcell.
  split; [by rewrite Hcell|].
  destruct (decide (get p "user_id" ∈ keys)) as [Hin|Hnin].
  - cbv zeta. split_and!; rewrite Hcell; simpl; subst mk; get_literal;
      try done.
    apply count_after_merge.
  - split_and!; rewrite Hcell; simpl; by rewrite get_empty.
Qed.

(** ** The per-user transfer summary, row by row *)

Lemma series_get_fmap (f : cell → cell) (keys : list cell) (u : cell) :
  series_get u ((λ k, (k, f k)) <$> keys)
  = if decide (u ∈ keys) then Some (f u) else None.
Proof.
  induction keys as [|k keys IH]; [done|].
  rewrite fmap_cons. simpl. destruct (decide (k = u)) as [->|Hne].
  - rewrite decide_True; [done | by left].
  - rewrite IH. destruct (decide (u ∈ keys)) as [Hin|Hnin].
    + rewrite decide_True; [done | by right].
    + rewrite decide_False; [done|].
      intros [?|?]%elem_of_cons; congruence.
Qed.

Definition sent_total (transfers_df : DataFrame) : list (cell * cell) :=
  grouped "sender_id" (λ g, col_sum (cells "amount" g)) transfers_df.

Definition sent_count (transfers_df : DataFrame) : list (cell * cell) :=
  grouped "sender_id" (λ g, nunique (cells "transfer_id" g)) transfers_df.

Definition received_total (transfers_df : DataFrame) : list (cell * cell) :=
  grouped "recipient_id" (λ g, col_sum (cells "amount" g)) transfers_df.

Definition received_count (transfers_df : DataFrame) : list (cell * cell) :=
  grouped "recipient_id" (λ g, nunique (cells "transfer_id" g)) transfers_df.

(** [set(sender_id) | set(recipient_id)].  All missing ids are the one
    cell [NA] here, while a Python set can hold several NaN objects;
    no person with a user id is looked up under them. *)
Definition all_user_ids (transfers_df : DataFrame) : list cell :=
  remove_dups (column transfers_df "sender_id"
               ++ column transfers_df "recipient_id").

(** What the summary row of a person with user id [u] holds. *)
Definition user_transfers_row (transfers_df : DataFrame) (u : cell)
    (r : gmap string cell) : Prop :=
  let sc := astype_int (fillna0 (series_map u (sent_count transfers_df))) in
  let rc :=
    astype_int (fillna0 (series_map u (received_count transfers_df))) in
  get r "user_id" = u ∧
  if decide (u ∈ all_user_ids transfers_df) then
    get r "total_sent"
      = fillna0 (fillna0 (series_map u (sent_total transfers_df)))
    ∧ get r "total_received"
      = fillna0 (fillna0 (series_map u (received_total transfers_df)))
    ∧ get r "net_transferred"
      = fillna0 (fillna0
          (cell_sub (series_get0 u (received_total transfers_df))
                    (series_get0 u (sent_total transfers_df))))
    ∧ get r "sent_count" = astype_int (fillna0 sc)
    ∧ get r "received_count" = astype_int (fillna0 rc)
    ∧ get r "transfer_count" = astype_int (fillna0 (cell_add sc rc))
  else
    get r "total_sent" = Num 0%Qc
    ∧ get r "total_received" = Num 0%Qc
    ∧ get r "net_transferred" = Num 0%Qc
    ∧ get r "sent_count" = Int 0
    ∧ get r "received_count" = Int 0
    ∧ get r "transfer_count" = Int 0.

Lemma UserTransfersMerger_merge_rows
    (transfers_df people_df : DataFrame) (errs : list string) :
  missing_required ["transfer_id"; "sender_id"; "recipient_id"; "amount"]
                   transfers_df = [] →
  "user_id" ∈ columns people_df →
  ∃ out,
    UserTransfersMerger_merge transfers_df people_df errs
      = ({[ "user_transfers" := out ]}, errs)
    ∧ columns out = ["user_id"; "total_sent"; "total_received";
                     "net_transferred"; "sent_count"; "received_count";
                     "transfer_count"]
    ∧ Forall2 (λ p r, user_transfers_row transfers_df (get p "user_id") r)
              (rows people_df) (rows out).
Proof.
  intros Hreq Hu. unfold UserTransfersMerger_merge.
  rewrite Hreq, (select_user_id_ok _ Hu). eexists. split; [reflexivity|].
  split; [reflexivity|].
  cbn [foldl].
  match goal with
  | |- Forall2 _ _ (rows ?d) =>
      let H := rel_of_apply_columns d in pose proof H as Hrel
  end.
  unfold user_transfers_result in Hrel.
  fold (sent_total transfers_df) (sent_count transfers_df)
       (received_total transfers_df) (received_count transfers_df)
       (all_user_ids transfers_df) in Hrel.
  cbv zeta in Hrel.
  rewrite pd_merge_left_rows in Hrel;
    [|intros k; by get_literal|apply NoDup_remove_dups].
  cbn [rows] in Hrel. rewrite <- list_fmap_compose in Hrel.
  change (filter (λ c, c ≠ "user_id")
            ["user_id"; "total_sent"; "total_received"; "net_transferred";
             "sent_count"; "received_count"; "transfer_count"])
    with ["total_sent"; "total_received"; "net_transferred";
          "sent_count"; "received_count"; "transfer_count"] in Hrel.
  eapply rows_rel_fmap_l; [exact Hrel|]. clear Hrel.
  intros p r Hget. unfold compose in Hget.
  unfold user_transfers_row.
  set (ids := all_user_ids transfers_df) in *.
  set (mk := λ k : cell, _) in Hget.
  assert (Hcell : ∀ c, get r c = _)
    by (intros c; rewrite Hget, get_joined_row; reflexivity).
  clear Hget. unfold matching in Hcell. cbv zeta.
  split; [by rewrite Hcell|].
  destruct (decide (get p "user_id" ∈ ids)) as [Hin|Hnin].
  - split_and!; rewrite Hcell; simpl; subst mk; get_literal; try done.
    unfold series_map at 1. rewrite series_get_fmap.
    by rewrite decide_True.
  - split_and!; rewrite Hcell; simpl; by rewrite get_empty.
Qed.

(** ** Completeness of the per-user summaries *)


Lemma Forall2_elem_of_r {A B : Type} (P : A → B → Prop) (l : list A)
    (l' : list B) (y : B) :
  Forall2 P l l' → y ∈ l' → ∃ x, x ∈ l ∧ P x y.
Proof.
  induction 1 as [|x y' l l' Hxy _ IH]; [by intros ?%elem_of_nil|].
  intros [->|Hin]%elem_of_cons.
  - exists x. split; [by left | done].
  - destruct (IH Hin) as (x' & ? & ?). exists x'. split; [by right | done].
Qed.






(** *** Example tables for the summaries *)

(** Persons A, B and C. *)
Definition people_abc : DataFrame :=
  mkDF ["user_id"; "city"]
       [{[ "user_id" := Str "A"; "city" := Str "X" ]};
        {[ "user_id" := Str "B"; "city" := Str "Y" ]};
        {[ "user_id" := Str "C"; "city" := Str "Z" ]}].

Definition line (tid : Z) (user : cell) (item store : string)
    (price quantity : Z) : gmap string cell :=
  {[ "transaction_id" := Int tid; "user_id" := user; "item" := Str item;
     "store" := Str store; "price" := Int price;
     "quantity" := Int quantity ]}.

(** Transaction 100 of user A has two item lines; transactions 101 and
    102 have no resolved user, and 102 sells a quantity of zero. *)
Definition transactions_lines : DataFrame :=
  mkDF ["transaction_id"; "user_id"; "item"; "store"; "price"; "quantity"]
       [line 100 (Str "A") "pen" "S1" 10 2;
        line 100 (Str "A") "ink" "S1" 20 2;
        line 101 NA "ink" "S2" 10 2;
        line 102 NA "cap" "S2" 5 0].

Definition transfer (tid : Z) (sender recipient : string) (amount : Z)
  : gmap string cell :=
  {[ "transfer_id" := Int tid; "sender_id" := Str sender;
     "recipient_id" := Str recipient; "amount" := Int amount ]}.

(** A sends 50 to B, B sends 20 to A. *)
Definition transfers_ab : DataFrame :=
  mkDF ["transfer_id"; "sender_id"; "recipient_id"; "amount"]
       [transfer 1 "A" "B" 50; transfer 2 "B" "A" 20].


(** ** Distinct counting of transactions *)

(** [n] is the number of distinct non-missing values of [l]. *)
Definition distinct_count (l : list cell) (n : nat) : Prop :=
  ∃ ds, NoDup ds ∧ (∀ x, x ∈ ds ↔ x ∈ l ∧ x ≠ NA) ∧ length ds = n.

Lemma notna_true (c : cell) : notna c = true ↔ c ≠ NA.
Proof. destruct c; simpl; split; congruence. Qed.

Lemma nunique_distinct (l : list cell) :
  ∃ n, nunique l = Int (Z.of_nat n) ∧ distinct_count l n.
Proof.
  eexists. split; [reflexivity|].
  exists (remove_dups (filter (λ c, notna c = true) l)).
  split; [apply NoDup_remove_dups|]. split; [|done].
  intros x. rewrite elem_of_remove_dups, list_elem_of_filter, notna_true.
  tauto.
Qed.

Lemma distinct_count_nil : distinct_count [] 0.
Proof.
  exists []. split; [constructor|]. split; [|done].
  intros x. split; [by intros ?%elem_of_nil | by intros [?%elem_of_nil _]].
Qed.

Lemma group_absent key df u : u ∉ column df key → group key u df = [].
Proof.
  intros Hu. unfold group, column in *.
  induction (rows df) as [|r rs IH]; [done|].
  rewrite fmap_cons, not_elem_of_cons in Hu. destruct Hu as [Hne Hu].
  rewrite filter_cons, decide_False by done. by apply IH.
Qed.

Lemma missing_required_cases (required : list string) (df : DataFrame) :
  missing_required required df = [] ∨
  ∃ c cs, missing_required required df = c :: cs.
Proof. destruct (missing_required required df); eauto. Qed.

Lemma UserTransactionsMerger_merge_cases
    (transactions_df people_df : DataFrame) (errs : list string) :
  (∃ errs', UserTransactionsMerger_merge transactions_df people_df errs
            = ({[ "user_transactions" := empty_df ]}, errs'))
  ∨ (missing_required
       ["user_id"; "transaction_id"; "price"; "item"; "store"]
       transactions_df = []
     ∧ "user_id" ∈ columns people_df).
Proof.
  unfold UserTransactionsMerger_merge.
  destruct (missing_required _ transactions_df) eqn:Hm; [|eauto].
  unfold select_user_id.
  destruct (has_column people_df "user_id") eqn:Hu; [|eauto].
  right. split; [done|]. by apply has_column_true.
Qed.

Lemma UserTransfersMerger_merge_cases
    (transfers_df people_df : DataFrame) (errs : list string) :
  (∃ errs', UserTransfersMerger_merge transfers_df people_df errs
            = ({[ "user_transfers" := empty_df ]}, errs'))
  ∨ (missing_required
       ["transfer_id"; "sender_id"; "recipient_id"; "amount"]
       transfers_df = []
     ∧ "user_id" ∈ columns people_df).
Proof.
  unfold UserTransfersMerger_merge.
  destruct (missing_required _ transfers_df) eqn:Hm; [|eauto].
  unfold select_user_id.
  destruct (has_column people_df "user_id") eqn:Hu; [|eauto].
  right. split; [done|]. by apply has_column_true.
Qed.

(** The rows of the item summary and of the store summary. *)
Lemma ItemSummaryMerger_merge_rows (transactions_df : DataFrame)
    (errs : list string) (out : DataFrame) (r : gmap string cell) :
  (ItemSummaryMerger_merge transactions_df errs).1 !! "item_summary"
    = Some out →
  r ∈ rows out →
  let g := group "item" (get r "item") transactions_df in
  (ItemSummaryMerger_merge transactions_df errs).2 = errs
  ∧ get r "item" ∈ group_keys "item" transactions_df
  ∧ get r "total_revenue" = col_sum (cells "price" g)
  ∧ get r "items_sold" = col_sum (cells "quantity" g)
  ∧ get r "transaction_count" = nunique (cells "transaction_id" g)
  ∧ get r "average_price"
    = round2 (cell_div (col_sum (cells "price" g))
                       (col_sum (cells "quantity" g))).
Proof.
  unfold ItemSummaryMerger_merge.
  destruct (missing_required _ transactions_df) eqn:Hm; simpl;
    rewrite lookup_singleton_eq; intros [= <-] Hr;
    [|by apply elem_of_nil in Hr].
  simpl in Hr. apply list_elem_of_fmap in Hr as (k & -> & Hk).
  split; [done|]. repeat split; get_literal; done.
Qed.

Lemma StoreSummaryMerger_merge_rows (transactions_df : DataFrame)
    (errs : list string) (out : DataFrame) (r : gmap string cell) :
  (StoreSummaryMerger_merge transactions_df errs).1 !! "store_summary"
    = Some out →
  r ∈ rows out →
  let g := group "store" (get r "store") transactions_df in
  get r "store" ∈ group_keys "store" transactions_df
  ∧ get r "total_revenue" = col_sum (cells "price" g)
  ∧ get r "items_sold" = col_sum (cells "quantity" g)
  ∧ get r "total_transactions" = nunique (cells "transaction_id" g).
Proof.
  unfold StoreSummaryMerger_merge.
  destruct (missing_required _ transactions_df) eqn:Hm; simpl;
    rewrite lookup_singleton_eq; intros [= <-] Hr;
    [|by apply elem_of_nil in Hr].
  simpl in Hr. apply list_elem_of_fmap in Hr as (k & -> & Hk).
  repeat split; get_literal; done.
Qed.

(** X15: every transaction count is the number of distinct non-missing
    [transaction_id] values on the lines of its group, not the number of
    lines: [transaction_count] of a user's row over the lines with that
    [user_id], [transaction_count] of an item's row over the lines with
    that item, [total_transactions] of a store's row over the lines with
    that store. *)
Theorem transaction_counts_are_distinct_counts (transactions_df : DataFrame) :
  (∀ people_df errs out r,
     (UserTransactionsMerger_merge transactions_df people_df errs).1
       !! "user_transactions" = Some out →
     r ∈ rows out → get r "user_id" ≠ NA →
     ∃ n, get r "transaction_count" = Int (Z.of_nat n)
          ∧ distinct_count
              (cells "transaction_id"
                 (group "user_id" (get r "user_id") transactions_df)) n)
  ∧ (∀ errs out r,
       (ItemSummaryMerger_merge transactions_df errs).1
         !! "item_summary" = Some out →
       r ∈ rows out →
       ∃ n, get r "transaction_count" = Int (Z.of_nat n)
            ∧ distinct_count
                (cells "transaction_id"
                   (group "item" (get r "item") transactions_df)) n)
  ∧ (∀ errs out r,
       (StoreSummaryMerger_merge transactions_df errs).1
         !! "store_summary" = Some out →
       r ∈ rows out →
       ∃ n, get r "total_transactions" = Int (Z.of_nat n)
            ∧ distinct_count
                (cells "transaction_id"
                   (group "store" (get r "store") transactions_df)) n).
Proof.
  split; [|split].
  - intros people_df errs out r Hout Hr Hna.
    destruct (UserTransactionsMerger_merge_cases transactions_df people_df
                errs) as [[errs' He]|[Hreq Hu]].
    { rewrite He in Hout. simpl in Hout.
      rewrite lookup_singleton_eq in Hout. injection Hout as <-.
      by apply elem_of_nil in Hr. }
    destruct (UserTransactionsMerger_merge_rows _ _ errs Hreq Hu)
      as (out' & Hm & _ & Hrows).
    rewrite Hm in Hout. simpl in Hout. rewrite lookup_singleton_eq in Hout.
    injection Hout as ->.
    destruct (Forall2_elem_of_r _ _ _ _ Hrows Hr) as (p & _ & Hid & Hrow).
    rewrite <- Hid in Hrow.
    destruct (decide (get r "user_id" ∈ group_keys "user_id" transactions_df))
      as [Hin|Hnin].
    + destruct Hrow as (_ & -> & _). apply nunique_distinct.
    + destruct Hrow as (_ & -> & _). exists 0. split; [done|].
      rewrite group_absent; [apply distinct_count_nil|].
      intros Hc. apply Hnin, group_keys_elem. split; [done|].
      by apply notna_true.
  - intros errs out r Hout Hr.
    destruct (ItemSummaryMerger_merge_rows _ _ _ _ Hout Hr)
      as (_ & _ & _ & _ & -> & _).
    apply nunique_distinct.
  - intros errs out r Hout Hr.
    destruct (StoreSummaryMerger_merge_rows _ _ _ _ Hout Hr)
      as (_ & _ & _ & ->).
    apply nunique_distinct.
Qed.

(** The three summaries of [transactions_lines]. *)
Definition user_transactions_ex : DataFrame :=
  default empty_df
    ((UserTransactionsMerger_merge transactions_lines people_abc []).1
       !! "user_transactions").

Definition item_summary_ex : DataFrame :=
  default empty_df
    ((ItemSummaryMerger_merge transactions_lines []).1 !! "item_summary").

Definition store_summary_ex : DataFrame :=
  default empty_df
    ((StoreSummaryMerger_merge transactions_lines []).1 !! "store_summary").

(** Transaction 100 spans two lines of user A, both at store S1, and
    counts once for the user and once for the store; transaction 101 on
    one line and 100 on another give item [ink] a count of 2. *)
Example transaction_100_counts_once :
  ((λ r, (get r "user_id", get r "transaction_count"))
     <$> rows user_transactions_ex)
  = [(Str "A", Int 1); (Str "B", Int 0); (Str "C", Int 0)]
  ∧ ((λ r, (get r "item", get r "transaction_count"))
       <$> rows item_summary_ex)
    = [(Str "cap", Int 1); (Str "ink", Int 2); (Str "pen", Int 1)]
  ∧ ((λ r, (get r "store", get r "total_transactions"))
       <$> rows store_summary_ex)
    = [(Str "S1", Int 1); (Str "S2", Int 2)].
Proof. by_compute. Qed.

Lemma transaction_counts_are_distinct_counts_witness :
  let r := default ∅ (rows user_transactions_ex !! 0) in
  ∃ n, get r "transaction_count" = Int (Z.of_nat n)
       ∧ distinct_count
           (cells "transaction_id"
              (group "user_id" (get r "user_id") transactions_lines)) n.
Proof.
  apply (proj1 (transaction_counts_are_distinct_counts transactions_lines)
           people_abc [] user_transactions_ex).
  - by_compute.
  - by_compute.
  - by_compute.
Defined.

(** ** Lines without a resolved user *)






Section other_columns.
Variable f : gmap string cell → cell.

Let g (r : gmap string cell) : gmap string cell := <["user_id" := f r]> r.












End other_columns.


(** In [transactions_lines] the lines of transactions 101 and 102 have
    no user.  User A's row counts only the two lines of transaction 100;
    item [ink] sums the line of user A and the line without a user, and
    item [cap] and store [S2], which occur only on lines without a user,
    have rows of their own. *)
Example unresolved_lines_in_the_summaries :
  ((λ r, (get r "user_id", get r "total_spent", get r "transaction_count"))
     <$> rows user_transactions_ex)
  = [(Str "A", Int 30, Int 1); (Str "B", Int 0, Int 0);
     (Str "C", Int 0, Int 0)]
  ∧ ((λ r, (get r "item", get r "total_revenue")) <$> rows item_summary_ex)
    = [(Str "cap", Int 5); (Str "ink", Int 30); (Str "pen", Int 10)]
  ∧ ((λ r, (get r "store", get r "total_revenue", get r "total_transactions"))
       <$> rows store_summary_ex)
    = [(Str "S1", Int 30, Int 1); (Str "S2", Int 15, Int 2)].
Proof. by_compute. Qed.

(** ** The net balance of the transfer summary *)

(** A cell of a numeric column: a finite number or missing. *)
Definition finite_or_na (c : cell) : Prop := c = NA ∨ ∃ x, c = Num x.

Global Instance finite_or_na_dec (c : cell) : Decision (finite_or_na c).
Proof.
  refine (match c with
          | NA => left _
          | Num x => left _
          | _ => right _
          end); unfold finite_or_na.
  - by left.
  - right. by exists x.
  - intros [?|[? ?]]; discriminate.
  - intros [?|[? ?]]; discriminate.
  - intros [?|[? ?]]; discriminate.
Defined.

Lemma foldl_cell_add_finite (l : list cell) (a : Qc) :
  Forall finite_or_na l →
  ∃ x, foldl cell_add (Num a) (filter (λ c, notna c = true) l) = Num x.
Proof.
  revert a. induction l as [|c l IH]; intros a Hl; [by exists a|].
  apply Forall_cons in Hl as [[->|[y ->]] Hl].
  - rewrite filter_cons. simpl. by apply IH.
  - rewrite filter_cons. simpl. by apply IH.
Qed.

Lemma col_sum_finite (l : list cell) :
  Forall finite_or_na l → ∃ x, col_sum l = Num x.
Proof. apply foldl_cell_add_finite. Qed.

Lemma cells_group_finite (key c : string) (k : cell) (df : DataFrame) :
  Forall finite_or_na (column df c) →
  Forall finite_or_na (cells c (group key k df)).
Proof.
  unfold column, cells, group. rewrite !Forall_fmap. intros H.
  apply Forall_forall. intros r [_ Hr]%list_elem_of_filter.
  rewrite Forall_forall in H. by apply H.
Qed.

Lemma series_get_grouped (key : string)
    (f : list (gmap string cell) → cell) (df : DataFrame) (u : cell) :
  series_get u (grouped key f df)
  = if decide (u ∈ group_keys key df) then Some (f (group key u df))
    else None.
Proof.
  unfold grouped. apply (series_get_fmap (λ k, f (group key k df))).
Qed.

(** A series of finite sums, read with [get(label, 0)] or with [map]
    followed by [fillna(0)]: the same number. *)
Lemma grouped_sum_read (key c : string) (df : DataFrame) (u : cell) :
  Forall finite_or_na (column df c) →
  ∃ x, series_get0 u (grouped key (λ g, col_sum (cells c g)) df) = Num x
       ∧ fillna0 (series_map u (grouped key (λ g, col_sum (cells c g)) df))
         = Num x.
Proof.
  intros Hf. unfold series_get0, series_map. rewrite series_get_grouped.
  destruct (decide (u ∈ group_keys key df)); simpl.
  - destruct (col_sum_finite _ (cells_group_finite key c u df Hf)) as [x ->].
    by exists x.
  - by exists 0%Qc.
Qed.

Lemma grouped_count_read (key c : string) (df : DataFrame) (u : cell) :
  ∃ n : Z,
    astype_int
      (fillna0 (series_map u (grouped key (λ g, nunique (cells c g)) df)))
    = Int n.
Proof.
  unfold series_map. rewrite series_get_grouped.
  destruct (decide (u ∈ group_keys key df)); simpl.
  - eexists. apply astype_int_Int.
  - by exists 0%Z.
Qed.

Lemma cell_add_Int (a b : Z) : cell_add (Int a) (Int b) = Int (a + b).
Proof.
  unfold Int. simpl. f_equal. apply Qc_is_canon. simpl.
  rewrite !Qred_correct. by rewrite inject_Z_plus.
Qed.

Lemma fillna0_Int (z : Z) : fillna0 (Int z) = Int z.
Proof. done. Qed.

(** ** Sums of integers *)

Lemma int_of_Int (z : Z) : int_of (Int z) = z.
Proof. unfold Int, int_of. simpl. by rewrite Qred_inject_Z. Qed.

Lemma is_int_Int (c : cell) : is_int c = true → c = Int (int_of c).
Proof.
  destruct c as [|x| | |]; try done. simpl. intros H%bool_decide_eq_true.
  unfold Int. f_equal. apply Qc_is_canon. simpl. rewrite Qred_inject_Z.
  destruct x as [[n d] Hc]. simpl in *. subst d. done.
Qed.

Lemma Int_is_int (z : Z) : is_int (Int z) = true.
Proof.
  unfold Int, is_int. simpl. rewrite Qred_inject_Z. by apply bool_decide_eq_true.
Qed.

Definition int_total (l : list cell) : Z :=
  foldr (λ c acc, (int_of c + acc)%Z) 0%Z l.

Lemma foldl_cell_add_int (l : list cell) (a : Z) :
  forallb (λ c, isna c || is_int c) l = true →
  foldl cell_add (Int a) (filter (λ c, notna c = true) l)
  = Int (a + int_total l).
Proof.
  revert a. induction l as [|c l IH]; intros a Hl.
  - simpl. by rewrite Z.add_0_r.
  - simpl in Hl. apply andb_true_iff in Hl as [Hc Hl].
    rewrite filter_cons. destruct (decide (notna c = true)) as [Hn|Hn].
    + apply orb_true_iff in Hc as [Hc|Hc].
      { unfold isna in Hc. by rewrite Hn in Hc. }
      rewrite (is_int_Int c Hc). cbn [foldl]. rewrite cell_add_Int.
      rewrite IH by done. cbn [int_total foldr]. rewrite int_of_Int.
      f_equal. fold (int_total l). lia.
    + rewrite IH by done. cbn [int_total foldr]. fold (int_total l).
      by destruct c.
Qed.

Lemma col_sum_int (l : list cell) :
  forallb (λ c, isna c || is_int c) l = true →
  col_sum l = Int (int_total l).
Proof.
  intros H. unfold col_sum. change (Num 0%Qc) with (Int 0).
  by rewrite foldl_cell_add_int.
Qed.

Lemma abs_int_total (l : list cell) : (Z.abs (int_total l) ≤ weight l)%Z.
Proof.
  induction l as [|c l IH]; simpl; [lia|].
  fold (int_total l) (weight l). lia.
Qed.

Lemma weight_nonneg (l : list cell) : (0 ≤ weight l)%Z.
Proof. induction l as [|c l IH]; simpl; [lia|]. fold (weight l). lia. Qed.

Lemma weight_cells_filter (c : string) (P : gmap string cell → Prop)
    `{!∀ r, Decision (P r)} (rs : list (gmap string cell)) :
  (weight (cells c (filter P rs)) ≤ weight (cells c rs))%Z.
Proof.
  induction rs as [|r rs IH]; [done|].
  rewrite filter_cons. destruct (decide (P r)).
  - unfold cells in *. rewrite !fmap_cons. simpl.
    fold (weight ((λ r, get r c) <$> filter P rs)).
    fold (weight ((λ r, get r c) <$> rs)). lia.
  - unfold cells in *. rewrite fmap_cons. simpl.
    fold (weight ((λ r, get r c) <$> rs)). lia.
Qed.

Lemma ints_cells_filter (c : string) (P : gmap string cell → Prop)
    `{!∀ r, Decision (P r)} (rs : list (gmap string cell)) :
  forallb (λ x, isna x || is_int x) (cells c rs) = true →
  forallb (λ x, isna x || is_int x) (cells c (filter P rs)) = true.
Proof.
  rewrite !forallb_forall. intros Hall x Hx. apply Hall.
  apply list_elem_of_In in Hx. apply list_elem_of_In.
  unfold cells in *. apply list_elem_of_fmap in Hx as (r & -> & Hr).
  apply list_elem_of_filter in Hr as [_ Hr].
  apply list_elem_of_fmap. by exists r.
Qed.

(** A sum over some of the rows of a column of exact amounts. *)
Lemma col_sum_exact (c : string) (P : gmap string cell → Prop)
    `{!∀ r, Decision (P r)} (rs : list (gmap string cell)) :
  exact_amounts (cells c rs) = true →
  ∃ z, col_sum (cells c (filter P rs)) = Int z
       ∧ (Z.abs z ≤ exact_bound)%Z.
Proof.
  unfold exact_amounts. intros [Hi Hw%bool_decide_eq_true]%andb_true_iff.
  exists (int_total (cells c (filter P rs))). split.
  - by apply col_sum_int, ints_cells_filter.
  - etrans; [apply abs_int_total|].
    etrans; [apply (weight_cells_filter c P rs)|done].
Qed.

Lemma exact_amounts_finite (l : list cell) :
  exact_amounts l = true → Forall finite_or_na l.
Proof.
  unfold exact_amounts. intros [Hi _]%andb_true_iff.
  rewrite forallb_forall in Hi. apply Forall_forall. intros c Hc.
  apply list_elem_of_In in Hc. specialize (Hi c Hc).
  destruct c; try done; [by left | right; by eexists].
Qed.

Lemma exact_column_amounts (l : list cell) :
  exact_column l = true → exact_amounts l = true.
Proof. unfold exact_column. by intros [? _]%andb_true_iff. Qed.

Lemma exact_cell_Int (z : Z) :
  (Z.abs z ≤ exact_bound)%Z → exact_cell (Int z) = true.
Proof.
  intros H. unfold exact_cell. rewrite Int_is_int, int_of_Int.
  by apply bool_decide_eq_true.
Qed.

Lemma cell_sub_Int (a b : Z) : cell_sub (Int a) (Int b) = Int (a - b).
Proof.
  unfold Int. simpl. f_equal. apply Qc_is_canon. simpl.
  rewrite !Qred_correct. unfold Qminus. rewrite <- inject_Z_opp.
  by rewrite <- inject_Z_plus.
Qed.

(** What the two sums of a person read, as integers. *)
Lemma grouped_sum_exact (key c : string) (df : DataFrame) (u : cell) :
  exact_amounts (column df c) = true →
  ∃ z, series_get0 u (grouped key (λ g, col_sum (cells c g)) df) = Int z
       ∧ fillna0 (series_map u (grouped key (λ g, col_sum (cells c g)) df))
         = Int z
       ∧ (Z.abs z ≤ exact_bound)%Z.
Proof.
  intros He. unfold series_get0, series_map. rewrite series_get_grouped.
  destruct (decide (u ∈ group_keys key df)); cbn [from_option id].
  - destruct (col_sum_exact c (λ r, get r key = u) (rows df) He)
      as (z & Hz & Hb).
    exists z. unfold group. rewrite Hz. by rewrite fillna0_Int.
  - exists 0%Z. split; [done|]. split; [done|]. unfold exact_bound. lia.
Qed.

(** The row of a person in the transfer summary, on exact amounts. *)
Lemma user_transfers_row_exact (transfers_df : DataFrame) (u : cell)
    (r : gmap string cell) :
  exact_amounts (column transfers_df "amount") = true →
  user_transfers_row transfers_df u r →
  ∃ (sent received sc rc : Z),
    get r "total_sent" = Int sent
    ∧ get r "total_received" = Int received
    ∧ get r "net_transferred" = Int (received - sent)
    ∧ get r "sent_count" = Int sc
    ∧ get r "received_count" = Int rc
    ∧ get r "transfer_count" = Int (sc + rc)
    ∧ (Z.abs sent ≤ exact_bound)%Z
    ∧ (Z.abs received ≤ exact_bound)%Z.
Proof.
  intros Hex Hrow. unfold user_transfers_row in Hrow. cbv zeta in Hrow.
  destruct Hrow as [_ Hrow].
  destruct (decide (u ∈ all_user_ids transfers_df)) as [Hin|Hnin].
  - destruct Hrow as (Hs & Hrc & Hnet & Hsc & Hrcc & Htc).
    destruct (grouped_sum_exact "sender_id" "amount" transfers_df u Hex)
      as (s & Hs0 & Hs1 & Hsb).
    destruct (grouped_sum_exact "recipient_id" "amount" transfers_df u Hex)
      as (v & Hv0 & Hv1 & Hvb).
    destruct (grouped_count_read "sender_id" "transfer_id" transfers_df u)
      as (a & Ha).
    destruct (grouped_count_read "recipient_id" "transfer_id" transfers_df u)
      as (b & Hb).
    unfold sent_total, received_total, sent_count, received_count in *.
    exists s, v, a, b.
    rewrite Hs, Hrc, Hnet, Hsc, Hrcc, Htc.
    rewrite Hs0, Hs1, Hv0, Hv1, Ha, Hb.
    rewrite cell_sub_Int, !fillna0_Int, !astype_int_Int, cell_add_Int.
    rewrite fillna0_Int, astype_int_Int. done.
  - destruct Hrow as (-> & -> & -> & -> & -> & ->).
    exists 0%Z, 0%Z, 0%Z, 0%Z. split_and!; try done; unfold exact_bound; lia.
Qed.

(** X1: when the amounts are integers whose absolute values add up to
    at most [2^52] (so that the sums of the code are exact) and the ids
    of senders and recipients are of one kind, the row of every person
    with a user id holds integer totals of absolute value at most
    [2^52] with [net_transferred = total_received - total_sent], and
    integer counts with [transfer_count = sent_count + received_count]. *)
Theorem transfer_summary_net_balance
    (transfers_df people_df : DataFrame) (errs : list string)
    (out : DataFrame) (r : gmap string cell) :
  exact_column (column transfers_df "amount") = true →
  one_kind (column transfers_df "sender_id"
            ++ column transfers_df "recipient_id") = true →
  (UserTransfersMerger_merge transfers_df people_df errs).1
    !! "user_transfers" = Some out →
  r ∈ rows out →
  get r "user_id" ≠ NA →
  ∃ (sent received sc rc : Z),
    get r "total_sent" = Int sent
    ∧ get r "total_received" = Int received
    ∧ get r "net_transferred" = Int (received - sent)
    ∧ get r "sent_count" = Int sc
    ∧ get r "received_count" = Int rc
    ∧ get r "transfer_count" = Int (sc + rc)
    ∧ (Z.abs sent ≤ exact_bound)%Z
    ∧ (Z.abs received ≤ exact_bound)%Z.
Proof.
  intros Hex%exact_column_amounts _ Hout Hr _.
  destruct (UserTransfersMerger_merge_cases transfers_df people_df errs)
    as [[errs' He]|[Hreq Hu]].
  { rewrite He in Hout. simpl in Hout.
    rewrite lookup_singleton_eq in Hout. injection Hout as <-.
    by apply elem_of_nil in Hr. }
  destruct (UserTransfersMerger_merge_rows _ _ errs Hreq Hu)
    as (out' & Hm & _ & Hrows).
  rewrite Hm in Hout. simpl in Hout. rewrite lookup_singleton_eq in Hout.
  injection Hout as ->.
  destruct (Forall2_elem_of_r _ _ _ _ Hrows Hr) as (p & _ & Hrow).
  by apply (user_transfers_row_exact transfers_df (get p "user_id")).
Qed.

Lemma transfer_summary_net_balance_witness :
  let out := default empty_df
               ((UserTransfersMerger_merge transfers_ab people_abc []).1
                  !! "user_transfers") in
  let r := default ∅ (rows out !! 0) in
  ∃ (sent received sc rc : Z),
    get r "total_sent" = Int sent
    ∧ get r "total_received" = Int received
    ∧ get r "net_transferred" = Int (received - sent)
    ∧ get r "sent_count" = Int sc
    ∧ get r "received_count" = Int rc
    ∧ get r "transfer_count" = Int (sc + rc)
    ∧ (Z.abs sent ≤ exact_bound)%Z
    ∧ (Z.abs received ≤ exact_bound)%Z.
Proof.
  apply (transfer_summary_net_balance transfers_ab people_abc []
           (default empty_df
              ((UserTransfersMerger_merge transfers_ab people_abc []).1
                 !! "user_transfers"))).
  - reflexivity.
  - reflexivity.
  - by_compute.
  - by_compute.
  - by_compute.
Defined.

(** A sends 50 to B and B sends 20 to A: A's balance is -30, B's is 30,
    both have sent one transfer and received one; C has none. *)
Example transfers_between_a_and_b :
  let out := default empty_df
               ((UserTransfersMerger_merge transfers_ab people_abc []).1
                  !! "user_transfers") in
  ((λ r, (get r "user_id", get r "net_transferred", get r "sent_count",
          get r "received_count", get r "transfer_count")) <$> rows out)
  = [(Str "A", Int (-30), Int 1, Int 1, Int 2);
     (Str "B", Int 30, Int 1, Int 1, Int 2);
     (Str "C", Int 0, Int 0, Int 0, Int 0)].
Proof. by_compute. Qed.

(** ** The average price of the item summary *)

(** Rounding moves a number by at most one half. *)
Lemma round_half_even_close (q : Q) :
  (Qabs (inject_Z (round_half_even q) - q) <= 1 # 2)%Q.
Proof.
  destruct q as [n d]. unfold round_half_even. cbn [Qnum Qden].
  pose proof (Z.div_mod n (Zpos d) ltac:(done)) as Hdm.
  pose proof (Z.mod_pos_bound n (Zpos d) ltac:(done)) as Hm.
  set (f := (n / Zpos d)%Z) in *. set (m := (n mod Zpos d)%Z) in *.
  assert (Hgoal : ∀ z : Z,
             (2 * Z.abs (z * Zpos d - n) ≤ Zpos d)%Z →
             (Qabs (inject_Z z - (n # d)) <= 1 # 2)%Q).
  { intros z Hz. unfold Qle, Qabs, Qminus, Qplus, Qopp, inject_Z. simpl.
    replace (z * Zpos d + - n * 1)%Z with (z * Zpos d - n)%Z by lia.
    change (Z.pos (1 * d)) with (Z.pos d). lia. }
  clearbody f m.
  destruct (2 * m ?= Zpos d)%Z eqn:Hc.
  - apply Z.compare_eq in Hc. destruct (Z.even f); apply Hgoal; subst n; lia.
  - rewrite Z.compare_lt_iff in Hc. apply Hgoal. subst n. lia.
  - rewrite Z.compare_gt_iff in Hc. apply Hgoal. subst n. lia.
Qed.

(** The quotient of two integers, the second dividing the first, is
    not moved by the rounding. *)
Lemma round_half_even_Z (z : Z) : round_half_even (inject_Z z) = z.
Proof.
  unfold round_half_even, inject_Z. cbn [Qnum Qden].
  rewrite Z.mod_1_r, Z.div_1_r. reflexivity.
Qed.

Lemma round2_Int (q : Z) : round2 (Int q) = Int q.
Proof.
  unfold round2, Int. f_equal. apply Qc_is_canon. cbn [this Q2Qc].
  rewrite Qred_inject_Z.
  change (inject_Z q * 100)%Q with (inject_Z q * inject_Z 100)%Q.
  rewrite <- inject_Z_mult, round_half_even_Z.
  rewrite Qred_correct. unfold Qeq, inject_Z. cbn [Qnum Qden]. lia.
Qed.

Lemma round2_exact_quotient (x y : Z) :
  y ≠ 0%Z → (y | x)%Z →
  round2 (cell_div (Int x) (Int y)) = Int (x / y).
Proof.
  intros Hy [q ->]. rewrite Z.div_mul by done.
  assert (Hne : Q2Qc (inject_Z y) ≠ 0%Qc).
  { intros H. apply (f_equal (λ c : Qc, Qnum (this c))) in H.
    cbn [this Q2Qc] in H. rewrite Qred_inject_Z in H.
    cbn in H. done. }
  assert (Hq : cell_div (Int (q * y)) (Int y) = Int q).
  { unfold cell_div, Int. rewrite decide_False by done. f_equal.
    apply Qc_is_canon. cbn [this Q2Qc Qcdiv Qcmult Qcinv].
    rewrite !Qred_correct. rewrite inject_Z_mult. field.
    intros H. apply Hy. unfold Qeq, inject_Z in H. cbn in H. lia. }
  rewrite Hq. apply round2_Int.
Qed.

(** X2: on transactions that can be summed and whose prices and
    quantities are exact amounts, [ItemSummaryMerger.merge] records no
    error when it produces a row, whatever the quantities: a division
    by zero is no error.  In a row whose [items_sold] is zero,
    [average_price] is an infinity with the sign of [total_revenue],
    and missing when [total_revenue] is zero too.  In a row whose
    [items_sold] is an integer that divides the integer
    [total_revenue], of absolute value at most [2^46] (so that the
    quotient and its hundredfold are exact in float64),
    [average_price] is the quotient. *)
Theorem item_average_price
    (transactions_df : DataFrame) (errs : list string)
    (out : DataFrame) (r : gmap string cell) :
  summable_transactions transactions_df = true →
  exact_column (column transactions_df "price") = true →
  exact_column (column transactions_df "quantity") = true →
  (ItemSummaryMerger_merge transactions_df errs).1 !! "item_summary"
    = Some out →
  r ∈ rows out →
  (ItemSummaryMerger_merge transactions_df errs).2 = errs
  ∧ (∀ x : Qc,
       get r "total_revenue" = Num x → get r "items_sold" = Num 0%Qc →
       x ≠ 0%Qc → get r "average_price" = Inf (Qc_neg x))
  ∧ (get r "total_revenue" = Num 0%Qc → get r "items_sold" = Num 0%Qc →
     get r "average_price" = NA)
  ∧ (∀ x y : Z,
       get r "total_revenue" = Int x → get r "items_sold" = Int y →
       y ≠ 0%Z → (y | x)%Z → (Z.abs x ≤ 2 ^ 46)%Z →
       get r "average_price" = Int (x / y)).
Proof.
  intros _ _ _ Hout Hr.
  destruct (ItemSummaryMerger_merge_rows _ _ _ _ Hout Hr)
    as (He & _ & Hrev & Hsold & _ & Havg).
  cbv zeta in *. rewrite <- Hrev, <- Hsold in Havg.
  split; [done|]. rewrite Havg. split_and!.
  - intros x -> -> Hne. unfold cell_div.
    rewrite decide_True by done. by rewrite decide_False.
  - intros -> ->. unfold cell_div. by rewrite !decide_True.
  - intros x y -> -> Hy Hdiv _. by apply round2_exact_quotient.
Qed.

(** Item [cap]: price 5, quantity 0.  Item [pen]: price 10, quantity 2. *)
Definition transactions_zero_quantity : DataFrame :=
  mkDF ["transaction_id"; "user_id"; "item"; "store"; "price"; "quantity"]
       [line 102 NA "cap" "S2" 5 0; line 103 NA "pen" "S2" 10 2].

Lemma item_average_price_witness :
  let run := ItemSummaryMerger_merge transactions_zero_quantity [] in
  let out := default empty_df (run.1 !! "item_summary") in
  let cap := default ∅ (rows out !! 0) in
  let pen := default ∅ (rows out !! 1) in
  run.2 = []
  ∧ get cap "average_price" = Inf false
  ∧ get pen "average_price" = Int 5.
Proof.
  intros run out cap pen.
  assert (Hs : summable_transactions transactions_zero_quantity = true)
    by reflexivity.
  assert (Hp : exact_column (column transactions_zero_quantity "price")
               = true) by reflexivity.
  assert (Hq : exact_column (column transactions_zero_quantity "quantity")
               = true) by reflexivity.
  assert (Hout : run.1 !! "item_summary" = Some out) by by_compute.
  assert (Hcap : cap ∈ rows out) by by_compute.
  assert (Hpen : pen ∈ rows out) by by_compute.
  pose proof (item_average_price transactions_zero_quantity [] out cap
                Hs Hp Hq Hout Hcap) as (He & Hinf & _ & _).
  pose proof (item_average_price transactions_zero_quantity [] out pen
                Hs Hp Hq Hout Hpen) as (_ & _ & _ & Hquot).
  split_and!.
  - exact He.
  - apply (Hinf (Q2Qc 5)); by_compute.
  - apply (Hquot 10%Z 2%Z); [by_compute|by_compute|done|by exists 5%Z|done].
Defined.

(** A revenue of 30 over 4 items sold averages 7.5; a quantity of zero
    gives positive infinity, and no error is recorded. *)
Example average_price_examples :
  let t := mkDF ["transaction_id"; "user_id"; "item"; "store"; "price";
                 "quantity"]
             [line 1 NA "pen" "S1" 10 1; line 2 NA "pen" "S1" 20 3;
              line 3 NA "cap" "S1" 5 0] in
  let res := ItemSummaryMerger_merge t [] in
  ((λ r, (get r "item", get r "average_price"))
     <$> rows (default empty_df (res.1 !! "item_summary")))
  = [(Str "cap", Inf false); (Str "pen", Num (Q2Qc (15 # 2)))]
  ∧ res.2 = [].
Proof. by_compute. Qed.

(** ** The merged people table in general *)

Lemma pd_concat_columns (a b : DataFrame) (c : string) :
  c ∈ columns (pd_concat a b) ↔ c ∈ columns a ∨ c ∈ columns b.
Proof.
  simpl. rewrite elem_of_app, list_elem_of_filter.
  destruct (decide (c ∈ columns a)); tauto.
Qed.

Lemma keep_first_sublist (key : string) (seen : list cell)
    (rs : list (gmap string cell)) :
  sublist (keep_first key seen rs) rs.
Proof.
  revert seen. induction rs as [|r rs IH]; intros seen; simpl; [done|].
  destruct (decide (get r key ∈ seen)).
  - by apply sublist_cons.
  - by apply sublist_skip.
Qed.

Lemma dom_reindex (cols : list string) (r : gmap string cell) :
  dom (reindex cols r) = list_to_set cols.
Proof.
  induction cols as [|c cols IH]; simpl.
  - apply dom_empty_L.
  - by rewrite dom_insert_L, IH.
Qed.

(** X3: for well-formed sources, with or without repeated ids,
    [MainDataMerger.merge] returns a well-formed people table that has
    the eight schema columns and all columns of both sources, holds no
    user id twice, and holds exactly the user ids of the two sources;
    it never has more rows than the two sources together. *)
Theorem merged_people_ids
    (primary secondary promotions transfers : DataFrame)
    (tx : option DataFrame) (out : DataFrame) :
  MainDataMerger_merge primary secondary promotions transfers tx !! "people"
    = Some out →
  well_formed primary → well_formed secondary →
  well_formed out
  ∧ (∀ c, c ∈ columns out ↔
          c ∈ common_columns ∨ c ∈ columns primary ∨ c ∈ columns secondary)
  ∧ NoDup (column out "user_id")
  ∧ (∀ u, u ∈ column out "user_id" ↔
          u ∈ user_ids primary ∨ u ∈ user_ids secondary)
  ∧ (length (rows out) ≤ length (rows primary) + length (rows secondary))%nat.
Proof.
  rewrite MainDataMerger_merge_people. intros [= <-] Hwp Hws.
  set (cols := columns (prepare primary) ++ _).
  assert (Hu : "user_id" ∈ cols).
  { apply elem_of_app. left. apply prepare_has_user_id. }
  destruct (prepare_spec primary) as [Hcp Hrp].
  destruct (prepare_spec secondary) as [Hcs Hrs].
  split_and!.
  - unfold well_formed. simpl. apply Forall_forall. intros r Hr.
    apply (sublist_subseteq _ _ (keep_first_sublist _ _ _)) in Hr.
    apply list_elem_of_fmap in Hr as (r0 & -> & _).
    by rewrite dom_reindex.
  - intros c. simpl. subst cols. rewrite elem_of_app, list_elem_of_filter.
    rewrite Hcp, Hcs, !elem_of_app, !missing_columns_spec.
    destruct (decide (c ∈ columns primary));
      destruct (decide (c ∈ columns secondary));
      destruct (decide (c ∈ common_columns)); tauto.
  - apply keep_first_NoDup.
  - intros u. unfold column. simpl. rewrite keep_first_ids.
    rewrite !fmap_app, elem_of_app, !reindex_user_ids by done.
    fold (column (prepare primary) "user_id").
    fold (column (prepare secondary) "user_id").
    rewrite !prepare_user_ids by done.
    split; [tauto|]. intros H. split; [done|]. apply not_elem_of_nil.
  - simpl. etrans; [apply sublist_length, keep_first_sublist|].
    rewrite length_fmap, length_app.
    rewrite <- (rows_rel_length _ _ _ Hrp), <- (rows_rel_length _ _ _ Hrs).
    done.
Qed.

Lemma merged_people_ids_witness :
  let out := default empty_df
               (MainDataMerger_merge people_json_dup people_yml_ex
                  promotions_ex transfers_ex None !! "people") in
  well_formed out
  ∧ (∀ c, c ∈ columns out ↔
          c ∈ common_columns ∨ c ∈ columns people_json_dup
          ∨ c ∈ columns people_yml_ex)
  ∧ NoDup (column out "user_id")
  ∧ (∀ u, u ∈ column out "user_id" ↔
          u ∈ user_ids people_json_dup ∨ u ∈ user_ids people_yml_ex)
  ∧ (length (rows out)
     ≤ length (rows people_json_dup) + length (rows people_yml_ex))%nat.
Proof.
  apply (merged_people_ids people_json_dup people_yml_ex promotions_ex
           transfers_ex None).
  - by_compute.
  - by_compute.
  - by_compute.
Defined.

(** ** Reference resolution in general *)

(** One lookup step: when the dependent frame has the raw column and
    the identity table has the identity column, user ids are filled in
    (only where still missing, when [masked]) and the raw column is
    dropped; otherwise the frame is left as it is. *)
Definition resolve_step (masked : bool) (people_df : DataFrame)
    (raw identity_column : string) (d : DataFrame) : DataFrame :=
  if has_column d raw && has_column people_df identity_column
  then drop_column raw
         (map_rows ((if masked then fill_user_id_masked else fill_user_id)
                      (identity_items people_df identity_column) raw) d)
  else d.

Definition resolved_promotions (people_df promotions_df : DataFrame)
  : DataFrame :=
  resolve_step true people_df "telephone" "phone"
    (resolve_step false people_df "client_email" "email"
       (with_user_id promotions_df)).

Definition resolved_transactions (people_df transactions_df : DataFrame)
  : DataFrame :=
  resolve_step false people_df "phone" "phone" (with_user_id transactions_df).

(** A lookup step inside a body: it returns [resolve_step] or raises. *)
Lemma resolve_step_run (masked : bool) (people_df d : DataFrame)
    (raw identity_column : string) (errs : list string)
    (out : DataFrame) (errs' : list string) :
  (if has_column d raw && has_column people_df identity_column
   then
     m ← lookup_map people_df identity_column;
     mret (drop_column raw
             (map_rows ((if masked then fill_user_id_masked else fill_user_id)
                          m raw) d))
   else mret d) errs = (Ok out, errs') →
  out = resolve_step masked people_df raw identity_column d ∧ errs' = errs.
Proof.
  unfold resolve_step.
  destruct (has_column d raw && has_column people_df identity_column).
  - unfold mbind, M_bind, lookup_map.
    destruct (has_column people_df "user_id"); [|by intros [=]].
    by intros [= <- <-].
  - by intros [= <- <-].
Qed.

Lemma M_bind_inv {A B : Type} (m : M A) (k : A → M B) errs b errs' :
  (m ≫= k) errs = (Ok b, errs') →
  ∃ a errs1, m errs = (Ok a, errs1) ∧ k a errs1 = (Ok b, errs').
Proof.
  unfold mbind, M_bind. destruct (m errs) as [[a|e] errs1]; [eauto|].
  by intros [=].
Qed.

Lemma report_missing_run (kind : string) (df : DataFrame)
    (errs errs' : list string) (u : unit) :
  report_missing kind df errs = (Ok u, errs') →
  errs' = if decide (0 < missing_user_id df)
          then errs ++ ["Could not find user_id for "
                        +:+ pretty (missing_user_id df) +:+ " " +:+ kind]
          else errs.
Proof.
  unfold report_missing. case_decide; by intros [= <-].
Qed.

(** Every normal return of the promotions lookup. *)
Lemma add_promotions_ok (people_df promotions_df : DataFrame)
    (errs : list string) (out : DataFrame) (errs' : list string) :
  _add_user_references_to_promotions people_df promotions_df errs
    = (Ok out, errs') →
  (already_resolved promotions_df = true ∧ out = promotions_df
   ∧ errs' = errs)
  ∨ (already_resolved promotions_df = false
     ∧ out = resolved_promotions people_df promotions_df
     ∧ errs' = if decide (0 < missing_user_id out)
               then errs ++ ["Could not find user_id for "
                             +:+ pretty (missing_user_id out)
                             +:+ " promotions"]
               else errs).
Proof.
  unfold _add_user_references_to_promotions.
  destruct (already_resolved promotions_df) eqn:Hres.
  { intros [= <- <-]. by left. }
  fold (with_user_id promotions_df). intros H. right. split; [done|].
  apply M_bind_inv in H as (d1 & e1 & H1 & H).
  apply (resolve_step_run false) in H1 as [-> ->].
  apply M_bind_inv in H as (d2 & e2 & H2 & H).
  apply (resolve_step_run true) in H2 as [-> ->].
  apply M_bind_inv in H as (u & e3 & H3 & H).
  injection H as <- <-. split; [done|].
  by apply report_missing_run in H3.
Qed.

(** Every normal return of the transactions lookup. *)
Lemma add_transactions_ok (people_df transactions_df : DataFrame)
    (errs : list string) (out : DataFrame) (errs' : list string) :
  _add_user_references_to_transactions people_df (Some transactions_df) errs
    = (Ok out, errs') →
  (already_resolved transactions_df = true ∧ out = transactions_df
   ∧ errs' = errs)
  ∨ (already_resolved transactions_df = false
     ∧ out = resolved_transactions people_df transactions_df
     ∧ errs' = if decide (0 < missing_user_id out)
               then errs ++ ["Could not find user_id for "
                             +:+ pretty (missing_user_id out)
                             +:+ " transactions"]
               else errs).
Proof.
  unfold _add_user_references_to_transactions.
  destruct (already_resolved transactions_df) eqn:Hres.
  { intros [= <- <-]. by left. }
  fold (with_user_id transactions_df). intros H. right. split; [done|].
  apply M_bind_inv in H as (d1 & e1 & H1 & H).
  apply (resolve_step_run false) in H1 as [-> ->].
  apply M_bind_inv in H as (u & e3 & H3 & H).
  injection H as <- <-. split; [done|].
  by apply report_missing_run in H3.
Qed.

(** Two row lists agree on every column outside [S]. *)
Definition agree_off (S : list string) (rs rs' : list (gmap string cell))
  : Prop :=
  Forall2 (λ r r', ∀ c, c ∉ S → get r' c = get r c) rs rs'.

Lemma agree_off_refl (S : list string) (rs : list (gmap string cell)) :
  agree_off S rs rs.
Proof. unfold agree_off. induction rs; constructor; auto. Qed.

Lemma agree_off_fmap (S : list string)
    (g : gmap string cell → gmap string cell)
    (rs : list (gmap string cell)) :
  (∀ r c, c ∉ S → get (g r) c = get r c) → agree_off S rs (g <$> rs).
Proof.
  intros Hg. unfold agree_off. induction rs; simpl; constructor; auto.
Qed.

Lemma agree_off_trans (S1 S2 S : list string)
    (rs1 rs2 rs3 : list (gmap string cell)) :
  S1 ⊆ S → S2 ⊆ S →
  agree_off S1 rs1 rs2 → agree_off S2 rs2 rs3 → agree_off S rs1 rs3.
Proof.
  intros H1 H2 H12. revert rs3.
  induction H12 as [|r1 r2 l1 l2 Hr _ IH]; intros rs3 H23;
    inversion H23 as [|? r3 ? l3 Hr' Hl']; subst; constructor.
  - intros c Hc. rewrite Hr', Hr; [done| |]; intros Hin; apply Hc; auto.
  - by apply IH.
Qed.

Lemma with_user_id_agree (df : DataFrame) :
  agree_off ["user_id"] (rows df) (rows (with_user_id df)).
Proof.
  unfold with_user_id. destruct (has_column df "user_id").
  - apply agree_off_refl.
  - simpl. apply agree_off_fmap. intros r c Hc. rewrite get_insert.
    rewrite decide_False; [done|]. intros <-. apply Hc. by left.
Qed.

Lemma get_fill_user_id_masked_other d raw r c :
  c ≠ "user_id" → get (fill_user_id_masked d raw r) c = get r c.
Proof.
  intros Hc. unfold fill_user_id_masked.
  destruct (isna (get r "user_id")); [|done].
  by apply get_fill_user_id_other.
Qed.

Lemma resolve_step_agree (masked : bool) (people_df d : DataFrame)
    (raw identity_column : string) :
  agree_off ["user_id"; raw] (rows d)
    (rows (resolve_step masked people_df raw identity_column d)).
Proof.
  unfold resolve_step.
  destruct (has_column d raw && has_column people_df identity_column);
    [|apply agree_off_refl].
  simpl. rewrite <- list_fmap_compose. apply agree_off_fmap.
  intros r c Hc. simpl. rewrite get_delete.
  rewrite decide_False by (intros <-; apply Hc; set_solver).
  assert (c ≠ "user_id") by (intros ->; apply Hc; set_solver).
  destruct masked;
    [by apply get_fill_user_id_masked_other|by apply get_fill_user_id_other].
Qed.

Lemma resolve_step_columns (masked : bool) (people_df d : DataFrame)
    (raw identity_column : string) (c : string) :
  (c ∈ columns (resolve_step masked people_df raw identity_column d) →
   c ∈ columns d)
  ∧ (c ∈ columns d → c ≠ raw →
     c ∈ columns (resolve_step masked people_df raw identity_column d)).
Proof.
  unfold resolve_step.
  destruct (has_column d raw && has_column people_df identity_column);
    [|done].
  split.
  - by intros [? _]%drop_column_other.
  - intros ? ?. by apply drop_column_other.
Qed.

Lemma with_user_id_columns_inv (df : DataFrame) (c : string) :
  c ∈ columns (with_user_id df) → c = "user_id" ∨ c ∈ columns df.
Proof.
  unfold with_user_id. destruct (has_column df "user_id"); [auto|].
  simpl. rewrite elem_of_app, list_elem_of_singleton. tauto.
Qed.

Lemma already_resolved_has_user_id (df : DataFrame) :
  already_resolved df = true → "user_id" ∈ columns df.
Proof.
  unfold already_resolved. intros [H _]%andb_true_iff.
  by apply has_column_true.
Qed.

(** X4: whenever a lookup returns, its result has a [user_id] column,
    no column that the input did not have other than [user_id], every
    column of the input other than the raw contact columns, and the rows
    of the input in the same number and order with every cell outside
    [user_id] and the raw contact columns unchanged: a row that could
    not be resolved is kept. *)
Theorem resolution_keeps_rows (people_df : DataFrame) :
  (∀ promotions_df errs out errs',
     _add_user_references_to_promotions people_df promotions_df errs
       = (Ok out, errs') →
     "user_id" ∈ columns out
     ∧ (∀ c, c ∈ columns out → c = "user_id" ∨ c ∈ columns promotions_df)
     ∧ (∀ c, c ∈ columns promotions_df →
             c ≠ "client_email" → c ≠ "telephone" → c ∈ columns out)
     ∧ agree_off ["user_id"; "client_email"; "telephone"]
                 (rows promotions_df) (rows out))
  ∧ (∀ transactions_df errs out errs',
       _add_user_references_to_transactions people_df (Some transactions_df)
         errs = (Ok out, errs') →
       "user_id" ∈ columns out
       ∧ (∀ c, c ∈ columns out → c = "user_id" ∨ c ∈ columns transactions_df)
       ∧ (∀ c, c ∈ columns transactions_df → c ≠ "phone" → c ∈ columns out)
       ∧ agree_off ["user_id"; "phone"] (rows transactions_df) (rows out)).
Proof.
  split.
  - intros p errs out errs' H.
    apply add_promotions_ok in H as [(Hres & -> & _)|(Hres & -> & _)].
    { split_and!; [by apply already_resolved_has_user_id|auto|auto|].
      apply agree_off_refl. }
    unfold resolved_promotions. split_and!.
    + apply resolve_step_columns; [|done].
      apply resolve_step_columns; [|done]. apply with_user_id_has_user_id.
    + intros c Hc. apply resolve_step_columns in Hc.
      apply resolve_step_columns in Hc. by apply with_user_id_columns_inv.
    + intros c Hc H1 H2. apply resolve_step_columns; [|done].
      apply resolve_step_columns; [|done]. by apply with_user_id_columns.
    + eapply (agree_off_trans ["user_id"]
                ["user_id"; "client_email"; "telephone"]);
        [set_solver|set_solver|apply with_user_id_agree|].
      eapply (agree_off_trans ["user_id"; "client_email"]
                ["user_id"; "telephone"]);
        [set_solver|set_solver|apply resolve_step_agree
        |apply resolve_step_agree].
  - intros t errs out errs' H.
    apply add_transactions_ok in H as [(Hres & -> & _)|(Hres & -> & _)].
    { split_and!; [by apply already_resolved_has_user_id|auto|auto|].
      apply agree_off_refl. }
    unfold resolved_transactions. split_and!.
    + apply resolve_step_columns; [|done]. apply with_user_id_has_user_id.
    + intros c Hc. apply resolve_step_columns in Hc.
      by apply with_user_id_columns_inv.
    + intros c Hc H1. apply resolve_step_columns; [|done].
      by apply with_user_id_columns.
    + eapply (agree_off_trans ["user_id"] ["user_id"; "phone"]);
        [set_solver|set_solver|apply with_user_id_agree
        |apply resolve_step_agree].
Qed.

Lemma resolution_keeps_rows_witness :
  let out := resolved_promotions people_ex promotions_both in
  "user_id" ∈ columns out
  ∧ (∀ c, c ∈ columns out → c = "user_id" ∨ c ∈ columns promotions_both)
  ∧ (∀ c, c ∈ columns promotions_both →
          c ≠ "client_email" → c ≠ "telephone" → c ∈ columns out)
  ∧ agree_off ["user_id"; "client_email"; "telephone"]
              (rows promotions_both) (rows out).
Proof.
  apply (proj1 (resolution_keeps_rows people_ex) promotions_both [] _ []).
  vm_compute. reflexivity.
Defined.

(** ** Where a resolved user id comes from *)

Lemma dict_get_elem (k v : cell) (d : list (cell * cell)) :
  dict_get k d = Some v → (k, v) ∈ d.
Proof.
  induction d as [|[k' v'] d IH] using rev_ind; [done|].
  rewrite dict_get_snoc. simpl. rewrite elem_of_app.
  destruct (decide (k' = k)) as [->|Hne].
  - intros [= ->]. right. by left.
  - intros H. left. by apply IH.
Qed.

(** The person behind a filled user id. *)
Definition found_by (people_df : DataFrame) (identity_column : string)
    (contact uid : cell) : Prop :=
  contact ≠ NA ∧
  ∃ person, person ∈ rows people_df
            ∧ get person identity_column = contact
            ∧ get person "user_id" = uid.

Lemma fill_user_id_source (people_df : DataFrame)
    (raw identity_column : string) (r : gmap string cell) :
  let r' := fill_user_id (identity_items people_df identity_column) raw r in
  get r' "user_id" = get r "user_id"
  ∨ found_by people_df identity_column (get r raw) (get r' "user_id").
Proof.
  cbv zeta. unfold fill_user_id.
  destruct (notna (get r raw)) eqn:Hn; [|by left].
  destruct (dict_get _ _) as [v|] eqn:Hd; [|by left].
  right. split; [by apply notna_true|].
  apply dict_get_elem in Hd. unfold identity_items in Hd.
  apply list_elem_of_fmap in Hd as (person & [= Hk Hv] & Hin).
  exists person. rewrite get_insert. by rewrite decide_True.
Qed.

Lemma resolve_step_source (masked : bool) (people_df d : DataFrame)
    (raw identity_column : string) :
  raw ≠ "user_id" →
  Forall2 (λ r r',
      get r' "user_id" = get r "user_id"
      ∨ found_by people_df identity_column (get r raw) (get r' "user_id"))
    (rows d) (rows (resolve_step masked people_df raw identity_column d)).
Proof.
  intros Hne. unfold resolve_step.
  destruct (has_column d raw && has_column people_df identity_column) eqn:Hb.
  2:{ apply Forall_Forall2_diag, Forall_forall. intros r _. by left. }
  simpl. rewrite <- list_fmap_compose. apply Forall2_fmap_same.
  intros r _. simpl.
  rewrite get_delete, decide_False by done.
  destruct masked; [|apply fill_user_id_source].
  unfold fill_user_id_masked. destruct (isna (get r "user_id")); [|by left].
  apply fill_user_id_source.
Qed.

Lemma isna_true (c : cell) : isna c = true ↔ c = NA.
Proof. unfold isna. by destruct c. Qed.

Lemma unresolved_initial (df : DataFrame) (i : nat) (r : gmap string cell) :
  already_resolved df = false →
  rows (with_user_id df) !! i = Some r → get r "user_id" = NA.
Proof.
  unfold already_resolved, with_user_id.
  destruct (has_column df "user_id"); simpl.
  - intros Hall%negb_false_iff Hi. rewrite forallb_forall in Hall.
    apply isna_true, Hall. apply list_elem_of_In. unfold column.
    apply list_elem_of_fmap. exists r. split; [done|].
    by eapply list_elem_of_lookup_2.
  - intros _. rewrite list_lookup_fmap.
    destruct (rows df !! i); [|done]. intros [= <-].
    by rewrite get_insert, decide_True.
Qed.

Lemma agree_off_lookup (S : list string) (rs rs' : list (gmap string cell))
    (i : nat) (r r' : gmap string cell) (c : string) :
  agree_off S rs rs' → rs !! i = Some r → rs' !! i = Some r' →
  c ∉ S → get r' c = get r c.
Proof.
  intros H Hi Hi' Hc.
  destruct (Forall2_lookup_l _ _ _ _ _ H Hi) as (r2 & Hr2 & Hg).
  rewrite Hi' in Hr2. injection Hr2 as <-. by apply Hg.
Qed.

(** X5: a user id filled in by a lookup is the id of a person of the
    identity table: in promotions, of a person whose e-mail is the row's
    [client_email] or whose phone is the row's [telephone]; in
    transactions, of a person whose phone is the row's [phone]. *)
Theorem resolved_ids_come_from_people (people_df : DataFrame) :
  (∀ promotions_df errs out errs' i r r',
     already_resolved promotions_df = false →
     _add_user_references_to_promotions people_df promotions_df errs
       = (Ok out, errs') →
     rows promotions_df !! i = Some r → rows out !! i = Some r' →
     get r' "user_id" ≠ NA →
     found_by people_df "email" (get r "client_email") (get r' "user_id")
     ∨ found_by people_df "phone" (get r "telephone") (get r' "user_id"))
  ∧ (∀ transactions_df errs out errs' i r r',
       already_resolved transactions_df = false →
       _add_user_references_to_transactions people_df (Some transactions_df)
         errs = (Ok out, errs') →
       rows transactions_df !! i = Some r → rows out !! i = Some r' →
       get r' "user_id" ≠ NA →
       found_by people_df "phone" (get r "phone") (get r' "user_id")).
Proof.
  split.
  - intros p errs out errs' i r r' Hres H Hi Hi' Hna.
    apply add_promotions_ok in H as [(Hres' & _)|(_ & -> & _)];
      [congruence|].
    unfold resolved_promotions in Hi'.
    set (d0 := with_user_id p) in *.
    set (d1 := resolve_step false people_df "client_email" "email" d0) in *.
    destruct (Forall2_lookup_l _ _ _ _ _ (with_user_id_agree p) Hi)
      as (r0 & Hr0 & Hg0). fold d0 in Hr0.
    destruct (Forall2_lookup_l _ _ _ _ _
                (resolve_step_source false people_df d0 "client_email"
                   "email" ltac:(done)) Hr0) as (r1 & Hr1 & Hs1).
    fold d1 in Hr1.
    destruct (Forall2_lookup_l _ _ _ _ _
                (resolve_step_source true people_df d1 "telephone"
                   "phone" ltac:(done)) Hr1) as (r2 & Hr2 & Hs2).
    rewrite Hi' in Hr2. injection Hr2 as <-.
    pose proof (unresolved_initial p i r0 Hres Hr0) as Hinit.
    assert (Hce : get r0 "client_email" = get r "client_email").
    { apply Hg0. set_solver. }
    assert (Htel : get r1 "telephone" = get r "telephone").
    { rewrite (agree_off_lookup _ _ _ i r0 r1 "telephone"
                 (resolve_step_agree false people_df d0 "client_email"
                    "email") Hr0 Hr1) by set_solver.
      apply Hg0. set_solver. }
    rewrite Hce in Hs1. rewrite Htel in Hs2.
    destruct Hs2 as [Heq|Hf]; [|by right].
    rewrite Heq in *. destruct Hs1 as [Heq1|Hf]; [|by left].
    congruence.
  - intros t errs out errs' i r r' Hres H Hi Hi' Hna.
    apply add_transactions_ok in H as [(Hres' & _)|(_ & -> & _)];
      [congruence|].
    unfold resolved_transactions in Hi'.
    set (d0 := with_user_id t) in *.
    destruct (Forall2_lookup_l _ _ _ _ _ (with_user_id_agree t) Hi)
      as (r0 & Hr0 & Hg0). fold d0 in Hr0.
    destruct (Forall2_lookup_l _ _ _ _ _
                (resolve_step_source false people_df d0 "phone"
                   "phone" ltac:(done)) Hr0) as (r1 & Hr1 & Hs1).
    rewrite Hi' in Hr1. injection Hr1 as <-.
    pose proof (unresolved_initial t i r0 Hres Hr0) as Hinit.
    assert (Hph : get r0 "phone" = get r "phone").
    { apply Hg0. set_solver. }
    rewrite Hph in Hs1. destruct Hs1 as [Heq|Hf]; [|done]. congruence.
Qed.

Lemma resolved_ids_come_from_people_witness :
  let r := default ∅ (rows promotions_both !! 0) in
  let r' := default ∅
              (rows (resolved_promotions people_ex promotions_both) !! 0) in
  found_by people_ex "email" (get r "client_email") (get r' "user_id")
  ∨ found_by people_ex "phone" (get r "telephone") (get r' "user_id").
Proof.
  apply (proj1 (resolved_ids_come_from_people people_ex) promotions_both []
           (resolved_promotions people_ex promotions_both) [] 0).
  - reflexivity.
  - vm_compute. reflexivity.
  - reflexivity.
  - reflexivity.
  - by_compute.
Defined.

(** ** Running a lookup on its own result *)

Lemma with_user_id_id (df : DataFrame) :
  "user_id" ∈ columns df → with_user_id df = df.
Proof.
  intros H. unfold with_user_id. by rewrite (proj2 (has_column_true _ _) H).
Qed.

Lemma resolve_step_consumes (masked : bool) (people_df d : DataFrame)
    (raw identity_column : string) :
  has_column (resolve_step masked people_df raw identity_column d) raw
  && has_column people_df identity_column = false.
Proof.
  unfold resolve_step.
  destruct (has_column d raw && has_column people_df identity_column) eqn:Hb;
    [|done].
  apply andb_false_iff. left. apply has_column_false, drop_column_absent.
Qed.

Lemma resolve_step_has_column (masked : bool) (people_df d : DataFrame)
    (raw identity_column c : string) :
  has_column d c = false →
  has_column (resolve_step masked people_df raw identity_column d) c = false.
Proof.
  rewrite !has_column_false. intros H Hc. apply H.
  by apply resolve_step_columns in Hc.
Qed.

Lemma resolved_promotions_consumed (people_df promotions_df : DataFrame) :
  let out := resolved_promotions people_df promotions_df in
  "user_id" ∈ columns out
  ∧ has_column out "client_email" && has_column people_df "email" = false
  ∧ has_column out "telephone" && has_column people_df "phone" = false.
Proof.
  cbv zeta. unfold resolved_promotions. split_and!.
  - apply resolve_step_columns; [|done].
    apply resolve_step_columns; [|done]. apply with_user_id_has_user_id.
  - pose proof (resolve_step_consumes false people_df
                  (with_user_id promotions_df) "client_email" "email") as H.
    apply andb_false_iff in H as [H|H]; apply andb_false_iff; [left|by right].
    by apply resolve_step_has_column.
  - apply resolve_step_consumes.
Qed.

Lemma add_promotions_again (people_df out : DataFrame) (errs : list string) :
  "user_id" ∈ columns out →
  has_column out "client_email" && has_column people_df "email" = false →
  has_column out "telephone" && has_column people_df "phone" = false →
  ∃ errs', _add_user_references_to_promotions people_df out errs
           = (Ok out, errs').
Proof.
  intros Hu H1 H2. unfold _add_user_references_to_promotions.
  destruct (already_resolved out); [by eexists|].
  fold (with_user_id out). rewrite (with_user_id_id _ Hu), H1.
  erewrite M_bind_ok; [|reflexivity]. rewrite H2.
  erewrite M_bind_ok; [|reflexivity].
  destruct (report_missing_ok "promotions" out errs) as [errs' Hrep].
  erewrite M_bind_ok; [|exact Hrep]. by eexists.
Qed.

Lemma add_transactions_again (people_df out : DataFrame)
    (errs : list string) :
  "user_id" ∈ columns out →
  has_column out "phone" && has_column people_df "phone" = false →
  ∃ errs', _add_user_references_to_transactions people_df (Some out) errs
           = (Ok out, errs').
Proof.
  intros Hu H1. unfold _add_user_references_to_transactions.
  destruct (already_resolved out); [by eexists|].
  fold (with_user_id out). rewrite (with_user_id_id _ Hu), H1.
  erewrite M_bind_ok; [|reflexivity].
  destruct (report_missing_ok "transactions" out errs) as [errs' Hrep].
  erewrite M_bind_ok; [|exact Hrep]. by eexists.
Qed.

(** X6: a lookup applied to its own result returns that result: the
    frame is the same, no lookup dictionary is built and nothing is
    raised. *)
Theorem resolution_is_idempotent (people_df : DataFrame) :
  (∀ promotions_df errs out errs1,
     _add_user_references_to_promotions people_df promotions_df errs
       = (Ok out, errs1) →
     ∃ errs2, _add_user_references_to_promotions people_df out errs1
              = (Ok out, errs2))
  ∧ (∀ transactions_df errs out errs1,
       _add_user_references_to_transactions people_df (Some transactions_df)
         errs = (Ok out, errs1) →
       ∃ errs2,
         _add_user_references_to_transactions people_df (Some out) errs1
         = (Ok out, errs2)).
Proof.
  split.
  - intros p errs out errs1 H.
    apply add_promotions_ok in H as [(Hres & -> & _)|(_ & -> & _)].
    + exists errs1. unfold _add_user_references_to_promotions.
      by rewrite Hres.
    + destruct (resolved_promotions_consumed people_df p) as (Hu & H1 & H2).
      by apply add_promotions_again.
  - intros t errs out errs1 H.
    apply add_transactions_ok in H as [(Hres & -> & _)|(_ & -> & _)].
    + exists errs1. unfold _add_user_references_to_transactions.
      by rewrite Hres.
    + apply add_transactions_again.
      * unfold resolved_transactions. apply resolve_step_columns; [|done].
        apply with_user_id_has_user_id.
      * apply resolve_step_consumes.
Qed.

Lemma resolution_is_idempotent_witness :
  ∃ errs2,
    _add_user_references_to_promotions people_ex
      (resolved_promotions people_ex promotions_both) []
    = (Ok (resolved_promotions people_ex promotions_both), errs2).
Proof.
  apply (proj1 (resolution_is_idempotent people_ex) promotions_both []).
  vm_compute. reflexivity.
Defined.

(** ** Rows left without a user id *)

(** X17: a lookup that returns reports the rows it could not resolve,
    once: it appends [Could not find user_id for N promotions] (or
    [transactions]) with [N] the number of rows of its result without a
    user id, and nothing when there is no such row.  A table that is
    already resolved on entry is never reported, whatever the number of
    its rows without a user id. *)
Theorem unresolved_rows_are_reported (people_df : DataFrame) :
  (∀ promotions_df errs out errs',
     _add_user_references_to_promotions people_df promotions_df errs
       = (Ok out, errs') →
     (already_resolved promotions_df = true → errs' = errs)
     ∧ (already_resolved promotions_df = false →
        missing_user_id out = 0 → errs' = errs)
     ∧ (already_resolved promotions_df = false →
        0 < missing_user_id out →
        errs' = errs ++ ["Could not find user_id for "
                         +:+ pretty (missing_user_id out)
                         +:+ " promotions"]))
  ∧ (∀ transactions_df errs out errs',
       _add_user_references_to_transactions people_df (Some transactions_df)
         errs = (Ok out, errs') →
       (already_resolved transactions_df = true → errs' = errs)
       ∧ (already_resolved transactions_df = false →
          missing_user_id out = 0 → errs' = errs)
       ∧ (already_resolved transactions_df = false →
          0 < missing_user_id out →
          errs' = errs ++ ["Could not find user_id for "
                           +:+ pretty (missing_user_id out)
                           +:+ " transactions"])).
Proof.
  split.
  - intros p errs out errs' H.
    apply add_promotions_ok in H as [(Hres & _ & ->)|(Hres & _ & ->)];
      rewrite Hres; split_and!; try done.
    + intros _ H0. rewrite decide_False; [done|lia].
    + intros _ H0. by rewrite decide_True.
  - intros t errs out errs' H.
    apply add_transactions_ok in H as [(Hres & _ & ->)|(Hres & _ & ->)];
      rewrite Hres; split_and!; try done.
    + intros _ H0. rewrite decide_False; [done|lia].
    + intros _ H0. by rewrite decide_True.
Qed.

Lemma unresolved_rows_are_reported_witness :
  let out := with_user_id promotions_plain in
  let errs' := ["Could not find user_id for 1 promotions"] in
  (already_resolved promotions_plain = true → errs' = [])
  ∧ (already_resolved promotions_plain = false →
     missing_user_id out = 0 → errs' = [])
  ∧ (already_resolved promotions_plain = false →
     0 < missing_user_id out →
     errs' = [] ++ ["Could not find user_id for "
                    +:+ pretty (missing_user_id out) +:+ " promotions"]).
Proof.
  apply (proj1 (unresolved_rows_are_reported people_ex) promotions_plain []).
  vm_compute. reflexivity.
Defined.

(** ** An identity table without [user_id] *)

(** X7: when the identity table has an [email] column but no [user_id]
    column and the promotions, not yet resolved, have a [client_email]
    column, building the e-mail dictionary raises; [merge] returns the
    promotions and transactions it was given and appends one message
    that names the missing key. *)
Theorem missing_user_id_column_falls_back
    (people_df promotions_df : DataFrame) (transactions_df : option DataFrame)
    (errs : list string) :
  "user_id" ∉ columns people_df →
  "email" ∈ columns people_df →
  "client_email" ∈ columns promotions_df →
  already_resolved promotions_df = false →
  UserReferencesMerger_merge people_df promotions_df transactions_df errs
  = ({[ "promotions" := Some promotions_df;
        "transactions" := transactions_df ]},
     errs ++ ["Unexpected error in user reference merging: 'user_id'"]).
Proof.
  intros Hu He Hc Hres.
  assert (Hbody :
    UserReferencesMerger_merge_body people_df promotions_df transactions_df
      errs = (Raise (KeyError "'user_id'"), errs)).
  { unfold UserReferencesMerger_merge_body.
    apply M_bind_raise. unfold _add_user_references_to_promotions.
    rewrite Hres. fold (with_user_id promotions_df).
    rewrite (proj2 (has_column_true _ _) (with_user_id_columns _ _ Hc)).
    rewrite (proj2 (has_column_true _ _) He). cbn [andb].
    apply M_bind_raise, M_bind_raise. by apply lookup_map_raises. }
  unfold UserReferencesMerger_merge. by rewrite Hbody.
Qed.

Lemma missing_user_id_column_falls_back_witness :
  UserReferencesMerger_merge people_no_id promotions_both
    (Some transactions_phone) []
  = ({[ "promotions" := Some promotions_both;
        "transactions" := Some transactions_phone ]},
     [] ++ ["Unexpected error in user reference merging: 'user_id'"]).
Proof.
  apply (missing_user_id_column_falls_back people_no_id promotions_both
           (Some transactions_phone) []).
  - by_compute.
  - by_compute.
  - by_compute.
  - reflexivity.
Defined.

(** ** One row per item and per store *)

Lemma missing_required_nil (required : list string) (df : DataFrame) :
  missing_required required df = [] ↔ ∀ c, c ∈ required → c ∈ columns df.
Proof.
  unfold missing_required. split.
  - intros H c Hc. destruct (decide (c ∈ columns df)) as [|Hn]; [done|].
    assert (c ∈ filter (λ col, col ∉ columns df) required) as Hin
      by (by apply list_elem_of_filter).
    rewrite H in Hin. by apply elem_of_nil in Hin.
  - intros H. induction required as [|c cs IH]; [done|].
    rewrite filter_cons, decide_False.
    + apply IH. intros c' Hc'. apply H. by right.
    + intros Hn. apply Hn, H. by left.
Qed.

Lemma column_of_keyed_rows (mk : cell → gmap string cell) (key : string)
    (ks : list cell) :
  (∀ k, get (mk k) key = k) → (λ r, get r key) <$> (mk <$> ks) = ks.
Proof.
  intros Hmk. rewrite <- list_fmap_compose.
  rewrite <- (list_fmap_id ks) at 2. apply list_fmap_ext.
  intros i k _. apply Hmk.
Qed.

(** X8: on transactions that can be summed (typed, with a number among
    the prices and the quantities, with items and stores of one kind)
    and have the required columns, the item summary has one row per
    distinct non-missing item, the store summary one row per distinct
    non-missing store, and no error is recorded; without the required
    columns the summary is empty and one message is recorded. *)
Theorem one_row_per_item_and_store
    (transactions_df : DataFrame) (errs : list string) :
  (∃ items,
     (ItemSummaryMerger_merge transactions_df errs).1 !! "item_summary"
       = Some items
     ∧ NoDup (column items "item")
     ∧ ((∀ c, c ∈ ["item"; "price"; "quantity"; "transaction_id"] →
              c ∈ columns transactions_df) →
        summable_transactions transactions_df = true →
        (ItemSummaryMerger_merge transactions_df errs).2 = errs
        ∧ ∀ k, k ∈ column items "item" ↔
               k ∈ column transactions_df "item" ∧ k ≠ NA)
     ∧ (¬ (∀ c, c ∈ ["item"; "price"; "quantity"; "transaction_id"] →
                c ∈ columns transactions_df) →
        items = empty_df
        ∧ ∃ message,
            (ItemSummaryMerger_merge transactions_df errs).2
            = errs ++ [message]))
  ∧ (∃ stores,
       (StoreSummaryMerger_merge transactions_df errs).1 !! "store_summary"
         = Some stores
       ∧ NoDup (column stores "store")
       ∧ ((∀ c, c ∈ ["store"; "item"; "price"; "quantity";
                     "transaction_id"] →
                c ∈ columns transactions_df) →
          summable_transactions transactions_df = true →
          (StoreSummaryMerger_merge transactions_df errs).2 = errs
          ∧ ∀ k, k ∈ column stores "store" ↔
                 k ∈ column transactions_df "store" ∧ k ≠ NA)
       ∧ (¬ (∀ c, c ∈ ["store"; "item"; "price"; "quantity";
                       "transaction_id"] →
                  c ∈ columns transactions_df) →
          stores = empty_df
          ∧ ∃ message,
              (StoreSummaryMerger_merge transactions_df errs).2
              = errs ++ [message])).
Proof.
  split.
  - unfold ItemSummaryMerger_merge.
    destruct (missing_required _ transactions_df) as [|c0 cs] eqn:Hm.
    + eexists. split; [apply lookup_singleton_eq|]. simpl.
      unfold column. cbn [rows].
      rewrite column_of_keyed_rows by (intros k; by get_literal).
      split_and!.
      * apply group_keys_NoDup.
      * intros _ _. split; [done|]. intros k.
        rewrite group_keys_elem, notna_true. done.
      * intros Hn. exfalso. apply Hn. by apply missing_required_nil.
    + eexists. split; [apply lookup_singleton_eq|]. simpl. split_and!.
      * constructor.
      * intros H%missing_required_nil. congruence.
      * intros _. split; [done|]. by eexists.
  - unfold StoreSummaryMerger_merge.
    destruct (missing_required _ transactions_df) as [|c0 cs] eqn:Hm.
    + eexists. split; [apply lookup_singleton_eq|]. simpl.
      unfold column. cbn [rows].
      rewrite column_of_keyed_rows by (intros k; by get_literal).
      split_and!.
      * apply group_keys_NoDup.
      * intros _ _. split; [done|]. intros k.
        rewrite group_keys_elem, notna_true. done.
      * intros Hn. exfalso. apply Hn. by apply missing_required_nil.
    + eexists. split; [apply lookup_singleton_eq|]. simpl. split_and!.
      * constructor.
      * intros H%missing_required_nil. congruence.
      * intros _. split; [done|]. by eexists.
Qed.

Lemma one_row_per_item_and_store_witness :
  ∃ items,
    (ItemSummaryMerger_merge transactions_lines []).1 !! "item_summary"
      = Some items
    ∧ NoDup (column items "item")
    ∧ (ItemSummaryMerger_merge transactions_lines []).2 = []
    ∧ ∀ k, k ∈ column items "item" ↔
           k ∈ column transactions_lines "item" ∧ k ≠ NA.
Proof.
  destruct (proj1 (one_row_per_item_and_store transactions_lines []))
    as (items & H1 & H2 & H3 & _).
  exists items. split; [exact H1|]. split; [exact H2|].
  apply H3; [apply missing_required_nil|]; reflexivity.
Defined.

(** ** The favourite store and item *)

(** How often a value occurs. *)
Definition occurrences (v : cell) (l : list cell) : nat :=
  length (filter (λ x, x = v) l).

Lemma occurrences_notna (v : cell) (l : list cell) :
  v ≠ NA →
  occurrences v (filter (λ c, notna c = true) l) = occurrences v l.
Proof.
  intros Hv. unfold occurrences. induction l as [|x l IH]; [done|].
  rewrite !filter_cons. destruct (decide (notna x = true)) as [Hx|Hx].
  - rewrite filter_cons. destruct (decide (x = v)); simpl; by rewrite IH.
  - rewrite decide_False; [done|]. intros ->. by apply notna_true in Hv.
Qed.

Lemma occurrences_absent (v : cell) (l : list cell) :
  v ∉ l → occurrences v l = 0.
Proof.
  intros Hv. unfold occurrences. induction l as [|x l IH]; [done|].
  apply not_elem_of_cons in Hv as [Hne Hv].
  rewrite filter_cons, decide_False by done. by apply IH.
Qed.

Lemma mode_elem (l : list cell) (m : cell) :
  m ∈ mode l →
  m ∈ l ∧ m ≠ NA
  ∧ ∀ w, w ≠ NA → (occurrences w l ≤ occurrences m l)%nat.
Proof.
  unfold mode. cbv zeta.
  set (vals := filter (λ c, notna c = true) l).
  set (keys := merge_sort cell_le (remove_dups vals)).
  intros [Hmax Hm]%list_elem_of_filter.
  change (occurrences m vals
          = max_list ((λ k, occurrences k vals) <$> keys)) in Hmax.
  assert (Hkeys : ∀ k, k ∈ keys ↔ k ∈ l ∧ k ≠ NA).
  { intros k. unfold keys, vals.
    rewrite merge_sort_Permutation, elem_of_remove_dups.
    rewrite list_elem_of_filter, notna_true. tauto. }
  apply Hkeys in Hm as Hm'. destruct Hm' as [Hml Hmna].
  split; [done|]. split; [done|]. intros w Hw.
  destruct (decide (w ∈ l)) as [Hwl|Hwl].
  - rewrite <- (occurrences_notna w l), <- (occurrences_notna m l) by done.
    fold vals. rewrite Hmax. apply max_list_elem_of_le.
    apply list_elem_of_fmap. exists w. split; [done|]. by apply Hkeys.
  - rewrite occurrences_absent by done. lia.
Qed.

Lemma mode_nonempty (l : list cell) (v : cell) :
  v ∈ l → v ≠ NA → mode l ≠ [].
Proof.
  intros Hv Hna. unfold mode. cbv zeta.
  set (vals := filter (λ c, notna c = true) l).
  set (keys := merge_sort cell_le (remove_dups vals)).
  set (count := λ k, length (filter (λ v, v = k) vals)).
  assert (Hk : v ∈ keys).
  { unfold keys, vals. rewrite merge_sort_Permutation, elem_of_remove_dups.
    rewrite list_elem_of_filter, notna_true. done. }
  assert (Hne : count <$> keys ≠ []).
  { intros H. apply fmap_nil_inv in H. rewrite H in Hk.
    by apply elem_of_nil in Hk. }
  apply max_list_elem_of in Hne.
  apply list_elem_of_fmap in Hne as (k & Hck & Hkin).
  intros Hnil. exact (filter_nil_not_elem_of _ _ k Hnil (eq_sym Hck) Hkin).
Qed.

Lemma mode_all_na (l : list cell) : Forall (λ v, v = NA) l → mode l = [].
Proof.
  intros Hall. unfold mode. cbv zeta.
  assert (filter (λ c, notna c = true) l = []) as ->.
  { induction Hall as [|x l -> _ IH]; [done|].
    by rewrite filter_cons, decide_False. }
  done.
Qed.

(** X9: on a series that holds no list, [_get_favorite_store] and
    [_get_favorite_item] return a value that occurs in the series, is
    not missing, and occurs at least as often as every other
    non-missing value, as soon as the series has a non-missing value;
    on an empty or all-missing series they return no value. *)
Theorem favorite_is_most_frequent (values : list cell) :
  forallb scalar values = true →
  (Forall (λ v, v = NA) values → _get_favorite values = NA)
  ∧ (∀ v, v ∈ values → v ≠ NA →
       _get_favorite values ∈ values
       ∧ _get_favorite values ≠ NA
       ∧ ∀ w, w ≠ NA →
              (occurrences w values
               ≤ occurrences (_get_favorite values) values)%nat).
Proof.
  intros _. split.
  - intros Hall. unfold _get_favorite. rewrite (mode_all_na _ Hall).
    by destruct values.
  - intros v Hv Hna. unfold _get_favorite.
    destruct values as [|x values']; [by apply elem_of_nil in Hv|].
    pose proof (mode_nonempty _ v Hv Hna) as Hne.
    destruct (mode (x :: values')) as [|m ms] eqn:Hmode; [done|].
    apply (mode_elem (x :: values') m). rewrite Hmode. by left.
Qed.

Lemma favorite_is_most_frequent_witness :
  let values := [Str "S1"; NA; Str "S2"; Str "S2"] in
  _get_favorite values ∈ values
  ∧ _get_favorite values ≠ NA
  ∧ ∀ w, w ≠ NA →
         (occurrences w values
          ≤ occurrences (_get_favorite values) values)%nat.
Proof.
  apply (proj2 (favorite_is_most_frequent [Str "S1"; NA; Str "S2"; Str "S2"]
                  eq_refl)
           (Str "S1")).
  - by_compute.
  - by_compute.
Defined.

(** ** The most sold and the most profitable item of a store *)

Lemma idxmax_from_spec (s : list (cell * cell)) (best : cell * cell) :
  (∀ kv, kv ∈ best :: s → ∃ x, kv.2 = Num x) →
  ∃ x, (idxmax_from best s, Num x) ∈ best :: s
       ∧ ∀ kv y, kv ∈ best :: s → kv.2 = Num y → (y <= x)%Qc.
Proof.
  revert best. induction s as [|kv s IH]; intros best Hnum.
  - destruct (Hnum best ltac:(by left)) as [x Hx]. exists x. simpl. split.
    + destruct best as [k v]. simpl in *. subst v. by left.
    + intros kv y ->%list_elem_of_singleton Hy. rewrite Hx in Hy.
      injection Hy as ->. apply Qcle_refl.
  - destruct (Hnum best ltac:(by left)) as [xb Hxb].
    destruct (Hnum kv ltac:(right; by left)) as [xk Hxk].
    simpl. rewrite Hxb, Hxk. simpl.
    destruct (bool_decide (xb < xk)%Qc) eqn:Hlt.
    + apply bool_decide_eq_true in Hlt.
      destruct (IH kv) as (x & Hin & Hmax).
      { intros kv' Hkv'. apply Hnum. by right. }
      exists x. split; [by right|].
      intros kv' y [->|Hkv']%elem_of_cons Hy; [|by eapply Hmax].
      rewrite Hxb in Hy. injection Hy as ->.
      apply Qclt_le_weak. eapply Qclt_le_trans; [exact Hlt|].
      eapply Hmax; [by left|done].
    + apply bool_decide_eq_false in Hlt. apply Qcnot_lt_le in Hlt.
      destruct (IH best) as (x & Hin & Hmax).
      { intros kv' [->|Hkv']%elem_of_cons; apply Hnum;
          [by left|right; by right]. }
      exists x. split.
      * apply elem_of_cons in Hin as [Hin|Hin];
          [rewrite Hin; by left|right; by right].
      * intros kv' y [->|[->|Hkv']%elem_of_cons]%elem_of_cons Hy.
        -- eapply Hmax; [by left|done].
        -- rewrite Hxk in Hy. injection Hy as ->.
           eapply Qcle_trans; [exact Hlt|]. eapply Hmax; [by left|done].
        -- eapply Hmax; [by right|done].
Qed.

Lemma filter_all {A : Type} (P : A → Prop) `{∀ x, Decision (P x)}
    (l : list A) :
  (∀ x, x ∈ l → P x) → filter P l = l.
Proof.
  induction l as [|x l IH]; intros Hall; [done|].
  rewrite filter_cons, decide_True by (apply Hall; by left).
  f_equal. apply IH. intros y Hy. apply Hall. by right.
Qed.

(** The arg-max of a grouped sum over a frame with a finite measure. *)
Lemma idxmax_grouped_sum (key c : string) (df : DataFrame) :
  Forall finite_or_na (column df c) →
  let total k := col_sum (cells c (group key k df)) in
  let best := idxmax (grouped key (λ g, col_sum (cells c g)) df) in
  ((∀ k, k ∈ column df key → k = NA) → best = NA)
  ∧ (∀ k, k ∈ column df key → k ≠ NA →
       best ∈ column df key ∧ best ≠ NA
       ∧ ∀ k', k' ∈ column df key → k' ≠ NA →
           ∃ x y, total best = Num x ∧ total k' = Num y ∧ (y <= x)%Qc).
Proof.
  intros Hfin. cbv zeta.
  set (total := λ k, col_sum (cells c (group key k df))).
  set (mkv := λ k : cell, (k, total k)).
  change (grouped key (λ g, col_sum (cells c g)) df)
    with (mkv <$> group_keys key df).
  assert (Htot : ∀ k, ∃ x, total k = Num x).
  { intros k. apply col_sum_finite. by apply cells_group_finite. }
  assert (Hnum : ∀ kv, kv ∈ mkv <$> group_keys key df → ∃ x, kv.2 = Num x).
  { intros kv (k & -> & _)%list_elem_of_fmap. apply Htot. }
  unfold idxmax. rewrite filter_all.
  2:{ intros kv Hkv. destruct (Hnum kv Hkv) as [x ->]. done. }
  assert (Hkey : ∀ k, k ∈ group_keys key df ↔ k ∈ column df key ∧ k ≠ NA).
  { intros k. rewrite group_keys_elem, notna_true. done. }
  destruct (group_keys key df) as [|k0 ks]; split.
  - done.
  - intros k Hk Hna. exfalso.
    assert (k ∈ @nil cell) as Hin by (by apply Hkey).
    by apply elem_of_nil in Hin.
  - intros Hall. exfalso.
    destruct (proj1 (Hkey k0) ltac:(by left)) as [Hin Hna].
    by apply Hna, Hall.
  - intros k Hk Hna. rewrite fmap_cons in Hnum |- *.
    destruct (idxmax_from_spec (mkv <$> ks) (mkv k0) Hnum)
      as (x & Hbest & Hmax).
    rewrite <- fmap_cons in Hbest, Hmax.
    apply list_elem_of_fmap in Hbest as (b & [= Hb Hx] & Hbin).
    rewrite Hb. apply Hkey in Hbin as [Hbc Hbn].
    split; [done|]. split; [done|].
    intros k' Hk' Hna'. destruct (Htot k') as [y Hy].
    exists x, y. split; [done|]. split; [done|].
    apply (Hmax (mkv k')); [|done].
    apply list_elem_of_fmap. exists k'. split; [done|]. by apply Hkey.
Qed.

Lemma store_data_finite (transactions_df : DataFrame) (store : cell)
    (c : string) :
  Forall finite_or_na (column transactions_df c) →
  Forall finite_or_na (column (store_data transactions_df store) c).
Proof.
  unfold column, store_data. simpl. rewrite !Forall_fmap. intros H.
  apply Forall_forall. intros r [_ Hr]%list_elem_of_filter.
  rewrite Forall_forall in H. by apply H.
Qed.

Lemma store_data_NA (transactions_df : DataFrame) :
  rows (store_data transactions_df NA) = [].
Proof.
  unfold store_data. cbn [rows].
  induction (rows transactions_df) as [|r rs IH]; [done|].
  rewrite filter_cons, decide_False; [done|].
  unfold cell_eqb. by rewrite andb_false_r.
Qed.

(** X10: on transactions that can be summed, with the columns the
    method reads and with quantities and prices that are exact amounts,
    [_get_most_sold_item] of a store that has a line with a non-missing
    item returns an item of that store whose summed quantity there is
    at least that of every other item of the store, and
    [_get_most_profitable_item] one whose summed price is; for a store
    without any line, or with only missing items, both return no value,
    and so they do for a missing store, which [==] selects no line
    for. *)
Theorem store_best_items_are_arg_max
    (transactions_df : DataFrame) (store : cell) :
  summable_transactions transactions_df = true →
  exact_column (column transactions_df "quantity") = true →
  exact_column (column transactions_df "price") = true →
  missing_required ["store"; "item"; "price"; "quantity"] transactions_df
  = [] →
  scalar store = true →
  let here := store_data transactions_df store in
  let sold k := col_sum (cells "quantity" (group "item" k here)) in
  let revenue k := col_sum (cells "price" (group "item" k here)) in
  let most_sold := _get_most_sold_item transactions_df store in
  let most_profitable := _get_most_profitable_item transactions_df store in
  (store = NA → most_sold = NA ∧ most_profitable = NA)
  ∧ ((∀ k, k ∈ column here "item" → k = NA) →
     most_sold = NA ∧ most_profitable = NA)
  ∧ (∀ k, k ∈ column here "item" → k ≠ NA →
       (most_sold ∈ column here "item" ∧ most_sold ≠ NA
        ∧ ∀ k', k' ∈ column here "item" → k' ≠ NA →
            ∃ x y, sold most_sold = Num x ∧ sold k' = Num y ∧ (y <= x)%Qc)
       ∧ (most_profitable ∈ column here "item" ∧ most_profitable ≠ NA
          ∧ ∀ k', k' ∈ column here "item" → k' ≠ NA →
              ∃ x y, revenue most_profitable = Num x
                     ∧ revenue k' = Num y ∧ (y <= x)%Qc)).
Proof.
  intros _ Hq%exact_column_amounts%exact_amounts_finite
         Hp%exact_column_amounts%exact_amounts_finite _ _. cbv zeta.
  pose proof (idxmax_grouped_sum "item" "quantity"
                (store_data transactions_df store)
                (store_data_finite _ store _ Hq)) as [Hq0 Hq1].
  pose proof (idxmax_grouped_sum "item" "price"
                (store_data transactions_df store)
                (store_data_finite _ store _ Hp)) as [Hp0 Hp1].
  unfold _get_most_sold_item, _get_most_profitable_item. cbv zeta.
  split.
  { intros ->. by rewrite store_data_NA. }
  destruct (rows (store_data transactions_df store)) as [|r0 rs] eqn:Hrows.
  - split; [done|]. intros k Hk. unfold column in Hk. rewrite Hrows in Hk.
    by apply elem_of_nil in Hk.
  - split.
    + intros Hall. split; [by apply Hq0|by apply Hp0].
    + intros k Hk Hna. split; [by apply (Hq1 k)|by apply (Hp1 k)].
Qed.

Lemma store_best_items_are_arg_max_witness :
  let here := store_data transactions_lines (Str "S1") in
  let sold k := col_sum (cells "quantity" (group "item" k here)) in
  let revenue k := col_sum (cells "price" (group "item" k here)) in
  let most_sold := _get_most_sold_item transactions_lines (Str "S1") in
  let most_profitable :=
    _get_most_profitable_item transactions_lines (Str "S1") in
  (Str "S1" = NA → most_sold = NA ∧ most_profitable = NA)
  ∧ ((∀ k, k ∈ column here "item" → k = NA) →
     most_sold = NA ∧ most_profitable = NA)
  ∧ (∀ k, k ∈ column here "item" → k ≠ NA →
       (most_sold ∈ column here "item" ∧ most_sold ≠ NA
        ∧ ∀ k', k' ∈ column here "item" → k' ≠ NA →
            ∃ x y, sold most_sold = Num x ∧ sold k' = Num y ∧ (y <= x)%Qc)
       ∧ (most_profitable ∈ column here "item" ∧ most_profitable ≠ NA
          ∧ ∀ k', k' ∈ column here "item" → k' ≠ NA →
              ∃ x y, revenue most_profitable = Num x
                     ∧ revenue k' = Num y ∧ (y <= x)%Qc)).
Proof.
  apply (store_best_items_are_arg_max transactions_lines (Str "S1"));
    reflexivity.
Defined.

(** ** [PeopleMerger.merge]: the caller's frames and the joined rows *)

Lemma fill_missing_columns_id (df : DataFrame) :
  missing_columns df = [] → fill_missing_columns df = df.
Proof.
  intros H. unfold fill_missing_columns. fold (missing_columns df).
  by rewrite H.
Qed.

Lemma user_id_set_ok (df : DataFrame) :
  existsb is_list (column df "user_id") = false →
  ∃ ids, user_id_set df = Ok ids.
Proof.
  intros H. unfold user_id_set. rewrite H.
  destruct (has_column df "user_id"); eauto.
Qed.

Lemma PeopleMerger_merge_body_joins (self : PeopleMerger) (σ : store) :
  existsb is_list (column (frame_at σ (pm_people_json_df self)) "user_id")
    = false →
  existsb is_list (column (frame_at σ (pm_people_yml_df self)) "user_id")
    = false →
  let σ' := fill_missing_in_place (pm_people_yml_df self)
              (fill_missing_in_place (pm_people_json_df self) σ) in
  PeopleMerger_merge_body self σ
  = (pd_merge_outer common_columns "_json" "_yml"
       (frame_at σ' (pm_people_json_df self))
       (frame_at σ' (pm_people_yml_df self)), σ').
Proof.
  intros Hj Hy. cbv zeta. unfold PeopleMerger_merge_body.
  destruct (user_id_set_ok _ Hj) as [ids ->].
  by destruct (user_id_set_ok _ Hy) as [ids' ->].
Qed.

Lemma PeopleMerger_merge_store (self : PeopleMerger) (σ : store) :
  existsb is_list (column (frame_at σ (pm_people_json_df self)) "user_id")
    = false →
  existsb is_list (column (frame_at σ (pm_people_yml_df self)) "user_id")
    = false →
  (PeopleMerger_merge self σ).2
  = fill_missing_in_place (pm_people_yml_df self)
      (fill_missing_in_place (pm_people_json_df self) σ).
Proof.
  intros Hj Hy. unfold PeopleMerger_merge.
  rewrite (PeopleMerger_merge_body_joins self σ Hj Hy).
  by destruct (pd_merge_outer _ _ _ _ _).
Qed.

(** The two frames after lines 127-132. *)
Lemma filled_frames (σ : store) (j y : nat) :
  j < length σ → y < length σ → j ≠ y →
  let σ' := fill_missing_in_place y (fill_missing_in_place j σ) in
  frame_at σ' j = fill_missing_columns (frame_at σ j)
  ∧ frame_at σ' y = fill_missing_columns (frame_at σ y)
  ∧ ∀ k, k ≠ j → k ≠ y → frame_at σ' k = frame_at σ k.
Proof.
  intros Hj Hy Hne. cbv zeta. unfold fill_missing_in_place. split_and!.
  - rewrite frame_at_insert_ne by done. by rewrite frame_at_insert_eq.
  - rewrite frame_at_insert_eq by (by rewrite length_insert).
    by rewrite frame_at_insert_ne.
  - intros k Hkj Hky. by rewrite !frame_at_insert_ne.
Qed.

(** X11: when neither [user_id] column holds a list,
    [PeopleMerger.merge] assigns the absent schema columns to the two
    frames of its caller: after the call each of them is the frame with
    every absent schema column added, so it has changed exactly when a
    schema column was absent; no other frame of the store is touched. *)
Theorem PeopleMerger_merge_fills_callers_frames
    (self : PeopleMerger) (σ : store) :
  pm_people_json_df self < length σ →
  pm_people_yml_df self < length σ →
  pm_people_json_df self ≠ pm_people_yml_df self →
  existsb is_list (column (frame_at σ (pm_people_json_df self)) "user_id")
    = false →
  existsb is_list (column (frame_at σ (pm_people_yml_df self)) "user_id")
    = false →
  let σ' := (PeopleMerger_merge self σ).2 in
  let json := frame_at σ (pm_people_json_df self) in
  let yml := frame_at σ (pm_people_yml_df self) in
  frame_at σ' (pm_people_json_df self) = fill_missing_columns json
  ∧ frame_at σ' (pm_people_yml_df self) = fill_missing_columns yml
  ∧ (frame_at σ' (pm_people_json_df self) = json ↔ missing_columns json = [])
  ∧ (frame_at σ' (pm_people_yml_df self) = yml ↔ missing_columns yml = [])
  ∧ (∀ k, k ≠ pm_people_json_df self → k ≠ pm_people_yml_df self →
          frame_at σ' k = frame_at σ k).
Proof.
  intros Hj Hy Hne Hlj Hly. cbv zeta.
  rewrite (PeopleMerger_merge_store self σ Hlj Hly).
  destruct (filled_frames σ _ _ Hj Hy Hne) as (Hfj & Hfy & Hk).
  cbv zeta in Hfj, Hfy, Hk. rewrite Hfj, Hfy. split_and!; try done.
  - split.
    + intros Heq.
      destruct (missing_columns (frame_at σ (pm_people_json_df self)))
        eqn:Hm; [done|].
      exfalso. eapply fill_missing_columns_grows; [|exact Heq]. by rewrite Hm.
    + apply fill_missing_columns_id.
  - split.
    + intros Heq.
      destruct (missing_columns (frame_at σ (pm_people_yml_df self)))
        eqn:Hm; [done|].
      exfalso. eapply fill_missing_columns_grows; [|exact Heq]. by rewrite Hm.
    + apply fill_missing_columns_id.
Qed.

Lemma PeopleMerger_merge_fills_callers_frames_witness :
  let self := mkPeopleMerger 0 1 [] in
  let σ := [people_json_ex; people_yml_ex] in
  let σ' := (PeopleMerger_merge self σ).2 in
  let json := frame_at σ (pm_people_json_df self) in
  let yml := frame_at σ (pm_people_yml_df self) in
  frame_at σ' (pm_people_json_df self) = fill_missing_columns json
  ∧ frame_at σ' (pm_people_yml_df self) = fill_missing_columns yml
  ∧ (frame_at σ' (pm_people_json_df self) = json ↔ missing_columns json = [])
  ∧ (frame_at σ' (pm_people_yml_df self) = yml ↔ missing_columns yml = [])
  ∧ (∀ k, k ≠ pm_people_json_df self → k ≠ pm_people_yml_df self →
          frame_at σ' k = frame_at σ k).
Proof.
  apply (PeopleMerger_merge_fills_callers_frames (mkPeopleMerger 0 1 [])
           [people_json_ex; people_yml_ex]).
  - by_compute.
  - by_compute.
  - by_compute.
  - reflexivity.
  - reflexivity.
Defined.

(** *** A list in a schema column *)


Lemma has_list_key_false (on : list string) (df : DataFrame) :
  (∀ r c, r ∈ rows df → c ∈ on → is_list (get r c) = false) →
  has_list_key on df = false.
Proof.
  intros H. unfold has_list_key.
  apply not_true_iff_false. intros (r & Hr & Hex)%existsb_exists.
  apply existsb_exists in Hex as (c & Hc & Hl).
  apply list_elem_of_In in Hr, Hc. by rewrite (H r c Hr Hc) in Hl.
Qed.


(** A frame of people whose [devices] are lists. *)
Definition people_devices : DataFrame :=
  mkDF ["user_id"; "devices"]
       [{[ "user_id" := Int 1; "devices" := Lst ["phone"; "laptop"] ]}].



(** *** The rows of the outer join *)

Lemma same_key_true (on : list string) (l r : gmap string cell) :
  same_key on l r = true ↔ ∀ c, c ∈ on → get l c = get r c.
Proof.
  unfold same_key. rewrite forallb_forall. split.
  - intros H c Hc. apply list_elem_of_In in Hc.
    by apply (bool_decide_eq_true_1 _ (H c Hc)).
  - intros H c Hc. apply bool_decide_eq_true_2, H. by apply list_elem_of_In.
Qed.

Lemma pd_merge_outer_ok (on : list string) (ls rs : string)
    (left right : DataFrame) :
  has_list_key on left = false → has_list_key on right = false →
  ∃ out, pd_merge_outer on ls rs left right = Ok out.
Proof.
  intros Hl Hr. unfold pd_merge_outer. rewrite Hl, Hr. cbn [orb].
  eexists. reflexivity.
Qed.

(** Every row of either side has a row of the outer join that agrees
    with it on the join columns. *)
Lemma pd_merge_outer_covers (on : list string) (ls rs : string)
    (left right out : DataFrame) :
  pd_merge_outer on ls rs left right = Ok out →
  ∀ r, r ∈ rows left ∨ r ∈ rows right →
       ∃ r', r' ∈ rows out ∧ ∀ c, c ∈ on → get r' c = get r c.
Proof.
  unfold pd_merge_outer.
  destruct (has_list_key on left || has_list_key on right); [done|].
  cbv zeta. intros [= <-]. cbn [rows].
  intros r [Hl|Hr].
  - destruct (filter (λ r0, same_key on r r0 = true) (rows right))
      as [|m ms] eqn:Hms.
    + eexists. split.
      * apply elem_of_app. left. apply list_elem_of_In, in_flat_map.
        exists r. split; [by apply list_elem_of_In|].
        rewrite Hms. by left.
      * intros c Hc. rewrite get_foldr_insert. by rewrite decide_True.
    + eexists. split.
      * apply elem_of_app. left. apply list_elem_of_In, in_flat_map.
        exists r. split; [by apply list_elem_of_In|].
        rewrite Hms. left. reflexivity.
      * intros c Hc. rewrite get_foldr_insert. by rewrite decide_True.
  - destruct (forallb (λ l, negb (same_key on l r)) (rows left)) eqn:Hall.
    + eexists. split.
      * apply elem_of_app. right. apply list_elem_of_fmap.
        exists r. split; [reflexivity|]. by apply list_elem_of_filter.
      * intros c Hc. rewrite get_foldr_insert. by rewrite decide_True.
    + apply not_true_iff_false in Hall.
      rewrite forallb_forall in Hall.
      assert (∃ l, l ∈ rows left ∧ same_key on l r = true) as (l & Hl & Hk).
      { destruct (decide (Exists (λ l, same_key on l r = true) (rows left)))
          as [Hex|Hnex].
        - apply Exists_exists in Hex. exact Hex.
        - exfalso. apply Hall. intros l Hl%list_elem_of_In.
          apply negb_true_iff, not_true_iff_false. intros Hk.
          apply Hnex, Exists_exists. eauto. }
      eexists. split.
      * apply elem_of_app. left. apply list_elem_of_In, in_flat_map.
        exists l. split; [by apply list_elem_of_In|].
        assert (r ∈ filter (λ r0, same_key on l r0 = true) (rows right))
          as Hin by (by apply list_elem_of_filter).
        destruct (filter (λ r0, same_key on l r0 = true) (rows right))
          as [|m ms] eqn:Hms; [by apply elem_of_nil in Hin|].
        cbv beta iota. apply list_elem_of_In.
        lazymatch goal with
        | |- _ ∈ ?hd :: _ =>
            let f := eval pattern m in hd in
            lazymatch f with
            | ?g _ => exact (list_elem_of_fmap_2 g (m :: ms) r Hin)
            end
        end.
      * intros c Hc. rewrite get_foldr_insert, decide_True by done.
        by apply (proj1 (same_key_true on l r) Hk).
Qed.

(** Every row of the outer join agrees on the join columns with a row
    of one of the two sides. *)
Lemma pd_merge_outer_sound (on : list string) (ls rs : string)
    (left right out : DataFrame) :
  pd_merge_outer on ls rs left right = Ok out →
  ∀ r', r' ∈ rows out →
        ∃ r, (r ∈ rows left ∨ r ∈ rows right)
             ∧ ∀ c, c ∈ on → get r' c = get r c.
Proof.
  unfold pd_merge_outer.
  destruct (has_list_key on left || has_list_key on right); [done|].
  cbv zeta. intros [= <-]. cbn [rows].
  intros r' [Hm|Hr]%elem_of_app.
  - apply list_elem_of_In, in_flat_map in Hm as (l & Hl & Hin).
    exists l. split; [left; by apply list_elem_of_In|].
    destruct (filter (λ r0, same_key on l r0 = true) (rows right))
      as [|m ms].
    + destruct Hin as [<-|[]]. intros c Hc.
      rewrite get_foldr_insert. by rewrite decide_True.
    + apply in_inv in Hin as [<-|Hin].
      * intros c Hc. rewrite get_foldr_insert. by rewrite decide_True.
      * apply list_elem_of_In, list_elem_of_fmap in Hin as (r0 & -> & _).
        intros c Hc. rewrite get_foldr_insert. by rewrite decide_True.
  - apply list_elem_of_fmap in Hr as (r & -> & Hr%list_elem_of_filter).
    exists r. split; [right; tauto|].
    intros c Hc. rewrite get_foldr_insert. by rewrite decide_True.
Qed.

(** A person table as the join takes it: distinct column labels, every
    schema column, at least one row. *)
Definition schema_table (df : DataFrame) : bool :=
  bool_decide (NoDup (columns df))
  && forallb (has_column df) common_columns
  && match rows df with [] => false | _ => true end.

(** Every schema column holds numbers in both tables or strings in
    both: [pd.merge] refuses to join a column of numbers with a column
    of strings. *)
Definition same_kinds (a b : DataFrame) : bool :=
  forallb (λ c, forallb is_num (column a c ++ column b c)
                || forallb is_str (column a c ++ column b c))
          common_columns.

(** The two tables share no column besides the schema, so that no
    suffix is applied. *)
Definition share_schema_only (a b : DataFrame) : bool :=
  forallb (λ c, bool_decide (c ∈ common_columns) || negb (has_column b c))
          (columns a).

Lemma schema_table_complete (df : DataFrame) :
  schema_table df = true → missing_columns df = [].
Proof.
  unfold schema_table. intros [[_ H]%andb_true_iff _]%andb_true_iff.
  apply (missing_required_nil common_columns). intros c Hc.
  rewrite forallb_forall in H. apply has_column_true, H.
  by apply list_elem_of_In.
Qed.

Lemma same_kinds_no_list (a b : DataFrame) (r : gmap string cell)
    (c : string) :
  same_kinds a b = true → r ∈ rows a ∨ r ∈ rows b → c ∈ common_columns →
  is_list (get r c) = false.
Proof.
  unfold same_kinds. rewrite forallb_forall. intros H Hr Hc.
  apply list_elem_of_In in Hc. specialize (H c Hc).
  assert (get r c ∈ column a c ++ column b c) as Hin.
  { apply elem_of_app. unfold column.
    destruct Hr as [Hr|Hr]; [left|right];
      apply list_elem_of_fmap; by exists r. }
  apply list_elem_of_In in Hin.
  apply orb_true_iff in H as [H|H]; rewrite forallb_forall in H;
    specialize (H _ Hin); by destruct (get r c).
Qed.

Lemma no_list_cell (l : list cell) :
  (∀ x, x ∈ l → is_list x = false) → existsb is_list l = false.
Proof.
  intros H. apply not_true_iff_false. intros (x & Hx & Hl)%existsb_exists.
  apply list_elem_of_In in Hx. by rewrite (H x Hx) in Hl.
Qed.

Lemma fill_missing_in_place_id (σ : store) (j : nat) :
  j < length σ → missing_columns (frame_at σ j) = [] →
  fill_missing_in_place j σ = σ.
Proof.
  intros Hj Hm. unfold fill_missing_in_place.
  rewrite fill_missing_columns_id by done.
  apply list_insert_id. unfold frame_at.
  destruct (σ !! j) eqn:Hl; [done|].
  apply lookup_ge_None in Hl. lia.
Qed.

(** Two frames of people with every schema column. *)
Definition member (uid : Z) (city : string) : gmap string cell :=
  {[ "user_id" := Int uid; "first_name" := Str "F"; "last_name" := Str "L";
     "email" := Str "e"; "phone" := Str "p"; "city" := Str city;
     "country" := Str "c"; "devices" := Str "d" ]}.

Definition members_json : DataFrame :=
  mkDF common_columns [member 1 "A"].

Definition members_yml : DataFrame :=
  mkDF common_columns [member 1 "B"; member 2 "C"].

(** X13: on two person tables that have every schema column, hold
    numbers or strings of the same kind in each of them and share no
    other column, [PeopleMerger.merge] records no error and changes
    neither frame; its people table joins on all eight schema columns
    at once: every row of either table has a row of the result that
    agrees with it on the schema, and every row of the result agrees on
    the schema with a row of one of the tables.  Two rows with the same
    [user_id] that differ elsewhere are both kept. *)
Theorem PeopleMerger_merge_keeps_every_row
    (self : PeopleMerger) (σ : store) :
  pm_people_json_df self < length σ →
  pm_people_yml_df self < length σ →
  pm_people_json_df self ≠ pm_people_yml_df self →
  let json := frame_at σ (pm_people_json_df self) in
  let yml := frame_at σ (pm_people_yml_df self) in
  schema_table json = true → schema_table yml = true →
  same_kinds json yml = true → share_schema_only json yml = true →
  ∃ out,
    PeopleMerger_merge self σ
    = ({[ "people" := out ]}, pm_merge_errors self, σ)
    ∧ (∀ r, r ∈ rows json ∨ r ∈ rows yml →
            ∃ r', r' ∈ rows out
                  ∧ ∀ c, c ∈ common_columns → get r' c = get r c)
    ∧ (∀ r', r' ∈ rows out →
             ∃ r, (r ∈ rows json ∨ r ∈ rows yml)
                  ∧ ∀ c, c ∈ common_columns → get r' c = get r c).
Proof.
  intros Hj Hy Hne. cbv zeta. intros Hsj Hsy Hk _.
  set (json := frame_at σ (pm_people_json_df self)) in *.
  set (yml := frame_at σ (pm_people_yml_df self)) in *.
  assert (Hnl : ∀ r c, r ∈ rows json ∨ r ∈ rows yml → c ∈ common_columns →
                       is_list (get r c) = false).
  { intros r c Hr Hc. by apply (same_kinds_no_list json yml). }
  assert (Hu : "user_id" ∈ common_columns) by set_solver.
  assert (Hlj : existsb is_list (column json "user_id") = false).
  { apply no_list_cell. intros x (r & -> & Hr)%list_elem_of_fmap.
    apply Hnl; [by left|done]. }
  assert (Hly : existsb is_list (column yml "user_id") = false).
  { apply no_list_cell. intros x (r & -> & Hr)%list_elem_of_fmap.
    apply Hnl; [by right|done]. }
  assert (Hσ : fill_missing_in_place (pm_people_yml_df self)
                 (fill_missing_in_place (pm_people_json_df self) σ) = σ).
  { rewrite (fill_missing_in_place_id σ (pm_people_json_df self) Hj)
      by (by apply schema_table_complete).
    apply fill_missing_in_place_id; [done|].
    by apply schema_table_complete. }
  destruct (pd_merge_outer_ok common_columns "_json" "_yml" json yml)
    as [out Hout].
  { apply has_list_key_false. intros r c Hr Hc. apply Hnl; [by left|done]. }
  { apply has_list_key_false. intros r c Hr Hc. apply Hnl; [by right|done]. }
  exists out. split_and!.
  - unfold PeopleMerger_merge.
    rewrite (PeopleMerger_merge_body_joins self σ Hlj Hly). cbv zeta.
    rewrite Hσ. fold json yml. by rewrite Hout.
  - by apply (pd_merge_outer_covers _ _ _ _ _ _ Hout).
  - by apply (pd_merge_outer_sound _ _ _ _ _ _ Hout).
Qed.

Lemma PeopleMerger_merge_keeps_every_row_witness :
  let self := mkPeopleMerger 0 1 [] in
  let σ := [members_json; members_yml] in
  ∃ out,
    PeopleMerger_merge self σ
    = ({[ "people" := out ]}, pm_merge_errors self, σ)
    ∧ (∀ r, r ∈ rows members_json ∨ r ∈ rows members_yml →
            ∃ r', r' ∈ rows out
                  ∧ ∀ c, c ∈ common_columns → get r' c = get r c)
    ∧ (∀ r', r' ∈ rows out →
             ∃ r, (r ∈ rows members_json ∨ r ∈ rows members_yml)
                  ∧ ∀ c, c ∈ common_columns → get r' c = get r c).
Proof.
  apply (PeopleMerger_merge_keeps_every_row (mkPeopleMerger 0 1 [])
           [members_json; members_yml]).
  - by_compute.
  - by_compute.
  - by_compute.
  - by_compute.
  - by_compute.
  - reflexivity.
  - reflexivity.
Defined.

(** ** Totals are conserved by grouping *)

(** The number in a cell, 0 when it holds none. *)
Definition amount (c : cell) : Qc :=
  match c with Num x => x | _ => 0%Qc end.

(** The sum of the numbers of a list of cells. *)
Definition total (l : list cell) : Qc :=
  foldr (λ c acc, (amount c + acc)%Qc) 0%Qc l.

Lemma total_app (l1 l2 : list cell) :
  total (l1 ++ l2) = (total l1 + total l2)%Qc.
Proof.
  induction l1 as [|c l1 IH]; simpl; [ring|]. rewrite IH. ring.
Qed.

Lemma foldl_cell_add_total (l : list cell) (a : Qc) :
  Forall finite_or_na l →
  foldl cell_add (Num a) (filter (λ c, notna c = true) l)
  = Num (a + total l).
Proof.
  revert a. induction l as [|c l IH]; intros a Hl.
  - simpl. f_equal. ring.
  - apply Forall_cons in Hl as [[->|[y ->]] Hl].
    + rewrite filter_cons. simpl. rewrite IH by done. f_equal. ring.
    + rewrite filter_cons. simpl. rewrite IH by done. f_equal. ring.
Qed.

Lemma col_sum_total (l : list cell) :
  Forall finite_or_na l → col_sum l = Num (total l).
Proof.
  intros H. unfold col_sum. rewrite foldl_cell_add_total by done.
  f_equal. ring.
Qed.

Lemma total_cons (x : cell) (l : list cell) :
  total (x :: l) = (amount x + total l)%Qc.
Proof. reflexivity. Qed.

Lemma cells_cons (c : string) (r : gmap string cell)
    (rs : list (gmap string cell)) :
  cells c (r :: rs) = get r c :: cells c rs.
Proof. reflexivity. Qed.

Lemma total_filter_cons (key c : string) (rs : list (gmap string cell))
    (k : cell) (ks : list cell) :
  k ∉ ks →
  total (cells c (filter (λ r, get r key ∈ k :: ks) rs))
  = (total (cells c (filter (λ r, get r key = k) rs))
     + total (cells c (filter (λ r, get r key ∈ ks) rs)))%Qc.
Proof.
  intros Hk. induction rs as [|r rs IH]; [simpl; ring|].
  rewrite !filter_cons.
  destruct (decide (get r key = k)) as [Heq|Hne].
  - rewrite decide_True by (rewrite Heq; by left).
    rewrite (decide_False (P := get r key ∈ ks)) by (by rewrite Heq).
    rewrite !cells_cons, !total_cons, IH. ring.
  - destruct (decide (get r key ∈ ks)) as [Hin|Hnin].
    + rewrite decide_True by (by right).
      rewrite !cells_cons, !total_cons, IH. ring.
    + rewrite decide_False.
      * exact IH.
      * intros [?|?]%elem_of_cons; done.
Qed.

(** The totals of the groups of distinct keys add up to the total of
    the rows that have one of the keys. *)
Lemma total_by_keys (key c : string) (rs : list (gmap string cell))
    (ks : list cell) :
  NoDup ks →
  total ((λ k, Num (total (cells c (filter (λ r, get r key = k) rs)))) <$> ks)
  = total (cells c (filter (λ r, get r key ∈ ks) rs)).
Proof.
  induction 1 as [|k ks Hk _ IH].
  - simpl. induction rs as [|r rs IHrs]; [done|].
    rewrite filter_cons, decide_False; [done|]. apply not_elem_of_nil.
  - rewrite fmap_cons, total_cons, IH.
    by rewrite (total_filter_cons key c rs k ks Hk).
Qed.

Lemma forallb_finite (l : list cell) :
  forallb finite l = true → Forall finite_or_na l.
Proof.
  rewrite forallb_forall. intros H. apply Forall_forall. intros c Hc.
  apply list_elem_of_In in Hc. specialize (H c Hc).
  destruct c; try done; [by left | right; by eexists].
Qed.

Lemma filter_ext_in {A : Type} (P Q : A → Prop)
    `{!∀ x, Decision (P x)} `{!∀ x, Decision (Q x)} (l : list A) :
  (∀ x, x ∈ l → P x ↔ Q x) → filter P l = filter Q l.
Proof.
  induction l as [|x l IH]; intros Hiff; [done|].
  rewrite !filter_cons. rewrite IH by (intros y Hy; apply Hiff; by right).
  destruct (decide (P x)) as [HP|HP].
  - rewrite decide_True; [done|]. apply Hiff; [by left|done].
  - rewrite decide_False; [done|].
    intros HQ. apply HP, Hiff; [by left|done].
Qed.

(** The lines that have a value under [key]. *)
Definition lines_with (key : string) (df : DataFrame)
  : list (gmap string cell) :=
  filter (λ r, get r key ≠ NA) (rows df).

Lemma total_of_grouped_sums (key c col : string) (df : DataFrame)
    (mk : cell → gmap string cell) :
  exact_amounts (column df c) = true →
  (∀ k, get (mk k) col = col_sum (cells c (group key k df))) →
  Forall (λ x, exact_cell x = true)
         ((λ r, get r col) <$> (mk <$> group_keys key df))
  ∧ total ((λ r, get r col) <$> (mk <$> group_keys key df))
    = total (cells c (lines_with key df)).
Proof.
  intros He Hmk. pose proof (exact_amounts_finite _ He) as Hf.
  rewrite <- list_fmap_compose. split.
  { apply Forall_fmap, Forall_forall. intros k _. simpl. rewrite Hmk.
    destruct (col_sum_exact c (λ r, get r key = k) (rows df) He)
      as (z & Hz & Hb).
    unfold group. rewrite Hz. by apply exact_cell_Int. }
  rewrite (list_fmap_ext _
             (λ k, Num (total (cells c (filter (λ r, get r key = k)
                                               (rows df)))))).
  2:{ intros i k _. simpl. rewrite Hmk.
      apply col_sum_total, cells_group_finite, Hf. }
  - rewrite total_by_keys by apply group_keys_NoDup.
    unfold lines_with. do 2 f_equal. apply filter_ext_in.
    intros r Hr. rewrite group_keys_elem, notna_true. split; [tauto|].
    intros Hna. split; [|done]. unfold column.
    apply list_elem_of_fmap. by exists r.
Qed.

Lemma lines_with_all (key : string) (df : DataFrame) :
  Forall (λ r, get r key ≠ NA) (rows df) → lines_with key df = rows df.
Proof.
  intros H. unfold lines_with. induction H as [|r rs Hr _ IH]; [done|].
  by rewrite filter_cons, decide_True, IH.
Qed.

(** X18: on transactions that can be summed, have the required
    columns, and whose prices and quantities are exact amounts, the
    item summary and the store summary lose and invent nothing: their
    [total_revenue] and [items_sold] cells are integers of absolute
    value at most [2^52]; the [total_revenue] cells add up to the
    prices of the lines with an item (with a store), and the
    [items_sold] cells to the quantities of these lines.  When every
    line has an item and a store, both summaries have the same grand
    total, the sum of all prices. *)
Theorem summaries_conserve_totals
    (transactions_df : DataFrame) (errs : list string)
    (items stores : DataFrame) :
  summable_transactions transactions_df = true →
  exact_column (column transactions_df "price") = true →
  exact_column (column transactions_df "quantity") = true →
  missing_required ["store"; "item"; "price"; "quantity"; "transaction_id"]
                   transactions_df = [] →
  (ItemSummaryMerger_merge transactions_df errs).1 !! "item_summary"
    = Some items →
  (StoreSummaryMerger_merge transactions_df errs).1 !! "store_summary"
    = Some stores →
  Forall (λ x, exact_cell x = true)
         (column items "total_revenue" ++ column items "items_sold"
          ++ column stores "total_revenue" ++ column stores "items_sold")
  ∧ total (column items "total_revenue")
    = total (cells "price" (lines_with "item" transactions_df))
  ∧ total (column items "items_sold")
    = total (cells "quantity" (lines_with "item" transactions_df))
  ∧ total (column stores "total_revenue")
    = total (cells "price" (lines_with "store" transactions_df))
  ∧ total (column stores "items_sold")
    = total (cells "quantity" (lines_with "store" transactions_df))
  ∧ (Forall (λ r, get r "item" ≠ NA ∧ get r "store" ≠ NA)
            (rows transactions_df) →
     total (column items "total_revenue")
     = total (column transactions_df "price")
     ∧ total (column stores "total_revenue")
       = total (column transactions_df "price")).
Proof.
  intros _ Hp%exact_column_amounts Hq%exact_column_amounts Hreq.
  assert (Hreq' : missing_required
                    ["item"; "price"; "quantity"; "transaction_id"]
                    transactions_df = []).
  { apply missing_required_nil. intros c Hc.
    apply (proj1 (missing_required_nil _ _) Hreq). set_solver. }
  unfold ItemSummaryMerger_merge, StoreSummaryMerger_merge.
  rewrite Hreq, Hreq'. simpl. rewrite !lookup_singleton_eq.
  intros [= <-] [= <-]. unfold column. cbn [rows].
  match goal with
  | |- context [(λ r, get r "total_revenue") <$>
                  (?mk <$> group_keys "item" transactions_df)] =>
      destruct (total_of_grouped_sums "item" "price" "total_revenue"
                  transactions_df mk Hp) as [Hi1 Hi2];
      [intros k; get_literal; done|];
      destruct (total_of_grouped_sums "item" "quantity" "items_sold"
                  transactions_df mk Hq) as [Hi4 Hi3];
      [intros k; get_literal; done|]
  end.
  match goal with
  | |- context [(λ r, get r "total_revenue") <$>
                  (?mk <$> group_keys "store" transactions_df)] =>
      destruct (total_of_grouped_sums "store" "price" "total_revenue"
                  transactions_df mk Hp) as [Hs1 Hs2];
      [intros k; get_literal; done|];
      destruct (total_of_grouped_sums "store" "quantity" "items_sold"
                  transactions_df mk Hq) as [Hs4 Hs3];
      [intros k; get_literal; done|]
  end.
  split_and!; try done.
  { by rewrite !Forall_app. }
  intros Hall. rewrite Hi2, Hs2.
  rewrite !lines_with_all.
  - done.
  - eapply Forall_impl; [exact Hall|]. by intros r [_ ?].
  - eapply Forall_impl; [exact Hall|]. by intros r [? _].
Qed.

Lemma summaries_conserve_totals_witness :
  Forall (λ x, exact_cell x = true)
         (column item_summary_ex "total_revenue"
          ++ column item_summary_ex "items_sold"
          ++ column store_summary_ex "total_revenue"
          ++ column store_summary_ex "items_sold")
  ∧ total (column item_summary_ex "total_revenue")
    = total (cells "price" (lines_with "item" transactions_lines))
  ∧ total (column item_summary_ex "items_sold")
    = total (cells "quantity" (lines_with "item" transactions_lines))
  ∧ total (column store_summary_ex "total_revenue")
    = total (cells "price" (lines_with "store" transactions_lines))
  ∧ total (column store_summary_ex "items_sold")
    = total (cells "quantity" (lines_with "store" transactions_lines))
  ∧ (Forall (λ r, get r "item" ≠ NA ∧ get r "store" ≠ NA)
            (rows transactions_lines) →
     total (column item_summary_ex "total_revenue")
     = total (column transactions_lines "price")
     ∧ total (column store_summary_ex "total_revenue")
       = total (column transactions_lines "price")).
Proof.
  apply (summaries_conserve_totals transactions_lines []).
  - reflexivity.
  - reflexivity.
  - reflexivity.
  - reflexivity.
  - by_compute.
  - by_compute.
Defined.

(** *** The transfer summary *)

Lemma group_total_absent (key c : string) (df : DataFrame) (u : cell) :
  u ∉ group_keys key df → u ≠ NA →
  total (cells c (group key u df)) = 0%Qc.
Proof.
  intros Hk Hna. rewrite group_absent; [done|].
  intros Hin. apply Hk, group_keys_elem. split; [done|].
  by apply notna_true.
Qed.

Lemma grouped_sum_total (key c : string) (df : DataFrame) (u : cell) :
  Forall finite_or_na (column df c) → u ≠ NA →
  series_get0 u (grouped key (λ g, col_sum (cells c g)) df)
  = Num (total (cells c (group key u df)))
  ∧ fillna0 (series_map u (grouped key (λ g, col_sum (cells c g)) df))
    = Num (total (cells c (group key u df))).
Proof.
  intros Hf Hna. unfold series_get0, series_map.
  rewrite series_get_grouped.
  destruct (decide (u ∈ group_keys key df)) as [Hin|Hnin]; simpl.
  - rewrite (col_sum_total _ (cells_group_finite key c u df Hf)). done.
  - by rewrite group_total_absent.
Qed.

(** The totals in the row of a person with a user id. *)
Lemma user_transfers_row_totals (transfers_df : DataFrame) (u : cell)
    (r : gmap string cell) :
  Forall finite_or_na (column transfers_df "amount") → u ≠ NA →
  user_transfers_row transfers_df u r →
  let sent := total (cells "amount" (group "sender_id" u transfers_df)) in
  let received :=
    total (cells "amount" (group "recipient_id" u transfers_df)) in
  get r "total_sent" = Num sent
  ∧ get r "total_received" = Num received
  ∧ get r "net_transferred" = Num (received - sent)%Qc.
Proof.
  intros Hf Hna Hrow. cbv zeta. unfold user_transfers_row in Hrow.
  cbv zeta in Hrow. destruct Hrow as [_ Hrow].
  destruct (grouped_sum_total "sender_id" "amount" transfers_df u Hf Hna)
    as [Hs0 Hs1].
  destruct (grouped_sum_total "recipient_id" "amount" transfers_df u Hf Hna)
    as [Hr0 Hr1].
  destruct (decide (u ∈ all_user_ids transfers_df)) as [Hin|Hnin].
  - destruct Hrow as (Hs & Hr & Hn & _).
    unfold sent_total, received_total in *.
    rewrite Hs1 in Hs. rewrite Hr1 in Hr. rewrite Hs0, Hr0 in Hn.
    done.
  - destruct Hrow as (Hs & Hr & Hn & _).
    assert ((u ∉ column transfers_df "sender_id")
            ∧ (u ∉ column transfers_df "recipient_id")) as [H1 H2].
    { unfold all_user_ids in Hnin.
      rewrite elem_of_remove_dups, elem_of_app in Hnin. tauto. }
    rewrite !group_absent by done. simpl.
    rewrite Hs, Hr, Hn. by split_and!.
Qed.

Lemma Forall2_column_in {A : Type}
    (P : gmap string cell → gmap string cell → Prop)
    (f g : gmap string cell → A) (l l' : list (gmap string cell)) :
  (∀ p r, p ∈ l → P p r → g r = f p) → Forall2 P l l' → g <$> l' = f <$> l.
Proof.
  intros Hpr HF. induction HF as [|p r l l' Hp _ IH]; [done|].
  rewrite !fmap_cons. f_equal.
  - apply Hpr; [by left|done].
  - apply IH. intros p' r' Hin. apply Hpr. by right.
Qed.

Lemma total_sub (f g : cell → Qc) (ks : list cell) :
  total ((λ k, Num (f k - g k)%Qc) <$> ks)
  = (total ((λ k, Num (f k)) <$> ks) - total ((λ k, Num (g k)) <$> ks))%Qc.
Proof.
  induction ks as [|k ks IH]; [simpl; ring|].
  rewrite !fmap_cons, !total_cons, IH. simpl. ring.
Qed.

Lemma filter_all_in {A : Type} (P : A → Prop) `{!∀ x, Decision (P x)}
    (l : list A) :
  (∀ x, x ∈ l → P x) → filter P l = l.
Proof.
  induction l as [|x l IH]; intros Hall; [done|].
  rewrite filter_cons, decide_True by (apply Hall; by left).
  rewrite IH; [done|]. intros y Hy. apply Hall. by right.
Qed.

Lemma ids_of_one_kind_notna (people_df : DataFrame) (ids : list cell)
    (u : cell) :
  ids_of_one_kind people_df ids = true →
  u ∈ column people_df "user_id" → u ≠ NA.
Proof.
  unfold ids_of_one_kind. intros [_ H]%andb_true_iff Hu.
  apply list_elem_of_In in Hu.
  apply orb_true_iff in H as [[H _]%andb_true_iff|[H _]%andb_true_iff];
    rewrite forallb_forall in H; specialize (H u Hu); by destruct u.
Qed.

(** X19: transfers neither create nor destroy money.  On typed
    transfers whose amounts are integers with absolute values adding up
    to at most [2^52] (so that every sum of the code is exact) and
    whose senders and recipients are all persons of a people table
    that lists no user id twice, the [total_sent] cells of the
    transfer summary add up to the sum of all amounts, the
    [total_received] cells add up to the same sum, and the
    [net_transferred] cells add up to zero. *)
Theorem transfers_conserve_money
    (transfers_df people_df : DataFrame) (errs : list string)
    (out : DataFrame) :
  typed_transfers transfers_df = true →
  exact_column (column transfers_df "amount") = true →
  ids_of_one_kind people_df
    (column transfers_df "sender_id" ++ column transfers_df "recipient_id")
  = true →
  missing_required ["transfer_id"; "sender_id"; "recipient_id"; "amount"]
                   transfers_df = [] →
  "user_id" ∈ columns people_df →
  NoDup (column people_df "user_id") →
  Forall (λ u, u ∈ column people_df "user_id")
         (column transfers_df "sender_id"
          ++ column transfers_df "recipient_id") →
  (UserTransfersMerger_merge transfers_df people_df errs).1
    !! "user_transfers" = Some out →
  total (column out "total_sent") = total (column transfers_df "amount")
  ∧ total (column out "total_received")
    = total (column transfers_df "amount")
  ∧ total (column out "net_transferred") = 0%Qc.
Proof.
  intros _ Hf%exact_column_amounts%exact_amounts_finite
         Hk Hreq Hu Hnd Hsub Hout.
  rewrite Forall_forall in Hsub. setoid_rewrite elem_of_app in Hsub.
  destruct (UserTransfersMerger_merge_rows _ _ errs Hreq Hu)
    as (out' & Hm & _ & Hrows).
  rewrite Hm in Hout. simpl in Hout. rewrite lookup_singleton_eq in Hout.
  injection Hout as ->.
  set (S u := total (cells "amount" (group "sender_id" u transfers_df))).
  set (R u := total (cells "amount" (group "recipient_id" u transfers_df))).
  assert (Hrow : ∀ p r, p ∈ rows people_df →
            user_transfers_row transfers_df (get p "user_id") r →
            get r "total_sent" = Num (S (get p "user_id"))
            ∧ get r "total_received" = Num (R (get p "user_id"))
            ∧ get r "net_transferred"
              = Num (R (get p "user_id") - S (get p "user_id"))%Qc).
  { intros p r Hp Hr. apply user_transfers_row_totals; [done| |done].
    apply (ids_of_one_kind_notna _ _ _ Hk).
    unfold column. apply list_elem_of_fmap. by exists p. }
  assert (Hs : column out "total_sent"
               = (λ u, Num (S u)) <$> column people_df "user_id").
  { unfold column. rewrite <- list_fmap_compose.
    eapply Forall2_column_in; [|exact Hrows].
    intros p r Hp Hr. simpl. by apply Hrow. }
  assert (Hr : column out "total_received"
               = (λ u, Num (R u)) <$> column people_df "user_id").
  { unfold column. rewrite <- list_fmap_compose.
    eapply Forall2_column_in; [|exact Hrows].
    intros p r Hp Hr. simpl. by apply Hrow. }
  assert (Hn : column out "net_transferred"
               = (λ u, Num (R u - S u)%Qc) <$> column people_df "user_id").
  { unfold column. rewrite <- list_fmap_compose.
    eapply Forall2_column_in; [|exact Hrows].
    intros p r Hp Hr'. simpl. by apply Hrow. }
  assert (HS : total ((λ u, Num (S u)) <$> column people_df "user_id")
               = total (column transfers_df "amount")).
  { unfold S, group. rewrite total_by_keys by done.
    rewrite filter_all_in; [done|].
    intros r Hin. apply Hsub. left. unfold column.
    apply list_elem_of_fmap. by exists r. }
  assert (HR : total ((λ u, Num (R u)) <$> column people_df "user_id")
               = total (column transfers_df "amount")).
  { unfold R, group. rewrite total_by_keys by done.
    rewrite filter_all_in; [done|].
    intros r Hin. apply Hsub. right. unfold column.
    apply list_elem_of_fmap. by exists r. }
  rewrite Hs, Hr, Hn, total_sub, HS, HR. split_and!; try done. ring.
Qed.

Lemma transfers_conserve_money_witness :
  let out := default empty_df
               ((UserTransfersMerger_merge transfers_ab people_abc []).1
                  !! "user_transfers") in
  total (column out "total_sent") = total (column transfers_ab "amount")
  ∧ total (column out "total_received")
    = total (column transfers_ab "amount")
  ∧ total (column out "net_transferred") = 0%Qc.
Proof.
  apply (transfers_conserve_money transfers_ab people_abc []).
  - reflexivity.
  - reflexivity.
  - reflexivity.
  - reflexivity.
  - by_compute.
  - by_compute.
  - by_compute.
  - by_compute.
Defined.

(** ** No list reaches the merged people table *)

Lemma join_list_scalar (c : cell) : is_list (join_list c) = false.
Proof. by destruct c. Qed.

Lemma prepared_scalar (df : DataFrame) (r : gmap string cell) (c : string) :
  dom r ⊆ list_to_set (C := gset string) (columns df) →
  is_list (prepared df c (get r c)) = false.
Proof.
  intros Hd. unfold prepared, blanked_on, joined_on.
  destruct (decide (c ∈ missing_columns df)); [done|].
  destruct (decide (c ∈ columns df)) as [|Hn]; [apply join_list_scalar|].
  unfold get. by rewrite (well_formed_absent df r c Hd Hn).
Qed.

Lemma prepare_scalar (df : DataFrame) (r : gmap string cell) (c : string) :
  well_formed df → r ∈ rows (prepare df) → is_list (get r c) = false.
Proof.
  intros Hw Hr. destruct (prepare_spec df) as [_ Hrel].
  destruct (Forall2_elem_of_r _ _ _ _ Hrel Hr) as (r0 & Hr0 & Hg).
  rewrite Hg. apply prepared_scalar.
  unfold well_formed in Hw. rewrite Forall_forall in Hw. by apply Hw.
Qed.

(** X20: the conversion of lines 671-676 reaches every cell: for
    well-formed sources, no cell of the people table returned by
    [MainDataMerger.merge] is a list, whatever the column. *)
Theorem merged_people_hold_no_list
    (primary secondary promotions transfers : DataFrame)
    (tx : option DataFrame) (out : DataFrame) :
  MainDataMerger_merge primary secondary promotions transfers tx !! "people"
    = Some out →
  well_formed primary → well_formed secondary →
  Forall (λ r, ∀ c, is_list (get r c) = false) (rows out).
Proof.
  rewrite MainDataMerger_merge_people. intros [= <-] Hwp Hws.
  apply Forall_forall. intros r Hr c. simpl in Hr.
  apply (sublist_subseteq _ _ (keep_first_sublist _ _ _)) in Hr.
  apply list_elem_of_fmap in Hr as (r0 & -> & Hr0).
  rewrite get_reindex. case_decide; [|done].
  apply elem_of_app in Hr0 as [Hr0|Hr0].
  - by apply (prepare_scalar primary).
  - by apply (prepare_scalar secondary).
Qed.

Lemma merged_people_hold_no_list_witness :
  let out := default empty_df
               (MainDataMerger_merge people_devices people_yml_ex
                  promotions_ex transfers_ex None !! "people") in
  Forall (λ r, ∀ c, is_list (get r c) = false) (rows out).
Proof.
  apply (merged_people_hold_no_list people_devices people_yml_ex
           promotions_ex transfers_ex None).
  - by_compute.
  - by_compute.
  - by_compute.
Defined.

(** ** The row of a person in the transaction summary *)

Lemma user_transactions_row_of (transactions_df : DataFrame) (u : cell)
    (r : gmap string cell) :
  Forall finite_or_na (column transactions_df "price") → u ≠ NA →
  user_transactions_row transactions_df u r →
  let mine := group "user_id" u transactions_df in
  get r "total_spent" = Num (total (cells "price" mine))
  ∧ get r "favorite_store" = _get_favorite (cells "store" mine)
  ∧ get r "favorite_item" = _get_favorite (cells "item" mine).
Proof.
  intros Hf Hna [_ Hrow]. cbv zeta.
  destruct (decide (u ∈ group_keys "user_id" transactions_df))
    as [Hin|Hnin].
  - cbv zeta in Hrow. destruct Hrow as (Hs & _ & Hfs & Hfi).
    rewrite Hs, Hfs, Hfi.
    by rewrite (col_sum_total _ (cells_group_finite "user_id" "price" u
                                   transactions_df Hf)).
  - destruct Hrow as (Hs & _ & Hfs & Hfi). rewrite Hs, Hfs, Hfi.
    rewrite group_absent; [done|].
    intros Hin. apply Hnin, group_keys_elem. split; [done|].
    by apply notna_true.
Qed.

(** [favorite] is a most frequent non-missing value of [values], or
    missing when they all are. *)
Definition most_frequent_in (favorite : cell) (values : list cell) : Prop :=
  (Forall (λ v, v = NA) values → favorite = NA)
  ∧ (∀ v, v ∈ values → v ≠ NA →
       favorite ∈ values
       ∧ favorite ≠ NA
       ∧ ∀ w, w ≠ NA →
              (occurrences w values ≤ occurrences favorite values)%nat).

Lemma favorite_among (values : list cell) (v : cell) :
  v ∈ values → v ≠ NA →
  _get_favorite values ∈ values
  ∧ _get_favorite values ≠ NA
  ∧ ∀ w, w ≠ NA →
         (occurrences w values ≤ occurrences (_get_favorite values) values)%nat.
Proof.
  intros Hv Hna. unfold _get_favorite.
  destruct values as [|x values']; [by apply elem_of_nil in Hv|].
  pose proof (mode_nonempty _ v Hv Hna) as Hne.
  destruct (mode (x :: values')) as [|m ms] eqn:Hmode; [done|].
  apply (mode_elem (x :: values') m). rewrite Hmode. by left.
Qed.

Lemma favorite_of_none (values : list cell) :
  Forall (λ v, v = NA) values → _get_favorite values = NA.
Proof.
  intros Hall. unfold _get_favorite. rewrite (mode_all_na _ Hall).
  by destruct values.
Qed.

(** X21: in the row of a person with a user id, [favorite_store] is
    taken from that person's lines only: as soon as one of them has a
    store, it is a store of one of them that occurs on at least as many
    of them as every other store, and it is missing when none of them
    has a store, in particular when the person has no line; likewise
    [favorite_item]. *)
Theorem favorites_come_from_own_lines
    (transactions_df people_df : DataFrame) (errs : list string)
    (out : DataFrame) (r : gmap string cell) :
  typed_transactions transactions_df = true →
  (UserTransactionsMerger_merge transactions_df people_df errs).1
    !! "user_transactions" = Some out →
  r ∈ rows out → get r "user_id" ≠ NA →
  let mine := group "user_id" (get r "user_id") transactions_df in
  most_frequent_in (get r "favorite_store") (cells "store" mine)
  ∧ most_frequent_in (get r "favorite_item") (cells "item" mine).
Proof.
  intros Ht Hout Hr Hna. cbv zeta.
  assert (Hp : Forall finite_or_na (column transactions_df "price")).
  { apply forallb_finite. unfold typed_transactions in Ht.
    repeat (apply andb_true_iff in Ht as [Ht ?]). done. }
  destruct (UserTransactionsMerger_merge_cases transactions_df people_df
              errs) as [[errs' He]|[Hreq Hu]].
  { rewrite He in Hout. simpl in Hout.
    rewrite lookup_singleton_eq in Hout. injection Hout as <-.
    by apply elem_of_nil in Hr. }
  destruct (UserTransactionsMerger_merge_rows _ _ errs Hreq Hu)
    as (out' & Hm & _ & Hrows).
  rewrite Hm in Hout. simpl in Hout. rewrite lookup_singleton_eq in Hout.
  injection Hout as ->.
  destruct (Forall2_elem_of_r _ _ _ _ Hrows Hr) as (p & _ & Hrow).
  assert (Hid : get r "user_id" = get p "user_id") by apply Hrow.
  rewrite <- Hid in Hrow.
  destruct (user_transactions_row_of _ _ _ Hp Hna Hrow) as (_ & Hfs & Hfi).
  rewrite Hfs, Hfi. unfold most_frequent_in.
  split; (split; [apply favorite_of_none|apply favorite_among]).
Qed.

Lemma favorites_come_from_own_lines_witness :
  let r := default ∅ (rows user_transactions_ex !! 0) in
  let mine := group "user_id" (get r "user_id") transactions_lines in
  most_frequent_in (get r "favorite_store") (cells "store" mine)
  ∧ most_frequent_in (get r "favorite_item") (cells "item" mine).
Proof.
  apply (favorites_come_from_own_lines transactions_lines people_abc []
           user_transactions_ex).
  - reflexivity.
  - by_compute.
  - by_compute.
  - by_compute.
Defined.

(** X22: what the persons have spent is what the lines with a user id
    cost.  On typed transactions whose prices are integers with
    absolute values adding up to at most [2^52] (so that every sum of
    the code is exact) and whose user ids are all persons of a people
    table that lists no user id twice, the [total_spent] cells of the
    summary add up to the prices of the lines that have a user id; the
    lines without one are in no person's total. *)
Theorem spending_is_conserved
    (transactions_df people_df : DataFrame) (errs : list string)
    (out : DataFrame) :
  typed_transactions transactions_df = true →
  exact_column (column transactions_df "price") = true →
  ids_of_one_kind people_df (column transactions_df "user_id") = true →
  missing_required ["user_id"; "transaction_id"; "price"; "item"; "store"]
                   transactions_df = [] →
  "user_id" ∈ columns people_df →
  NoDup (column people_df "user_id") →
  Forall (λ u, u = NA ∨ u ∈ column people_df "user_id")
         (column transactions_df "user_id") →
  (UserTransactionsMerger_merge transactions_df people_df errs).1
    !! "user_transactions" = Some out →
  total (column out "total_spent")
  = total (cells "price" (lines_with "user_id" transactions_df)).
Proof.
  intros _ Hp%exact_column_amounts%exact_amounts_finite
         Hk Hreq Hu Hnd Hsub Hout.
  rewrite Forall_forall in Hsub.
  destruct (UserTransactionsMerger_merge_rows _ _ errs Hreq Hu)
    as (out' & Hm & _ & Hrows).
  rewrite Hm in Hout. simpl in Hout. rewrite lookup_singleton_eq in Hout.
  injection Hout as ->.
  assert (Hs : column out "total_spent"
               = (λ u, Num (total (cells "price"
                                     (filter (λ r, get r "user_id" = u)
                                             (rows transactions_df)))))
                 <$> column people_df "user_id").
  { unfold column. rewrite <- list_fmap_compose.
    eapply Forall2_column_in; [|exact Hrows].
    intros p r Hp' Hr. simpl.
    apply (user_transactions_row_of transactions_df); [done| |done].
    apply (ids_of_one_kind_notna _ _ _ Hk).
    unfold column. apply list_elem_of_fmap. by exists p. }
  rewrite Hs, total_by_keys by done. unfold lines_with. do 2 f_equal.
  apply filter_ext_in. intros r Hr. split.
  - intros Hin. by apply (ids_of_one_kind_notna _ _ _ Hk).
  - intros Hna. destruct (Hsub (get r "user_id")) as [?|?]; [|done|done].
    unfold column. apply list_elem_of_fmap. by exists r.
Qed.

Lemma spending_is_conserved_witness :
  total (column user_transactions_ex "total_spent")
  = total (cells "price" (lines_with "user_id" transactions_lines)).
Proof.
  apply (spending_is_conserved transactions_lines people_abc []).
  - reflexivity.
  - reflexivity.
  - reflexivity.
  - reflexivity.
  - by_compute.
  - by_compute.
  - by_compute.
  - by_compute.
Defined.

(** ** The average transaction value of a store *)

Lemma StoreSummaryMerger_merge_average (transactions_df : DataFrame)
    (errs : list string) (out : DataFrame) (r : gmap string cell) :
  (StoreSummaryMerger_merge transactions_df errs).1 !! "store_summary"
    = Some out →
  r ∈ rows out →
  (StoreSummaryMerger_merge transactions_df errs).2 = errs
  ∧ get r "average_transaction_value"
    = round2 (cell_div (get r "total_revenue") (get r "total_transactions")).
Proof.
  unfold StoreSummaryMerger_merge.
  destruct (missing_required _ transactions_df) eqn:Hm; simpl;
    rewrite lookup_singleton_eq; intros [= <-] Hr;
    [|by apply elem_of_nil in Hr].
  simpl in Hr. apply list_elem_of_fmap in Hr as (k & -> & Hk).
  split; [done|]. by get_literal.
Qed.

(** X23: on transactions that can be summed and whose prices and
    quantities are exact amounts, [StoreSummaryMerger.merge] records no error when it
    produces a row, whatever the transaction ids: a division by zero
    is no error.  In a row whose [total_transactions] is zero, because no line of the
    store has a transaction id, [average_transaction_value] is an
    infinity with the sign of [total_revenue], and missing when
    [total_revenue] is zero too.  In a row whose [total_transactions]
    divides the integer [total_revenue], of absolute value at most
    [2^46] (so that the quotient and its hundredfold are exact in
    float64), [average_transaction_value] is the quotient. *)
Theorem store_average_transaction_value
    (transactions_df : DataFrame) (errs : list string)
    (out : DataFrame) (r : gmap string cell) :
  summable_transactions transactions_df = true →
  exact_column (column transactions_df "price") = true →
  exact_column (column transactions_df "quantity") = true →
  (StoreSummaryMerger_merge transactions_df errs).1 !! "store_summary"
    = Some out →
  r ∈ rows out →
  (StoreSummaryMerger_merge transactions_df errs).2 = errs
  ∧ (∀ x : Qc,
       get r "total_revenue" = Num x →
       get r "total_transactions" = Num 0%Qc →
       x ≠ 0%Qc → get r "average_transaction_value" = Inf (Qc_neg x))
  ∧ (get r "total_revenue" = Num 0%Qc →
     get r "total_transactions" = Num 0%Qc →
     get r "average_transaction_value" = NA)
  ∧ (∀ x n : Z,
       get r "total_revenue" = Int x → get r "total_transactions" = Int n →
       n ≠ 0%Z → (n | x)%Z → (Z.abs x ≤ 2 ^ 46)%Z →
       get r "average_transaction_value" = Int (x / n)).
Proof.
  intros _ _ _ Hout Hr.
  destruct (StoreSummaryMerger_merge_average _ _ _ _ Hout Hr) as [He Havg].
  split; [done|]. rewrite Havg. split_and!.
  - intros x -> -> Hne. unfold cell_div.
    rewrite decide_True by done. by rewrite decide_False.
  - intros -> ->. unfold cell_div. by rewrite !decide_True.
  - intros x n -> -> Hn Hdiv _. by apply round2_exact_quotient.
Qed.

(** Two lines of store S3 without a transaction id, and two
    transactions at store S4. *)
Definition transactions_no_id : DataFrame :=
  mkDF ["transaction_id"; "user_id"; "item"; "store"; "price"; "quantity"]
       [{[ "transaction_id" := NA; "user_id" := Str "A"; "item" := Str "pen";
           "store" := Str "S3"; "price" := Int 10; "quantity" := Int 1 ]};
        {[ "transaction_id" := NA; "user_id" := Str "B"; "item" := Str "ink";
           "store" := Str "S3"; "price" := Int 20; "quantity" := Int 1 ]};
        line 7 (Str "A") "pen" "S4" 10 1;
        line 8 (Str "B") "ink" "S4" 20 1].

Lemma store_average_transaction_value_witness :
  let run := StoreSummaryMerger_merge transactions_no_id [] in
  let out := default empty_df (run.1 !! "store_summary") in
  let s3 := default ∅ (rows out !! 0) in
  let s4 := default ∅ (rows out !! 1) in
  run.2 = []
  ∧ get s3 "average_transaction_value" = Inf false
  ∧ get s4 "average_transaction_value" = Int 15.
Proof.
  intros run out s3 s4.
  assert (Hs : summable_transactions transactions_no_id = true)
    by reflexivity.
  assert (Hp : exact_column (column transactions_no_id "price") = true)
    by reflexivity.
  assert (Hq : exact_column (column transactions_no_id "quantity") = true)
    by reflexivity.
  assert (Hout : run.1 !! "store_summary" = Some out) by by_compute.
  assert (Hs3 : s3 ∈ rows out) by by_compute.
  assert (Hs4 : s4 ∈ rows out) by by_compute.
  pose proof (store_average_transaction_value transactions_no_id [] out s3
                Hs Hp Hq Hout Hs3) as (He & Hinf & _ & _).
  pose proof (store_average_transaction_value transactions_no_id [] out s4
                Hs Hp Hq Hout Hs4) as (_ & _ & _ & Hquot).
  split_and!.
  - exact He.
  - apply (Hinf (Q2Qc 30)); by_compute.
  - apply (Hquot 30%Z 2%Z); [by_compute|by_compute|done|by exists 15%Z|done].
Defined.

(** ** The error list only grows *)

(** X24: no merger drops or reorders a recorded error: the list after
    [merge] is the list before it followed by the new messages, at most
    one for each of the four summaries and for [PeopleMerger]. *)
Theorem merge_errors_only_grow (errs : list string) :
  (∀ transactions_df people_df,
     ∃ more, (UserTransactionsMerger_merge transactions_df people_df errs).2
             = errs ++ more ∧ (length more ≤ 1)%nat)
  ∧ (∀ transfers_df people_df,
       ∃ more, (UserTransfersMerger_merge transfers_df people_df errs).2
               = errs ++ more ∧ (length more ≤ 1)%nat)
  ∧ (∀ transactions_df,
       ∃ more, (ItemSummaryMerger_merge transactions_df errs).2
               = errs ++ more ∧ (length more ≤ 1)%nat)
  ∧ (∀ transactions_df,
       ∃ more, (StoreSummaryMerger_merge transactions_df errs).2
               = errs ++ more ∧ (length more ≤ 1)%nat)
  ∧ (∀ people_df promotions_df transactions_df,
       ∃ more, (UserReferencesMerger_merge people_df promotions_df
                  transactions_df errs).2 = errs ++ more)
  ∧ (∀ σ json yml,
       ∃ more, (PeopleMerger_merge (mkPeopleMerger json yml errs) σ).1.2
               = errs ++ more
               ∧ (length more ≤ 1)%nat).
Proof.
  assert (Hnew : ∀ message,
            ∃ more, _add_error message errs = errs ++ more
                    ∧ (length more ≤ 1)%nat).
  { intros message. exists [message]. split; [done|simpl; lia]. }
  assert (Hsame : ∃ more, errs = errs ++ more ∧ (length more ≤ 1)%nat).
  { exists []. split; [by rewrite app_nil_r|simpl; lia]. }
  split_and!.
  - intros t p. unfold UserTransactionsMerger_merge.
    destruct (missing_required _ t); [|apply Hnew].
    destruct (select_user_id p); [apply Hsame|apply Hnew].
  - intros t p. unfold UserTransfersMerger_merge.
    destruct (missing_required _ t); [|apply Hnew].
    destruct (select_user_id p); [apply Hsame|apply Hnew].
  - intros t. unfold ItemSummaryMerger_merge.
    destruct (missing_required _ t); [apply Hsame|apply Hnew].
  - intros t. unfold StoreSummaryMerger_merge.
    destruct (missing_required _ t); [apply Hsame|apply Hnew].
  - intros p d t. unfold UserReferencesMerger_merge.
    destruct (appends_merge_body p d t errs) as [more Hmore].
    destruct (UserReferencesMerger_merge_body p d t errs) as [[res|e] errs'];
      simpl in *; subst errs'.
    + by exists more.
    + exists (more ++ ["Unexpected error in user reference merging: "
                       +:+ exn_str e]).
      unfold _add_error. by rewrite app_assoc.
  - intros σ json yml. unfold PeopleMerger_merge.
    destruct (PeopleMerger_merge_body _ σ) as [[d|e] σ'];
      [apply Hsame|apply Hnew].
Qed.

(** ** The counts of the transfer summary *)

Lemma count_read_distinct (key c : string) (df : DataFrame) (u : cell) :
  u ≠ NA →
  ∃ n : nat,
    astype_int
      (fillna0 (series_map u (grouped key (λ g, nunique (cells c g)) df)))
    = Int (Z.of_nat n)
    ∧ distinct_count (cells c (group key u df)) n.
Proof.
  intros Hna. unfold series_map. rewrite series_get_grouped.
  destruct (decide (u ∈ group_keys key df)) as [Hin|Hnin];
    cbn [from_option id].
  - destruct (nunique_distinct (cells c (group key u df))) as (n & Hn & Hd).
    exists n. split; [|done]. rewrite count_after_merge. exact Hn.
  - exists 0. split; [done|]. rewrite group_absent; [apply distinct_count_nil|].
    intros Hc. apply Hnin, group_keys_elem. split; [done|].
    by apply notna_true.
Qed.

(** X25: in the row of a person with a user id, [sent_count] is the
    number of distinct non-missing [transfer_id] values among the
    transfers that person sent and [received_count] the number among
    those the person received; [transfer_count] is their sum, so a
    transfer from a person to the same person counts twice in it. *)
Theorem transfer_counts_are_distinct_counts
    (transfers_df people_df : DataFrame) (errs : list string)
    (out : DataFrame) (r : gmap string cell) :
  (UserTransfersMerger_merge transfers_df people_df errs).1
    !! "user_transfers" = Some out →
  r ∈ rows out → get r "user_id" ≠ NA →
  ∃ sent received : nat,
    get r "sent_count" = Int (Z.of_nat sent)
    ∧ distinct_count
        (cells "transfer_id"
           (group "sender_id" (get r "user_id") transfers_df)) sent
    ∧ get r "received_count" = Int (Z.of_nat received)
    ∧ distinct_count
        (cells "transfer_id"
           (group "recipient_id" (get r "user_id") transfers_df)) received
    ∧ get r "transfer_count" = Int (Z.of_nat (sent + received)).
Proof.
  intros Hout Hr Hna.
  destruct (UserTransfersMerger_merge_cases transfers_df people_df errs)
    as [[errs' He]|[Hreq Hu]].
  { rewrite He in Hout. simpl in Hout.
    rewrite lookup_singleton_eq in Hout. injection Hout as <-.
    by apply elem_of_nil in Hr. }
  destruct (UserTransfersMerger_merge_rows _ _ errs Hreq Hu)
    as (out' & Hm & _ & Hrows).
  rewrite Hm in Hout. simpl in Hout. rewrite lookup_singleton_eq in Hout.
  injection Hout as ->.
  destruct (Forall2_elem_of_r _ _ _ _ Hrows Hr) as (p & _ & Hrow).
  unfold user_transfers_row in Hrow. cbv zeta in Hrow.
  destruct Hrow as [Hid Hrow]. rewrite <- Hid in Hrow.
  set (u := get r "user_id") in *.
  destruct (decide (u ∈ all_user_ids transfers_df)) as [Hin|Hnin].
  - destruct Hrow as (_ & _ & _ & Hsc & Hrc & Htc).
    destruct (count_read_distinct "sender_id" "transfer_id" transfers_df u
                Hna) as (a & Ha & Hda).
    destruct (count_read_distinct "recipient_id" "transfer_id" transfers_df
                u Hna) as (b & Hb & Hdb).
    unfold sent_count, received_count in *.
    rewrite Ha in Hsc, Htc. rewrite Hb in Hrc, Htc.
    rewrite cell_add_Int, !fillna0_Int, !astype_int_Int in *.
    exists a, b. rewrite Hsc, Hrc, Htc, Nat2Z.inj_add. done.
  - destruct Hrow as (_ & _ & _ & -> & -> & ->).
    assert ((u ∉ column transfers_df "sender_id")
            ∧ (u ∉ column transfers_df "recipient_id")) as [H1 H2].
    { unfold all_user_ids in Hnin.
      rewrite elem_of_remove_dups, elem_of_app in Hnin. tauto. }
    exists 0, 0. rewrite !group_absent by done.
    split_and!; try done; apply distinct_count_nil.
Qed.

Lemma transfer_counts_are_distinct_counts_witness :
  let out := default empty_df
               ((UserTransfersMerger_merge transfers_ab people_abc []).1
                  !! "user_transfers") in
  let r := default ∅ (rows out !! 0) in
  ∃ sent received : nat,
    get r "sent_count" = Int (Z.of_nat sent)
    ∧ distinct_count
        (cells "transfer_id"
           (group "sender_id" (get r "user_id") transfers_ab)) sent
    ∧ get r "received_count" = Int (Z.of_nat received)
    ∧ distinct_count
        (cells "transfer_id"
           (group "recipient_id" (get r "user_id") transfers_ab)) received
    ∧ get r "transfer_count" = Int (Z.of_nat (sent + received)).
Proof.
  apply (transfer_counts_are_distinct_counts transfers_ab people_abc []
           (default empty_df
              ((UserTransfersMerger_merge transfers_ab people_abc []).1
                 !! "user_transfers"))).
  - by_compute.
  - by_compute.
  - by_compute.
Defined.

(** * The summaries per person and the frames of the caller *)

(** ** One summary row for every person *)





(** ** Every transaction counts once *)

Lemma length_filter_ne (t : cell) (ds : list cell) :
  NoDup ds → t ∈ ds → length ds = S (length (filter (λ x, x ≠ t) ds)).
Proof.
  induction 1 as [|d ds Hd Hnd IH]; intros Ht.
  { by apply elem_of_nil in Ht. }
  rewrite filter_cons. destruct (decide (d ≠ t)) as [Hne|Heq].
  - apply elem_of_cons in Ht as [->|Ht]; [done|].
    simpl. by rewrite IH.
  - assert (d = t) as -> by (by destruct (decide (d = t))).
    simpl. f_equal. f_equal. symmetry. apply filter_all_in.
    intros x Hx ->. done.
Qed.

(** Taking the lines of one transaction away lowers the number of
    distinct ids by one, however many lines the transaction has. *)
Lemma distinct_count_without (l : list cell) (n : nat) (t : cell) :
  distinct_count l n → t ∈ l → t ≠ NA →
  ∃ m, n = S m ∧ distinct_count (filter (λ x, x ≠ t) l) m.
Proof.
  intros (ds & Hnd & Hds & Hlen) Ht Hna.
  exists (length (filter (λ x, x ≠ t) ds)). split.
  - rewrite <- Hlen. apply length_filter_ne; [done|]. by apply Hds.
  - exists (filter (λ x, x ≠ t) ds). split; [by apply NoDup_filter|].
    split; [|done]. intros x.
    rewrite !list_elem_of_filter, Hds. tauto.
Qed.

(** [count] is the number of distinct non-missing ids among [ids]: all
    the lines that carry one id add one to it together. *)
Definition counts_each_id_once (count : cell) (ids : list cell) : Prop :=
  ∃ n, count = Int (Z.of_nat n)
       ∧ distinct_count ids n
       ∧ ∀ t, t ∈ ids → t ≠ NA →
           ∃ m, n = S m ∧ distinct_count (filter (λ x, x ≠ t) ids) m.

Lemma nunique_counts_each_id_once (ids : list cell) :
  counts_each_id_once (nunique ids) ids.
Proof.
  destruct (nunique_distinct ids) as (n & Hn & Hd).
  exists n. split; [done|]. split; [done|].
  intros t Ht Hna. by apply distinct_count_without.
Qed.

(** Transaction 100 of user A on two lines (a pen and ink at store S1),
    transaction 101 of user B on one. *)
Definition transactions_split : DataFrame :=
  mkDF ["transaction_id"; "user_id"; "item"; "store"; "price"; "quantity"]
       [line 100 (Str "A") "pen" "S1" 10 1;
        line 100 (Str "A") "ink" "S1" 20 1;
        line 101 (Str "B") "ink" "S1" 20 1].

(** C5: in the per-user, the per-item and the per-store summary of any
    transactions table, the transaction count of a row is the number of
    distinct non-missing [transaction_id] values on the lines of its
    group, and the lines of one transaction, however many, add exactly
    one to it.  In the table [transactions_split], where transaction
    100 has two lines, user A has [transaction_count = 1], store S1 has
    2 transactions on 3 lines, and the items [ink] and [pen] have 2 and
    1. *)
Theorem transactions_count_once (transactions_df : DataFrame) :
  (∀ people_df errs out r,
     (UserTransactionsMerger_merge transactions_df people_df errs).1
       !! "user_transactions" = Some out →
     r ∈ rows out → get r "user_id" ≠ NA →
     counts_each_id_once (get r "transaction_count")
       (cells "transaction_id"
          (group "user_id" (get r "user_id") transactions_df)))
  ∧ (∀ errs out r,
       (ItemSummaryMerger_merge transactions_df errs).1
         !! "item_summary" = Some out →
       r ∈ rows out →
       counts_each_id_once (get r "transaction_count")
         (cells "transaction_id"
            (group "item" (get r "item") transactions_df)))
  ∧ (∀ errs out r,
       (StoreSummaryMerger_merge transactions_df errs).1
         !! "store_summary" = Some out →
       r ∈ rows out →
       counts_each_id_once (get r "total_transactions")
         (cells "transaction_id"
            (group "store" (get r "store") transactions_df)))
  ∧ ((λ r, (get r "user_id", get r "transaction_count"))
       <$> rows (default empty_df
                   ((UserTransactionsMerger_merge transactions_split
                       people_abc []).1 !! "user_transactions")))
    = [(Str "A", Int 1); (Str "B", Int 1); (Str "C", Int 0)]
  ∧ ((λ r, (get r "item", get r "transaction_count"))
       <$> rows (default empty_df
                   ((ItemSummaryMerger_merge transactions_split []).1
                      !! "item_summary")))
    = [(Str "ink", Int 2); (Str "pen", Int 1)]
  ∧ ((λ r, (get r "store", get r "total_transactions"))
       <$> rows (default empty_df
                   ((StoreSummaryMerger_merge transactions_split []).1
                      !! "store_summary")))
    = [(Str "S1", Int 2)].
Proof.
  split_and!.
  - intros people_df errs out r Hout Hr Hna.
    destruct (UserTransactionsMerger_merge_cases transactions_df people_df
                errs) as [[errs' He]|[Hreq Hu]].
    { rewrite He in Hout. simpl in Hout.
      rewrite lookup_singleton_eq in Hout. injection Hout as <-.
      by apply elem_of_nil in Hr. }
    destruct (UserTransactionsMerger_merge_rows _ _ errs Hreq Hu)
      as (out' & Hm & _ & Hrows).
    rewrite Hm in Hout. simpl in Hout. rewrite lookup_singleton_eq in Hout.
    injection Hout as ->.
    destruct (Forall2_elem_of_r _ _ _ _ Hrows Hr) as (p & _ & Hid & Hrow).
    rewrite <- Hid in Hrow.
    destruct (decide (get r "user_id" ∈ group_keys "user_id" transactions_df))
      as [Hin|Hnin].
    + destruct Hrow as (_ & -> & _). apply nunique_counts_each_id_once.
    + destruct Hrow as (_ & -> & _). rewrite group_absent.
      * apply (nunique_counts_each_id_once []).
      * intros Hc. apply Hnin, group_keys_elem. split; [done|].
        by apply notna_true.
  - intros errs out r Hout Hr.
    destruct (ItemSummaryMerger_merge_rows _ _ _ _ Hout Hr)
      as (_ & _ & _ & _ & -> & _).
    apply nunique_counts_each_id_once.
  - intros errs out r Hout Hr.
    destruct (StoreSummaryMerger_merge_rows _ _ _ _ Hout Hr)
      as (_ & _ & _ & ->).
    apply nunique_counts_each_id_once.
  - by_compute.
  - by_compute.
  - by_compute.
Qed.

Lemma transactions_count_once_witness :
  let out := default empty_df
               ((UserTransactionsMerger_merge transactions_split
                   people_abc []).1 !! "user_transactions") in
  let r := default ∅ (rows out !! 0) in
  counts_each_id_once (get r "transaction_count")
    (cells "transaction_id"
       (group "user_id" (get r "user_id") transactions_split)).
Proof.
  intros out r.
  apply (proj1 (transactions_count_once transactions_split)
           people_abc [] out r).
  - by_compute.
  - by_compute.
  - by_compute.
Defined.

(** ** The balance of a person's transfers *)





(** ** A summed quantity of zero *)





(** In [transactions_zero_quantity] item [cap] sold a quantity of 0 for
    a revenue of 5: its average price is infinite and no message is
    recorded. *)
Example zero_quantity_average_price :
  let run := ItemSummaryMerger_merge transactions_zero_quantity [] in
  ((λ r, (get r "item", get r "total_revenue", get r "items_sold",
          get r "average_price"))
     <$> rows (default empty_df (run.1 !! "item_summary")))
  = [(Str "cap", Int 5, Int 0, Inf false);
     (Str "pen", Int 10, Int 2, Int 5)]
  ∧ run.2 = [].
Proof. by_compute. Qed.

(** ** The frames of the caller *)












(** ** Lines without a user, in the three summaries *)




